(** * Inventory management: repository and services over SQLite

    A shallow embedding of [src/inventory/repository.py] (the SQLite
    repository), [src/inventory/services.py] (the use cases) and
    [src/inventory/cli.py] (the console menu), with the properties of the
    specification, and further properties of the code, stated and proved
    about it.

    - Python [int] is [Z]; Python [float] and SQLite [REAL] are IEEE 754
      binary64 numbers, Rocq's primitive [float]; [str] is [string].
    - The database file is a value of type [Tables]: the rows of [products]
      and [sales] in rowid order and the two AUTOINCREMENT counters.  The
      tables exist: [SCHEMA_SQL] has run.
    - A connection holds the committed tables and the tables as the open
      transaction sees them; [commit], [rollback] and [close] are explicit.
    - Exceptions are values of [exn]; a repository or service call is a
      function from the tables to the tables it leaves and a result.
    - What SQLite and the sqlite3 module do at the edges of the types is
      part of the model: an int outside 64 bits cannot be bound
      (OverflowError), NaN is bound as NULL, negative zero is stored as zero,
      SUM overflows.  Storage faults (I/O errors, a full disk, a table out of
      rowids) are not modelled.
    - The clock ([now_iso()]) is an argument [now] of every call that reads
      it. *)

From Stdlib Require Import ZArith List String Ascii Bool Lia.
From Stdlib Require Import Floats.
From Stdlib Require Import Sorted Permutation.
Import ListNotations.

Local Open Scope string_scope.
Local Open Scope Z_scope.

(** ** Python floats *)

Module PyFloat.

(** [float(n)] for a Python int: the nearest binary64, ties to even.  An int
    below 2^63 in magnitude is converted as the machine converts a 64-bit
    integer; CPython raises OverflowError when the int is too large for a
    float. *)
Definition of_int (n : Z) : option float :=
  if Z.abs n <? 2 ^ 63 then
    let f := of_uint63 (Uint63.of_Z (Z.abs n)) in
    Some (if n <? 0 then (- f)%float else f)
  else
    match binary_normalize prec emax n 0 false with
    | S754_infinity _ => None
    | sf => Some (SF2Prim sf)
    end.

(** Round half to even of the fraction [n / d], for [0 <= n] and [0 < d]. *)
Definition div_half_even (n d : Z) : Z :=
  let q := n / d in
  let r := n mod d in
  match (2 * r ?= d) with
  | Lt => q
  | Gt => q + 1
  | Eq => if Z.even q then q else q + 1
  end.

(** The number of hundredths nearest to the exact value [m * 2^e]. *)
Definition hundredths (m : positive) (e : Z) : Z :=
  if 0 <=? e then 100 * Z.pos m * 2 ^ e
  else div_half_even (100 * Z.pos m) (2 ^ (- e)).

(** [round(x, 2)] on a float.  CPython (float.__round__ with ndigits) returns
    NaN and the infinities unchanged; otherwise it prints the exact value of
    [x] correctly rounded to two decimals (ties to even) and reads the
    decimal string back as the nearest float, keeping the sign of [x]. *)
Definition round2 (x : float) : float :=
  match Prim2SF x with
  | S754_finite s m e =>
      match hundredths m e with
      | Zpos h => SF2Prim (SFdiv prec emax (S754_finite s h 0) (S754_finite false 100 0))
      | _ => if s then neg_zero else zero
      end
  | _ => x
  end.

(** Python's [x == y] and [x < y] on floats. *)
Definition eqb (x y : float) : bool := PrimFloat.eqb x y.
Definition ltb (x y : float) : bool := PrimFloat.ltb x y.

End PyFloat.

(** ** Python strings *)

Module PyStr.

(** The characters [str.isspace()] accepts, as UTF-8 encodes them: the ASCII
    ones (U+0009 to U+000D, U+001C to U+0020), U+0085 and U+00A0 on two bytes,
    and U+1680, U+2000 to U+200A, U+2028, U+2029, U+202F, U+205F and U+3000 on
    three. *)
Definition space1 (a : ascii) : bool :=
  let n := N_of_ascii a in
  (((9 <=? n) && (n <=? 13)) || ((28 <=? n) && (n <=? 32)))%N.

Definition space2 (a b : ascii) : bool :=
  let m := N_of_ascii a in
  let n := N_of_ascii b in
  ((m =? 194) && ((n =? 133) || (n =? 160)))%N.

Definition space3 (a b c : ascii) : bool :=
  let l := N_of_ascii a in
  let m := N_of_ascii b in
  let n := N_of_ascii c in
  (((l =? 225) && (m =? 154) && (n =? 128))
   || ((l =? 226) && (m =? 128)
       && (((128 <=? n) && (n <=? 138)) || (n =? 168) || (n =? 169) || (n =? 175)))
   || ((l =? 226) && (m =? 129) && (n =? 159))
   || ((l =? 227) && (m =? 128) && (n =? 128)))%N.

(** [s.lstrip()]. *)
Fixpoint lstrip (s : string) : string :=
  match s with
  | EmptyString => EmptyString
  | String a s1 =>
      if space1 a then lstrip s1
      else
        match s1 with
        | EmptyString => s
        | String b s2 =>
            if space2 a b then lstrip s2
            else
              match s2 with
              | EmptyString => s
              | String c s3 => if space3 a b c then lstrip s3 else s
              end
        end
  end.

Definition reversed (s : string) : string :=
  string_of_list_ascii (rev (list_ascii_of_string s)).

(** [s.rstrip()], on the string read from its end. *)
Fixpoint rstrip_reversed (s : string) : string :=
  match s with
  | EmptyString => EmptyString
  | String a s1 =>
      if space1 a then rstrip_reversed s1
      else
        match s1 with
        | EmptyString => s
        | String b s2 =>
            if space2 b a then rstrip_reversed s2
            else
              match s2 with
              | EmptyString => s
              | String c s3 => if space3 c b a then rstrip_reversed s3 else s
              end
        end
  end.

Definition rstrip (s : string) : string := reversed (rstrip_reversed (reversed s)).

(** [s.strip()]. *)
Definition strip (s : string) : string := rstrip (lstrip s).

(** [s.lower() == 'y']: only y and Y are lowered to y. *)
Definition lower_is_y (s : string) : bool := String.eqb s "y" || String.eqb s "Y".

(** [if s:] an empty string is false. *)
Definition truthy (s : string) : bool :=
  match s with
  | EmptyString => false
  | _ => true
  end.

End PyStr.

(** ** Exceptions *)

(** The two classes of [sqlite3.Error] the engine raises here: a violated
    constraint ([sqlite3.IntegrityError]) and any other fault, such as the
    integer overflow of [SUM] ([sqlite3.OperationalError]). *)
Inductive sqlite3_Error : Type :=
| IntegrityError
| OperationalError.

(** The messages of the repository's [DatabaseError]s. *)
Inductive message : Type :=
| Erreur_SQLite                (* connect: "Erreur SQLite: ..." *)
| Erreur_creation_schema       (* "Erreur creation schema: ..." *)
| Contrainte_violee            (* "Contrainte violee (SKU unique ?) : ..." *)
| Erreur_insert_produit        (* "Erreur insert produit: ..." *)
| Erreur_update_produit        (* "Erreur update produit: ..." *)
| Impossible_de_supprimer      (* "Impossible de supprimer : ce produit est lie a des ventes." *)
| Erreur_suppression           (* "Erreur suppression: ..." *)
| Erreur_transaction_vente.    (* "Erreur lors de la transaction de vente: ..." *)

(** Modelled from the spec: [exceptions.py] is not in the sources; section 7
    names the domain exceptions.  A call can raise one of them, Python's
    [OverflowError], or a raw [sqlite3.Error] (inside the repository only). *)
Inductive exn : Type :=
| ValidationError
| NotFoundError
| StockError
| DatabaseError (msg : message)
| OverflowError
| sqlite3_error (e : sqlite3_Error).

Inductive result (A : Type) : Type :=
| Ok (a : A)
| Raise (e : exn).
Arguments Ok {A} a.
Arguments Raise {A} e.

(** ** Data model *)

(** Modelled from the spec: the [Product] dataclass of [models.py] (section 3):
    [id] is absent until the row is persisted. *)
Module Product.
Record t : Type := make {
  id : option Z;
  sku : string;
  name : string;
  category : string;
  unit_price_ht : float;
  quantity : Z;
  vat_rate : float;
  created_at : string
}.

(** Equality of two products on the seven fields a caller supplies, floats
    compared as Python's [==] compares them. *)
Definition same_fields (p q : t) : bool :=
  String.eqb (sku p) (sku q) && String.eqb (name p) (name q)
  && String.eqb (category p) (category q)
  && PyFloat.eqb (unit_price_ht p) (unit_price_ht q)
  && PyFloat.eqb (vat_rate p) (vat_rate q)
  && (quantity p =? quantity q)
  && String.eqb (created_at p) (created_at q).
End Product.

(** A row of table [products]. *)
Module ProductRow.
Record t : Type := make {
  id : Z;
  sku : string;
  name : string;
  category : string;
  unit_price_ht : float;
  vat_rate : float;
  quantity : Z;
  created_at : string
}.
End ProductRow.

(** A row of table [sales]. *)
Module SaleRow.
Record t : Type := make {
  id : Z;
  product_id : Z;
  sku : string;
  quantity : Z;
  unit_price_ht : float;
  vat_rate : float;
  total_ht : float;
  total_vat : float;
  total_ttc : float;
  sold_at : string
}.
End SaleRow.

(** The database file once [SCHEMA_SQL] has run: the rows of both tables in
    rowid order and the AUTOINCREMENT counters kept in [sqlite_sequence]. *)
Record Tables : Type := mkTables {
  products : list ProductRow.t;
  sales : list SaleRow.t;
  seq_products : Z;
  seq_sales : Z
}.

Definition empty_tables : Tables :=
  {| products := []; sales := []; seq_products := 0; seq_sales := 0 |}.

(** ** The SQL statements of the repository

    A statement maps the tables the transaction sees to the tables it leaves
    and its result, or raises.  A statement that raises leaves the tables as
    they were (SQLite backs a failed statement out).  Every constraint of
    [SCHEMA_SQL] is checked where SQLite checks it; [PRAGMA foreign_keys = ON]
    is set on every connection, so the foreign key of [sales] is enforced. *)

Module SQL.

Definition INT64_MIN : Z := -9223372036854775808.
Definition INT64_MAX : Z := 9223372036854775807.

(** Binding a Python int: the sqlite3 module raises OverflowError ("Python int
    too large to convert to SQLite INTEGER") outside the signed 64-bit range.
    Storage faults (I/O errors, a full disk, a table out of rowids) are
    outside the model. *)
Definition fits_int64 (n : Z) : bool := (INT64_MIN <=? n) && (n <=? INT64_MAX).

(** Binding a Python float: SQLite binds NaN as NULL, which [NOT NULL] rejects. *)
Definition not_null (x : float) : bool := negb (is_nan x).

(** A REAL column keeps a float whose value is an integer as that integer and
    reads it back as a float: negative zero comes back as zero, every other
    value as it was. *)
Definition stored_real (x : float) : float := if is_zero x then zero else x.

Definition statement (A : Type) : Type := Tables -> result (Tables * A).

Definition max_rowid (ids : list Z) : Z := fold_right Z.max 0 ids.

(** The rowid an AUTOINCREMENT table gives its next row. *)
Definition next_rowid (seq : Z) (ids : list Z) : Z := Z.max seq (max_rowid ids) + 1.

(** [NOT NULL] and [CHECK] of table [products]. *)
Definition product_constraints (unit_price_ht vat_rate : float) (quantity : Z) : bool :=
  not_null unit_price_ht && not_null vat_rate
  && PrimFloat.leb 0 unit_price_ht
  && (PrimFloat.leb 0 vat_rate && PrimFloat.leb vat_rate 1)
  && (0 <=? quantity).

(** [NOT NULL] and [CHECK] of table [sales]. *)
Definition sale_constraints (quantity : Z)
    (unit_price_ht vat_rate total_ht total_vat total_ttc : float) : bool :=
  not_null unit_price_ht && not_null vat_rate
  && not_null total_ht && not_null total_vat && not_null total_ttc
  && (0 <? quantity)
  && PrimFloat.leb 0 unit_price_ht
  && (PrimFloat.leb 0 vat_rate && PrimFloat.leb vat_rate 1)
  && PrimFloat.leb 0 total_ht && PrimFloat.leb 0 total_vat && PrimFloat.leb 0 total_ttc.

Definition has_sku (sku : string) (r : ProductRow.t) : bool :=
  String.eqb (ProductRow.sku r) sku.

Definition has_id (id : option Z) (r : ProductRow.t) : bool :=
  match id with
  | Some i => ProductRow.id r =? i
  | None => false
  end.

(** Binding a product id: None is bound as NULL, an int outside the signed
    64-bit range raises OverflowError like any other.  The id of a stored row
    is a rowid SQLite assigned, which is in that range; the rowids of the
    model are not bounded (a table out of rowids is outside the model), so
    the id of a stored row binds whatever its size. *)
Definition binds_id (id : option Z) (rows : list ProductRow.t) : bool :=
  match id with
  | Some i => fits_int64 i || existsb (has_id id) rows
  | None => true
  end.

(** INSERT INTO products(sku,name,category,unit_price_ht,vat_rate,quantity,created_at)
    VALUES(?,?,?,?,?,?,?); the result is [lastrowid]. *)
Definition insert_into_products (sku name category : string)
    (unit_price_ht vat_rate : float) (quantity : Z) (created_at : string) : statement Z :=
  fun t =>
    if negb (fits_int64 quantity) then Raise OverflowError
    else if product_constraints unit_price_ht vat_rate quantity
            && negb (existsb (has_sku sku) (products t))
    then
      let rowid := next_rowid (seq_products t) (map ProductRow.id (products t)) in
      let row := ProductRow.make rowid sku name category
                   (stored_real unit_price_ht) (stored_real vat_rate) quantity created_at in
      Ok ({| products := products t ++ [row];
             sales := sales t;
             seq_products := rowid;
             seq_sales := seq_sales t |}, rowid)
    else Raise (sqlite3_error IntegrityError).

(** SELECT * FROM products WHERE sku = ?, then [fetchone()]. *)
Definition select_product_where_sku (sku : string) : statement (option ProductRow.t) :=
  fun t => Ok (t, find (has_sku sku) (products t)).

(** SELECT * FROM products ORDER BY sku ASC, then [fetchall()]: the rows
    sorted by the bytes of their sku (BINARY collation). *)
Fixpoint insert_by_sku (r : ProductRow.t) (rows : list ProductRow.t) : list ProductRow.t :=
  match rows with
  | [] => [r]
  | x :: rows' =>
      if String.leb (ProductRow.sku r) (ProductRow.sku x) then r :: rows
      else x :: insert_by_sku r rows'
  end.

Definition order_by_sku (rows : list ProductRow.t) : list ProductRow.t :=
  fold_right insert_by_sku [] rows.

Definition select_products_order_by_sku : statement (list ProductRow.t) :=
  fun t => Ok (t, order_by_sku (products t)).

Definition set_fields (name category : string) (unit_price_ht vat_rate : float)
    (quantity : Z) (r : ProductRow.t) : ProductRow.t :=
  ProductRow.make (ProductRow.id r) (ProductRow.sku r) name category
    (stored_real unit_price_ht) (stored_real vat_rate) quantity (ProductRow.created_at r).

(** UPDATE products SET name=?, category=?, unit_price_ht=?, vat_rate=?, quantity=?
    WHERE sku=? *)
Definition update_products_where_sku (name category : string)
    (unit_price_ht vat_rate : float) (quantity : Z) (sku : string) : statement unit :=
  fun t =>
    if negb (fits_int64 quantity) then Raise OverflowError
    else if existsb (has_sku sku) (products t)
            && negb (product_constraints unit_price_ht vat_rate quantity)
    then Raise (sqlite3_error IntegrityError)
    else
      Ok ({| products :=
               map (fun r => if has_sku sku r
                             then set_fields name category unit_price_ht vat_rate quantity r
                             else r) (products t);
             sales := sales t;
             seq_products := seq_products t;
             seq_sales := seq_sales t |}, tt).

(** Whether a sale references the product row: FOREIGN KEY(product_id)
    REFERENCES products(id) ON DELETE RESTRICT. *)
Definition referenced (r : ProductRow.t) (ss : list SaleRow.t) : bool :=
  existsb (fun s => SaleRow.product_id s =? ProductRow.id r) ss.

(** DELETE FROM products WHERE sku = ? *)
Definition delete_from_products_where_sku (sku : string) : statement unit :=
  fun t =>
    if existsb (fun r => has_sku sku r && referenced r (sales t)) (products t)
    then Raise (sqlite3_error IntegrityError)
    else
      Ok ({| products := filter (fun r => negb (has_sku sku r)) (products t);
             sales := sales t;
             seq_products := seq_products t;
             seq_sales := seq_sales t |}, tt).

Definition set_quantity (quantity : Z) (r : ProductRow.t) : ProductRow.t :=
  ProductRow.make (ProductRow.id r) (ProductRow.sku r) (ProductRow.name r)
    (ProductRow.category r) (ProductRow.unit_price_ht r) (ProductRow.vat_rate r)
    quantity (ProductRow.created_at r).

(** UPDATE products SET quantity = quantity - ? WHERE id = ?

    The difference is computed on 64-bit integers.  It can leave their range
    only when the bound quantity is negative, where SQLite continues with a
    REAL; that value is positive and passes the CHECK like the exact
    difference kept here. *)
Definition update_products_decrement (qty : Z) (id : option Z) : statement unit :=
  fun t =>
    if negb (fits_int64 qty) then Raise OverflowError
    else if negb (binds_id id (products t)) then Raise OverflowError
    else if existsb (fun r => has_id id r && negb (0 <=? ProductRow.quantity r - qty))
              (products t)
    then Raise (sqlite3_error IntegrityError)
    else
      Ok ({| products :=
               map (fun r => if has_id id r
                             then set_quantity (ProductRow.quantity r - qty) r
                             else r) (products t);
             sales := sales t;
             seq_products := seq_products t;
             seq_sales := seq_sales t |}, tt).

(** INSERT INTO sales(product_id, sku, quantity, unit_price_ht, vat_rate,
                      total_ht, total_vat, total_ttc, sold_at)
    VALUES(?,?,?,?,?,?,?,?,?) *)
Definition insert_into_sales (product_id : option Z) (sku : string) (quantity : Z)
    (unit_price_ht vat_rate total_ht total_vat total_ttc : float)
    (sold_at : string) : statement unit :=
  fun t =>
    if negb (fits_int64 quantity) then Raise OverflowError
    else if negb (binds_id product_id (products t)) then Raise OverflowError
    else
      match product_id with
      | None => Raise (sqlite3_error IntegrityError)
      | Some pid =>
          if sale_constraints quantity unit_price_ht vat_rate total_ht total_vat total_ttc
             && existsb (has_id (Some pid)) (products t)
          then
            let rowid := next_rowid (seq_sales t) (map SaleRow.id (sales t)) in
            let row := SaleRow.make rowid pid sku quantity
                         (stored_real unit_price_ht) (stored_real vat_rate)
                         (stored_real total_ht) (stored_real total_vat)
                         (stored_real total_ttc) sold_at in
            Ok ({| products := products t;
                   sales := sales t ++ [row];
                   seq_products := seq_products t;
                   seq_sales := rowid |}, tt)
          else Raise (sqlite3_error IntegrityError)
      end.

(** A value of a result row, as Python receives it: [None], an [int] or a
    [float]. *)
Inductive value : Type :=
| Null
| Integer (n : Z)
| Real (x : float).

(** SUM over an INTEGER column: NULL on no row; the running 64-bit sum raises
    "integer overflow" once it leaves the range. *)
Definition sum_step (acc : option Z) (v : Z) : option Z :=
  match acc with
  | Some s => if fits_int64 (s + v) then Some (s + v) else None
  | None => None
  end.

Definition sum_integer (vs : list Z) : result value :=
  match vs with
  | [] => Ok Null
  | _ =>
      match fold_left sum_step vs (Some 0) with
      | Some s => Ok (Integer s)
      | None => Raise (sqlite3_error OperationalError)
      end
  end.

(** SUM over a REAL column: NULL on no row, otherwise a float, and NULL again
    when that float is NaN.  How the sum is rounded depends on the version of
    SQLite, which the repository does not fix: SQLite 3.40 adds the values
    one after the other to 0.0 in row order, as here; recent versions
    compensate the rounding errors of these additions
    (Kahan-Babuska-Neumaier summation), and the last bits of a total can
    differ. *)
Definition sum_real (vs : list float) : value :=
  match vs with
  | [] => Null
  | _ =>
      let s := fold_left PrimFloat.add vs zero in
      if is_nan s then Null else Real s
  end.

(** SELECT COUNT( * ) as nb_sales, SUM(quantity) as total_qty,
           SUM(total_ht) as total_ht, SUM(total_vat) as total_vat,
           SUM(total_ttc) as total_ttc FROM sales, then [fetchone()]. *)
Record stats_row : Type := {
  nb_sales : value;
  total_qty : value;
  total_ht : value;
  total_vat : value;
  total_ttc : value
}.

Definition select_sales_stats : statement stats_row :=
  fun t =>
    match sum_integer (map SaleRow.quantity (sales t)) with
    | Raise e => Raise e
    | Ok qty =>
        Ok (t, {| nb_sales := Integer (Z.of_nat (List.length (sales t)));
                  total_qty := qty;
                  total_ht := sum_real (map SaleRow.total_ht (sales t));
                  total_vat := sum_real (map SaleRow.total_vat (sales t));
                  total_ttc := sum_real (map SaleRow.total_ttc (sales t)) |})
    end.

End SQL.

(** ** Connections and transactions *)

(** An open connection: the tables as committed to the file and the tables as
    the connection sees them (they differ inside a transaction). *)
Record Connection : Type := mkConnection {
  committed : Tables;
  pending : Tables
}.

(** Code running on an open connection. *)
Definition Tx (A : Type) : Type := Connection -> Connection * result A.

(** A repository or service call: from the database file to the file it
    leaves and what the call returns or raises. *)
Definition Call (A : Type) : Type := Tables -> Tables * result A.

Definition ret {S A : Type} (a : A) : S -> S * result A := fun s => (s, Ok a).

Definition raise {S A : Type} (e : exn) : S -> S * result A := fun s => (s, Raise e).

Definition bind {S A B : Type} (m : S -> S * result A) (k : A -> S -> S * result B)
  : S -> S * result B :=
  fun s =>
    match m s with
    | (s', Ok a) => k a s'
    | (s', Raise e) => (s', Raise e)
    end.

Notation "x <- m ;; k" := (bind m (fun x => k))
  (at level 61, m at next level, right associativity).
Notation "m ;;; k" := (bind m (fun _ => k))
  (at level 61, right associativity).

(** [conn.execute(sql, params)]. *)
Definition execute {A : Type} (s : SQL.statement A) : Tx A :=
  fun c =>
    match s (pending c) with
    | Ok (t, a) => ({| committed := committed c; pending := t |}, Ok a)
    | Raise e => (c, Raise e)
    end.

(** [conn.commit()] and [conn.rollback()]. *)
Definition commit : Tx unit :=
  fun c => ({| committed := pending c; pending := pending c |}, Ok tt).

Definition rollback : Tx unit :=
  fun c => ({| committed := committed c; pending := committed c |}, Ok tt).

(** [try: body  except sqlite3.Error as e: handler e].  Any other exception
    passes through. *)
Definition try_except {A : Type} (body : Tx A) (handler : sqlite3_Error -> Tx A) : Tx A :=
  fun c =>
    match body c with
    | (c', Raise (sqlite3_error e)) => handler e c'
    | r => r
    end.

(** [with self.connect() as conn: body].  The context manager turns a
    [sqlite3.Error] leaving the body into [DatabaseError] and always closes
    the connection; closing drops what was not committed. *)
Definition connect {A : Type} (body : Tx A) : Call A :=
  fun t =>
    let (c, r) := body {| committed := t; pending := t |} in
    (committed c,
     match r with
     | Raise (sqlite3_error _) => Raise (DatabaseError Erreur_SQLite)
     | _ => r
     end).

(** ** repository.py: SQLiteRepository *)

Module SQLiteRepository.

(** [DROP TABLE IF EXISTS sales], [DROP TABLE IF EXISTS products] and
    [executescript(SCHEMA_SQL)].  The sqlite3 module opens no transaction for
    data-definition statements, so they take effect at once; together they
    leave both tables empty and the AUTOINCREMENT counters reset. *)
Definition drop_and_create : Tx unit :=
  fun _ => ({| committed := empty_tables; pending := empty_tables |}, Ok tt).

(** [executescript(SCHEMA_SQL)] on a database that has its tables: every
    statement of the script is IF NOT EXISTS. *)
Definition create_if_not_exists : Tx unit := ret tt.

Definition reset_and_create_schema : Call unit :=
  connect
    (try_except
       (drop_and_create ;;;
        commit)
       (fun _ => rollback ;;; raise (DatabaseError Erreur_creation_schema))).

Definition create_schema_if_needed : Call unit :=
  connect
    (try_except
       (create_if_not_exists ;;;
        commit)
       (fun _ => rollback ;;; raise (DatabaseError Erreur_creation_schema))).

(** [p.created_at or now_iso()]: an empty string is false. *)
Definition or_now (created_at now : string) : string :=
  match created_at with
  | EmptyString => now
  | _ => created_at
  end.

Definition insert_product (now : string) (p : Product.t) : Call Z :=
  connect
    (try_except
       (lastrowid <- execute
          (SQL.insert_into_products (Product.sku p) (Product.name p) (Product.category p)
             (Product.unit_price_ht p) (Product.vat_rate p) (Product.quantity p)
             (or_now (Product.created_at p) now)) ;;
        commit ;;;
        ret lastrowid)
       (fun e =>
          match e with
          | IntegrityError => rollback ;;; raise (DatabaseError Contrainte_violee)
          | _ => rollback ;;; raise (DatabaseError Erreur_insert_produit)
          end)).

Definition product_of_row (row : ProductRow.t) : Product.t :=
  {| Product.id := Some (ProductRow.id row);
     Product.sku := ProductRow.sku row;
     Product.name := ProductRow.name row;
     Product.category := ProductRow.category row;
     Product.unit_price_ht := ProductRow.unit_price_ht row;
     Product.vat_rate := ProductRow.vat_rate row;
     Product.quantity := ProductRow.quantity row;
     Product.created_at := ProductRow.created_at row |}.

Definition get_product_by_sku (sku : string) : Call (option Product.t) :=
  connect
    (row <- execute (SQL.select_product_where_sku sku) ;;
     match row with
     | None => ret None
     | Some r => ret (Some (product_of_row r))
     end).

Definition update_product (p : Product.t) : Call unit :=
  connect
    (try_except
       (execute
          (SQL.update_products_where_sku (Product.name p) (Product.category p)
             (Product.unit_price_ht p) (Product.vat_rate p) (Product.quantity p)
             (Product.sku p)) ;;;
        commit)
       (fun _ => rollback ;;; raise (DatabaseError Erreur_update_produit))).

Definition delete_product (sku : string) : Call unit :=
  connect
    (try_except
       (execute (SQL.delete_from_products_where_sku sku) ;;;
        commit)
       (fun e =>
          match e with
          | IntegrityError => rollback ;;; raise (DatabaseError Impossible_de_supprimer)
          | _ => rollback ;;; raise (DatabaseError Erreur_suppression)
          end)).

Definition list_products : Call (list Product.t) :=
  connect
    (rows <- execute SQL.select_products_order_by_sku ;;
     ret (map product_of_row rows)).

Definition record_sale (now : string) (product_id : option Z) (sku : string) (qty : Z)
    (price_ht vat_rate t_ht t_vat t_ttc : float) : Call unit :=
  connect
    (try_except
       (execute (SQL.update_products_decrement qty product_id) ;;;
        execute (SQL.insert_into_sales product_id sku qty price_ht vat_rate
                   t_ht t_vat t_ttc now) ;;;
        commit)
       (fun _ => rollback ;;; raise (DatabaseError Erreur_transaction_vente))).

(** The dictionary [get_sales_stats] returns, by key. *)
Definition no_sales : SQL.stats_row :=
  {| SQL.nb_sales := SQL.Integer 0;
     SQL.total_qty := SQL.Integer 0;
     SQL.total_ht := SQL.Real 0;
     SQL.total_vat := SQL.Real 0;
     SQL.total_ttc := SQL.Real 0 |}.

(** [row["nb_sales"] > 0]; COUNT is always an integer. *)
Definition positive (v : SQL.value) : bool :=
  match v with
  | SQL.Integer n => 0 <? n
  | _ => false
  end.

Definition get_sales_stats : Call SQL.stats_row :=
  connect
    (row <- execute SQL.select_sales_stats ;;
     ret (if positive (SQL.nb_sales row) then row else no_sales)).

End SQLiteRepository.

(** ** Validation layer and configuration *)

(** Modelled from the spec: [utils.py] is not in the sources.  Section 4.2
    gives each validator: it returns the normalized value or raises
    ValidationError. *)
Module Validation.

(** The ASCII characters Python's [str.strip()] removes. *)
Definition is_space (c : ascii) : bool :=
  let n := Z.of_nat (nat_of_ascii c) in
  ((9 <=? n) && (n <=? 13)) || ((28 <=? n) && (n <=? 32)).

Fixpoint lstrip (s : string) : string :=
  match s with
  | String c s' => if is_space c then lstrip s' else s
  | EmptyString => EmptyString
  end.

Fixpoint rstrip (s : string) : string :=
  match s with
  | String c s' =>
      match rstrip s' with
      | EmptyString => if is_space c then EmptyString else String c EmptyString
      | r => String c r
      end
  | EmptyString => EmptyString
  end.

Definition strip (s : string) : string := rstrip (lstrip s).

(** Modelled from the spec: "fails if empty after trimming". *)
Definition validate_non_empty (s : string) (field : string) : result string :=
  match strip s with
  | EmptyString => Raise ValidationError
  | v => Ok v
  end.

(** Modelled from the spec: "fails if empty after trimming". *)
Definition validate_sku (s : string) : result string := validate_non_empty s "SKU".

(** Modelled from the spec: "fails if x < 0". *)
Definition validate_unit_price_ht (x : float) : result float :=
  if PyFloat.ltb x 0 then Raise ValidationError else Ok x.

(** Modelled from the spec: "fails if n < 0, or n <= 0 when allow_zero is
    false". *)
Definition validate_quantity (n : Z) (allow_zero : bool) : result Z :=
  if (n <? 0) || (negb allow_zero && (n <=? 0)) then Raise ValidationError else Ok n.

(** Modelled from the spec: "fails if x < 0 or x > 1". *)
Definition validate_vat_rate (x : float) : result float :=
  if PyFloat.ltb x 0 || PyFloat.ltb 1 x then Raise ValidationError else Ok x.

End Validation.

(** Modelled from the spec: the configuration of [config.py] (section 6): the
    storage location, which the tables stand for, and the default VAT rate. *)
Record AppConfig : Type := {
  default_vat_rate : float
}.

(** ** services.py: InventoryManager *)

Module InventoryManager.

Import Validation.
Module repo := SQLiteRepository.

(** A validator called from a use case: its exception leaves the file alone. *)
Definition validated {A : Type} (r : result A) : Call A := fun t => (t, r).

(** The receipt of a sale. *)
Record receipt : Type := {
  sku : string;
  qty : Z;
  total_ht : float;
  total_vat : float;
  total_ttc : float
}.

(** [initialize_from_json], from the product list [load_initial_json] gives. *)
Fixpoint insert_all (now : string) (ps : list Product.t) (count : Z) : Call Z :=
  match ps with
  | [] => ret count
  | p :: ps' => repo.insert_product now p ;;; insert_all now ps' (count + 1)
  end.

Definition initialize_from_json (now : string) (payload : list Product.t) (reset : bool)
  : Call Z :=
  (if reset then repo.reset_and_create_schema else repo.create_schema_if_needed) ;;;
  insert_all now (map (fun p => Product.make None (Product.sku p) (Product.name p)
                                  (Product.category p) (Product.unit_price_ht p)
                                  (Product.quantity p) (Product.vat_rate p) now)
                    payload) 0.

Definition list_inventory : Call (list Product.t) :=
  repo.create_schema_if_needed ;;;
  repo.list_products.

Definition add_product (config : AppConfig) (now : string)
    (sku name cat : string) (price : float) (qty : Z) (vat : option float)
  : Call Product.t :=
  sku <- validated (validate_sku sku) ;;
  existing <- repo.get_product_by_sku sku ;;
  match existing with
  | Some _ => raise ValidationError
  | None =>
      let vat_val := match vat with
                     | Some v => v
                     | None => default_vat_rate config
                     end in
      name <- validated (validate_non_empty name "nom") ;;
      cat <- validated (validate_non_empty cat "categorie") ;;
      price <- validated (validate_unit_price_ht price) ;;
      qty <- validated (validate_quantity qty true) ;;
      vat_rate <- validated (validate_vat_rate vat_val) ;;
      let p := Product.make None sku name cat price qty vat_rate now in
      repo.insert_product now p ;;;
      ret p
  end.

Definition update_product (sku name cat : string) (price : float) (qty : Z) (vat : float)
  : Call unit :=
  found <- repo.get_product_by_sku sku ;;
  match found with
  | None => raise NotFoundError
  | Some p =>
      name <- validated (validate_non_empty name "nom") ;;
      cat <- validated (validate_non_empty cat "categorie") ;;
      price <- validated (validate_unit_price_ht price) ;;
      qty <- validated (validate_quantity qty true) ;;
      vat_rate <- validated (validate_vat_rate vat) ;;
      let updated_p := Product.make (Product.id p) sku name cat price qty vat_rate
                         (Product.created_at p) in
      repo.update_product updated_p
  end.

Definition delete_product (sku : string) : Call unit :=
  found <- repo.get_product_by_sku sku ;;
  match found with
  | None => raise NotFoundError
  | Some _ => repo.delete_product sku
  end.

(** [float * int]: the int is converted to a float first. *)
Definition float_times_int (x : float) (n : Z) : result float :=
  match PyFloat.of_int n with
  | Some y => Ok (x * y)%float
  | None => Raise OverflowError
  end.

Definition sell_product (now : string) (sku : string) (qty_to_sell : Z) : Call receipt :=
  found <- repo.get_product_by_sku sku ;;
  match found with
  | None => raise NotFoundError
  | Some p =>
      if qty_to_sell <=? 0 then raise ValidationError
      else if Product.quantity p <? qty_to_sell then raise StockError
      else
        amount <- validated (float_times_int (Product.unit_price_ht p) qty_to_sell) ;;
        let total_ht := PyFloat.round2 amount in
        let total_vat := PyFloat.round2 (total_ht * Product.vat_rate p) in
        let total_ttc := PyFloat.round2 (total_ht + total_vat) in
        repo.record_sale now (Product.id p) sku qty_to_sell
          (Product.unit_price_ht p) (Product.vat_rate p)
          total_ht total_vat total_ttc ;;;
        ret {| sku := sku;
               qty := qty_to_sell;
               total_ht := total_ht;
               total_vat := total_vat;
               total_ttc := total_ttc |}
  end.

Definition get_dashboard_data : Call SQL.stats_row := repo.get_sales_stats.

End InventoryManager.

(** ** cli.py: the console menu

    The console is the lines that are still to be read from the standard
    input and what was written to the standard output.  [input()] takes the
    next line and raises EOFError when there is none.  What is written is
    kept as events: one for each text [input()] shows and for each [print] of
    cli.py (one for the nine lines of [print_menu] and one for the seven of a
    sales ticket), with the values the statement formats.  Logging and the
    parsing of the command line are left out.  The exception classes of
    exceptions.py, which is not in the sources, are taken to be the five of
    section 7, none a subclass of another. *)

Module CLI.

(** The texts [input()] shows. *)
Inductive question : Type :=
| Chemin_du_fichier_JSON
| Ask_SKU
| Ask_Nom
| Ask_Categorie
| Ask_Prix_HT
| Ask_Quantite_initiale
| Ask_TVA
| SKU_du_produit_a_modifier
| Nouveau_nom
| Nouvelle_categorie
| Nouveau_prix_HT
| Nouveau_stock
| Nouveau_taux_TVA
| SKU_du_produit_a_supprimer
| Confirmer_la_suppression (sku : string)
| SKU_du_produit_vendu
| Quantite_vendue
| Votre_choix.

(** The field names given to [to_float] and [to_int]. *)
Inductive field : Type :=
| Prix_HT
| Quantite
| TVA.

(** What can be raised under [main]: an exception of the repository or the
    service, DataImportError (from [load_initial_json]), EOFError (from
    [input()]) and TypeError (from formatting None with two decimals). *)
Inductive exception : Type :=
| Raised_by_app (e : exn)
| DataImportError
| EOFError
| TypeError.

(** A line of the inventory table: sku, name, category, the price (shown
    with two decimals), the VAT rate times 100 (shown with none) and the
    stock. *)
Record inventory_row : Type := {
  cell_sku : string;
  cell_name : string;
  cell_category : string;
  cell_price : float;
  cell_vat_percent : float;
  cell_stock : Z
}.

Inductive printed : Type :=
| Asked (q : question)
| Menu
| Initialisation_reussie (count : Z)
| Inventaire_actuel
| Table (rows : list inventory_row)
| Ajouter_un_produit
| Produit_ajoute (sku : string)
| Entrez_les_nouvelles_valeurs
| Produit_mis_a_jour (sku : string)
| Produit_supprime (sku : string)
| Ticket_de_vente (res : InventoryManager.receipt)
| Tableau_de_bord_des_ventes
| Nombre_de_ventes (v : SQL.value)
| Articles_vendus (v : SQL.value)
| Chiffre_d_affaires_HT (v : SQL.value)
| Total_TVA_collectee (v : SQL.value)
| Chiffre_d_affaires_TTC (v : SQL.value)
| Fin_du_tableau_de_bord
| Au_revoir
| Choix_invalide
| Erreur (x : exception)
| Erreur_base_de_donnees (x : exception)
| Erreur_inattendue (x : exception).

Record World : Type := mkWorld {
  database : Tables;
  stdin : list string;
  stdout : list printed
}.

Inductive outcome (A : Type) : Type :=
| Returned (a : A)
| Raised (x : exception).
Arguments Returned {A} a.
Arguments Raised {A} x.

(** Code of cli.py: from the world to the world it leaves and what it returns
    or raises. *)
Definition Action (A : Type) : Type := World -> World * outcome A.

Definition pure {A : Type} (a : A) : Action A := fun w => (w, Returned a).

Definition throw {A : Type} (x : exception) : Action A := fun w => (w, Raised x).

Definition seq {A B : Type} (m : Action A) (k : A -> Action B) : Action B :=
  fun w =>
    match m w with
    | (w', Returned a) => k a w'
    | (w', Raised x) => (w', Raised x)
    end.

Declare Scope cli_scope.
Notation "x <- m ;; k" := (seq m (fun x => k))
  (at level 61, m at next level, right associativity) : cli_scope.
Notation "m ;;; k" := (seq m (fun _ => k))
  (at level 61, right associativity) : cli_scope.
Local Open Scope cli_scope.

(** [print(...)]. *)
Definition print (p : printed) : Action unit :=
  fun w =>
    ({| database := database w; stdin := stdin w; stdout := stdout w ++ [p] |}, Returned tt).

(** [input(text)]. *)
Definition input (q : question) : Action string :=
  fun w =>
    match stdin w with
    | [] =>
        ({| database := database w; stdin := []; stdout := stdout w ++ [Asked q] |},
         Raised EOFError)
    | line :: rest =>
        ({| database := database w; stdin := rest; stdout := stdout w ++ [Asked q] |},
         Returned line)
    end.

(** A call of the service on the database of the world. *)
Definition app {A : Type} (m : Call A) : Action A :=
  fun w =>
    let (t, r) := m (database w) in
    ({| database := t; stdin := stdin w; stdout := stdout w |},
     match r with
     | Ok a => Returned a
     | Raise e => Raised (Raised_by_app e)
     end).

(** A function of utils.py applied to its arguments. *)
Definition utils {A : Type} (r : result A) : Action A :=
  fun w => (w, match r with
               | Ok a => Returned a
               | Raise e => Raised (Raised_by_app e)
               end).

(** [f"{v:.2f}"] on a value of the dashboard: None has no such format. *)
Definition two_decimals (v : SQL.value) : Action SQL.value :=
  match v with
  | SQL.Null => throw TypeError
  | _ => pure v
  end.

Definition _prompt (text : question) : Action string :=
  line <- input text ;;
  pure (PyStr.strip line).

Definition print_menu : Action unit := print Menu.

Section Console.

(** Not in the sources: [to_float] and [to_int] of utils.py, which return the
    number a text stands for or throw (section 4.2: ValidationError), and
    [load_initial_json], which returns the product list of a file or raises
    DataImportError; the configuration [main] builds. *)
Variable to_float : string -> field -> result float.
Variable to_int : string -> field -> result Z.
Variable load_initial_json : string -> option (list Product.t).
Variable config : AppConfig.

(** [app.initialize_from_json(path)]: the file is loaded before the tables
    are dropped; [reset] is True by default. *)
Definition app_initialize_from_json (now path : string) : Action Z :=
  match load_initial_json path with
  | None => throw DataImportError
  | Some payload => app (InventoryManager.initialize_from_json now payload true)
  end.

Definition action_initialize (now : string) : Action unit :=
  path <- _prompt Chemin_du_fichier_JSON ;;
  count <- app_initialize_from_json now path ;;
  print (Initialisation_reussie count).

Definition row_of (p : Product.t) : inventory_row :=
  {| cell_sku := Product.sku p;
     cell_name := Product.name p;
     cell_category := Product.category p;
     cell_price := Product.unit_price_ht p;
     cell_vat_percent := (Product.vat_rate p * 100)%float;
     cell_stock := Product.quantity p |}.

Definition action_list_inventory : Action unit :=
  products <- app InventoryManager.list_inventory ;;
  print Inventaire_actuel ;;;
  print (Table (map row_of products)).

Definition action_add_product (now : string) : Action unit :=
  print Ajouter_un_produit ;;;
  sku <- _prompt Ask_SKU ;;
  name <- _prompt Ask_Nom ;;
  cat <- _prompt Ask_Categorie ;;
  price_str <- _prompt Ask_Prix_HT ;;
  price <- utils (to_float price_str Prix_HT) ;;
  qty_str <- _prompt Ask_Quantite_initiale ;;
  qty <- utils (to_int qty_str Quantite) ;;
  vat_str <- _prompt Ask_TVA ;;
  vat <- (if PyStr.truthy vat_str
          then v <- utils (to_float vat_str TVA) ;; pure (Some v)
          else pure None) ;;
  app (InventoryManager.add_product config now sku name cat price qty vat) ;;;
  print (Produit_ajoute sku).

Definition action_update_product : Action unit :=
  sku <- _prompt SKU_du_produit_a_modifier ;;
  print Entrez_les_nouvelles_valeurs ;;;
  name <- _prompt Nouveau_nom ;;
  cat <- _prompt Nouvelle_categorie ;;
  price_str <- _prompt Nouveau_prix_HT ;;
  price <- utils (to_float price_str Prix_HT) ;;
  qty_str <- _prompt Nouveau_stock ;;
  qty <- utils (to_int qty_str Quantite) ;;
  vat_str <- _prompt Nouveau_taux_TVA ;;
  vat <- utils (to_float vat_str TVA) ;;
  app (InventoryManager.update_product sku name cat price qty vat) ;;;
  print (Produit_mis_a_jour sku).

Definition action_delete_product : Action unit :=
  sku <- _prompt SKU_du_produit_a_supprimer ;;
  confirm <- _prompt (Confirmer_la_suppression sku) ;;
  if PyStr.lower_is_y confirm
  then
    app (InventoryManager.delete_product sku) ;;;
    print (Produit_supprime sku)
  else pure tt.

Definition action_sell_product (now : string) : Action unit :=
  sku <- _prompt SKU_du_produit_vendu ;;
  qty_str <- _prompt Quantite_vendue ;;
  qty <- utils (to_int qty_str Quantite) ;;
  res <- app (InventoryManager.sell_product now sku qty) ;;
  print (Ticket_de_vente res).

Definition action_dashboard : Action unit :=
  stats <- app InventoryManager.get_dashboard_data ;;
  print Tableau_de_bord_des_ventes ;;;
  print (Nombre_de_ventes (SQL.nb_sales stats)) ;;;
  print (Articles_vendus (SQL.total_qty stats)) ;;;
  ht <- two_decimals (SQL.total_ht stats) ;;
  print (Chiffre_d_affaires_HT ht) ;;;
  vat <- two_decimals (SQL.total_vat stats) ;;
  print (Total_TVA_collectee vat) ;;;
  ttc <- two_decimals (SQL.total_ttc stats) ;;
  print (Chiffre_d_affaires_TTC ttc) ;;;
  print Fin_du_tableau_de_bord.

(** The body of [try:] in the loop of [main]; it returns the exit code when
    the loop is left. *)
Definition choose (now : string) : Action (option Z) :=
  print_menu ;;;
  choice <- _prompt Votre_choix ;;
  if String.eqb choice "1" then action_initialize now ;;; pure None
  else if String.eqb choice "2" then action_list_inventory ;;; pure None
  else if String.eqb choice "3" then action_add_product now ;;; pure None
  else if String.eqb choice "4" then action_update_product ;;; pure None
  else if String.eqb choice "5" then action_delete_product ;;; pure None
  else if String.eqb choice "6" then action_sell_product now ;;; pure None
  else if String.eqb choice "7" then action_dashboard ;;; pure None
  else if String.eqb choice "8" then print Au_revoir ;;; pure (Some 0)
  else print Choix_invalide ;;; pure None.

(** The three [except] clauses of the loop, in their order. *)
Definition report (x : exception) : printed :=
  match x with
  | Raised_by_app ValidationError | DataImportError
  | Raised_by_app NotFoundError | Raised_by_app StockError => Erreur x
  | Raised_by_app (DatabaseError _) => Erreur_base_de_donnees x
  | _ => Erreur_inattendue x
  end.

(** One pass of [while True:]. *)
Definition pass (now : string) (w : World) : World * option Z :=
  match choose now w with
  | (w', Returned code) => (w', code)
  | (w', Raised x) => (fst (print (report x) w'), None)
  end.

(** [main], for as many passes as the clock is read: the time of each pass is
    an element of [clock].  The result is the exit code, or None when the
    loop is still running after the last of these passes. *)
Fixpoint main (clock : list string) (w : World) : World * option Z :=
  match clock with
  | [] => (w, None)
  | now :: later =>
      match pass now w with
      | (w', Some code) => (w', Some code)
      | (w', None) => main later w'
      end
  end.

End Console.

End CLI.

(** ** The schema's constraints as an invariant of the tables *)

Definition product_row_ok (r : ProductRow.t) : Prop :=
  SQL.product_constraints (ProductRow.unit_price_ht r) (ProductRow.vat_rate r)
    (ProductRow.quantity r) = true
  /\ SQL.fits_int64 (ProductRow.quantity r) = true
  /\ SQL.stored_real (ProductRow.unit_price_ht r) = ProductRow.unit_price_ht r
  /\ SQL.stored_real (ProductRow.vat_rate r) = ProductRow.vat_rate r.

Definition sale_row_ok (s : SaleRow.t) : Prop :=
  SQL.sale_constraints (SaleRow.quantity s) (SaleRow.unit_price_ht s) (SaleRow.vat_rate s)
    (SaleRow.total_ht s) (SaleRow.total_vat s) (SaleRow.total_ttc s) = true
  /\ SQL.fits_int64 (SaleRow.quantity s) = true
  /\ SQL.stored_real (SaleRow.unit_price_ht s) = SaleRow.unit_price_ht s
  /\ SQL.stored_real (SaleRow.vat_rate s) = SaleRow.vat_rate s
  /\ SQL.stored_real (SaleRow.total_ht s) = SaleRow.total_ht s
  /\ SQL.stored_real (SaleRow.total_vat s) = SaleRow.total_vat s
  /\ SQL.stored_real (SaleRow.total_ttc s) = SaleRow.total_ttc s.

(** What [SCHEMA_SQL] guarantees of the rows: NOT NULL and CHECK on every
    row, the primary keys, UNIQUE on [products.sku], and the foreign key of
    [sales.product_id]. *)
Record schema_ok (t : Tables) : Prop := {
  products_checked : Forall product_row_ok (products t);
  products_primary_key : NoDup (map ProductRow.id (products t));
  products_sku_unique : NoDup (map ProductRow.sku (products t));
  sales_checked : Forall sale_row_ok (sales t);
  sales_primary_key : NoDup (map SaleRow.id (sales t));
  sales_foreign_key :
    Forall (fun s => In (SaleRow.product_id s) (map ProductRow.id (products t))) (sales t)
}.

(** A call keeps a property of the tables. *)
Definition preserves {A : Type} (P : Tables -> Prop) (m : Call A) : Prop :=
  forall t, P t -> P (fst (m t)).

(** The product row a caller means by a sku, and its absence. *)
Definition stored (t : Tables) (r : ProductRow.t) : Prop := In r (products t).

Definition unknown (t : Tables) (sku : string) : Prop :=
  forall r, In r (products t) -> ProductRow.sku r <> sku.

(** The operations that reach the database file. *)
Inductive operation : Type :=
| Reset_and_create_schema
| Create_schema_if_needed
| Insert_product (now : string) (p : Product.t)
| Get_product_by_sku (sku : string)
| Repo_update_product (p : Product.t)
| Repo_delete_product (sku : string)
| List_products
| Record_sale (now : string) (product_id : option Z) (sku : string) (qty : Z)
    (price_ht vat_rate t_ht t_vat t_ttc : float)
| Get_sales_stats
| Initialize_from_json (now : string) (payload : list Product.t) (reset : bool)
| List_inventory
| Add_product (config : AppConfig) (now : string) (sku name cat : string)
    (price : float) (qty : Z) (vat : option float)
| Update_product (sku name cat : string) (price : float) (qty : Z) (vat : float)
| Delete_product (sku : string)
| Sell_product (now : string) (sku : string) (qty : Z)
| Get_dashboard_data.

(** The tables an operation leaves, whatever it returns or raises. *)
Definition run (op : operation) (t : Tables) : Tables :=
  match op with
  | Reset_and_create_schema => fst (SQLiteRepository.reset_and_create_schema t)
  | Create_schema_if_needed => fst (SQLiteRepository.create_schema_if_needed t)
  | Insert_product now p => fst (SQLiteRepository.insert_product now p t)
  | Get_product_by_sku sku => fst (SQLiteRepository.get_product_by_sku sku t)
  | Repo_update_product p => fst (SQLiteRepository.update_product p t)
  | Repo_delete_product sku => fst (SQLiteRepository.delete_product sku t)
  | List_products => fst (SQLiteRepository.list_products t)
  | Record_sale now product_id sku qty price_ht vat_rate t_ht t_vat t_ttc =>
      fst (SQLiteRepository.record_sale now product_id sku qty price_ht vat_rate
             t_ht t_vat t_ttc t)
  | Get_sales_stats => fst (SQLiteRepository.get_sales_stats t)
  | Initialize_from_json now payload reset =>
      fst (InventoryManager.initialize_from_json now payload reset t)
  | List_inventory => fst (InventoryManager.list_inventory t)
  | Add_product config now sku name cat price qty vat =>
      fst (InventoryManager.add_product config now sku name cat price qty vat t)
  | Update_product sku name cat price qty vat =>
      fst (InventoryManager.update_product sku name cat price qty vat t)
  | Delete_product sku => fst (InventoryManager.delete_product sku t)
  | Sell_product now sku qty => fst (InventoryManager.sell_product now sku qty t)
  | Get_dashboard_data => fst (InventoryManager.get_dashboard_data t)
  end.

(** ** What the properties speak of *)

(** The rows of [products] with row [r] replaced by [r'], every other row
    and the order of the rows kept. *)
Definition replace_row (r r' : ProductRow.t) (rows : list ProductRow.t)
  : list ProductRow.t :=
  map (fun x => if ProductRow.id x =? ProductRow.id r then r' else x) rows.

(** Row [r] with its name, category, price, VAT rate and quantity overwritten
    (the floats as SQLite stores them), its id, sku and created_at kept. *)
Definition updated_row (r : ProductRow.t) (name category : string)
    (unit_price_ht vat_rate : float) (quantity : Z) : ProductRow.t :=
  ProductRow.make (ProductRow.id r) (ProductRow.sku r) name category
    (SQL.stored_real unit_price_ht) (SQL.stored_real vat_rate) quantity
    (ProductRow.created_at r).

(** The row [insert_product] writes for product [p] under rowid [rowid]. *)
Definition row_of_product (rowid : Z) (now : string) (p : Product.t) : ProductRow.t :=
  ProductRow.make rowid (Product.sku p) (Product.name p) (Product.category p)
    (SQL.stored_real (Product.unit_price_ht p)) (SQL.stored_real (Product.vat_rate p))
    (Product.quantity p) (SQLiteRepository.or_now (Product.created_at p) now).

(** The fields of a product as section 3 of the specification wants them. *)
Definition valid_product (p : Product.t) : Prop :=
  Product.sku p <> "" /\ Product.name p <> "" /\ Product.category p <> ""
  /\ PrimFloat.leb 0 (Product.unit_price_ht p) = true
  /\ PrimFloat.leb 0 (Product.vat_rate p) = true
  /\ PrimFloat.leb (Product.vat_rate p) 1 = true
  /\ 0 <= Product.quantity p
  /\ Product.created_at p <> "".

(** The totals of a sale as section 4.4 of the specification gives them:
    each amount is rounded to two decimals as soon as it is computed. *)
Definition expected_totals (unit_price_ht vat_rate : float) (qty : Z)
  : option (float * float * float) :=
  match PyFloat.of_int qty with
  | Some q =>
      let total_ht := PyFloat.round2 (unit_price_ht * q) in
      let total_vat := PyFloat.round2 (total_ht * vat_rate) in
      let total_ttc := PyFloat.round2 (total_ht + total_vat) in
      Some (total_ht, total_vat, total_ttc)
  | None => None
  end.

(** The sum of the floats of a list, added to 0.0 one after the other. *)
Definition float_sum (xs : list float) : float := fold_left PrimFloat.add xs zero.

(** The sum of the integers of a list. *)
Definition int_sum (ns : list Z) : Z := fold_right Z.add 0 ns.

(** The tables a sequence of operations leaves. *)
Definition run_all (ops : list operation) (t : Tables) : Tables :=
  fold_left (fun t op => run op t) ops t.

(** What leaves [record_sale] when a statement raises [e]. *)
Definition sale_failure (e : exn) : exn :=
  match e with
  | sqlite3_error _ => DatabaseError Erreur_transaction_vente
  | _ => e
  end.

(** The exact value of a float, its [spec_float], has sign [s]. *)
Definition signed (s : bool) (f : spec_float) : Prop :=
  match f with
  | S754_zero s' | S754_infinity s' | S754_finite s' _ _ => s' = s
  | S754_nan => False
  end.

(** The exact value of a float is a number from zero up. *)
Definition nonneg (f : spec_float) : Prop :=
  match f with
  | S754_zero _ => True
  | S754_infinity s | S754_finite s _ _ => s = false
  | S754_nan => False
  end.

(** ** What the further properties speak of *)

(** An operation that drops both tables before anything else:
    [reset_and_create_schema], and [initialize_from_json] called with
    [reset=True] (its default). *)
Definition resets (op : operation) : bool :=
  match op with
  | Reset_and_create_schema => true
  | Initialize_from_json _ _ reset => reset
  | _ => false
  end.

(** The two operations that record a sale. *)
Definition is_sale (op : operation) : bool :=
  match op with
  | Record_sale _ _ _ _ _ _ _ _ _ => true
  | Sell_product _ _ _ => true
  | _ => false
  end.

(** The methods of [SQLiteRepository] among the operations. *)
Definition repository_level (op : operation) : bool :=
  match op with
  | Reset_and_create_schema | Create_schema_if_needed | Insert_product _ _
  | Get_product_by_sku _ | Repo_update_product _ | Repo_delete_product _
  | List_products | Record_sale _ _ _ _ _ _ _ _ _ | Get_sales_stats => true
  | _ => false
  end.

(** The use cases of [InventoryManager] that make at most one change. *)
Definition single_change (op : operation) : bool :=
  match op with
  | List_inventory | Add_product _ _ _ _ _ _ _ _ | Update_product _ _ _ _ _ _
  | Delete_product _ | Sell_product _ _ _ | Get_dashboard_data => true
  | _ => false
  end.

Definition exception_of {A : Type} (r : result A) : option exn :=
  match r with
  | Ok _ => None
  | Raise e => Some e
  end.

(** The exception an operation raises, if it raises one. *)
Definition raised (op : operation) (t : Tables) : option exn :=
  match op with
  | Reset_and_create_schema => exception_of (snd (SQLiteRepository.reset_and_create_schema t))
  | Create_schema_if_needed => exception_of (snd (SQLiteRepository.create_schema_if_needed t))
  | Insert_product now p => exception_of (snd (SQLiteRepository.insert_product now p t))
  | Get_product_by_sku sku => exception_of (snd (SQLiteRepository.get_product_by_sku sku t))
  | Repo_update_product p => exception_of (snd (SQLiteRepository.update_product p t))
  | Repo_delete_product sku => exception_of (snd (SQLiteRepository.delete_product sku t))
  | List_products => exception_of (snd (SQLiteRepository.list_products t))
  | Record_sale now product_id sku qty price_ht vat_rate t_ht t_vat t_ttc =>
      exception_of (snd (SQLiteRepository.record_sale now product_id sku qty price_ht
                           vat_rate t_ht t_vat t_ttc t))
  | Get_sales_stats => exception_of (snd (SQLiteRepository.get_sales_stats t))
  | Initialize_from_json now payload reset =>
      exception_of (snd (InventoryManager.initialize_from_json now payload reset t))
  | List_inventory => exception_of (snd (InventoryManager.list_inventory t))
  | Add_product config now sku name cat price qty vat =>
      exception_of (snd (InventoryManager.add_product config now sku name cat price qty vat t))
  | Update_product sku name cat price qty vat =>
      exception_of (snd (InventoryManager.update_product sku name cat price qty vat t))
  | Delete_product sku => exception_of (snd (InventoryManager.delete_product sku t))
  | Sell_product now sku qty => exception_of (snd (InventoryManager.sell_product now sku qty t))
  | Get_dashboard_data => exception_of (snd (InventoryManager.get_dashboard_data t))
  end.

(** A statement that succeeds keeps a property of the tables. *)
Definition statement_keeps {A : Type} (P : Tables -> Prop) (s : SQL.statement A) : Prop :=
  forall t t' a, P t -> s t = Ok (t', a) -> P t'.

(** The three statements that write to [products] by sku keep a property. *)
Record product_statements_keep (P : Tables -> Prop) : Prop := {
  keep_insert_into_products :
    forall sku name category price vat quantity created_at,
      statement_keeps P
        (SQL.insert_into_products sku name category price vat quantity created_at);
  keep_update_products_where_sku :
    forall name category price vat quantity sku,
      statement_keeps P (SQL.update_products_where_sku name category price vat quantity sku);
  keep_delete_from_products_where_sku :
    forall sku, statement_keeps P (SQL.delete_from_products_where_sku sku)
}.

(** The two statements of [record_sale] keep a property. *)
Record sale_statements_keep (P : Tables -> Prop) : Prop := {
  keep_update_products_decrement :
    forall qty id, statement_keeps P (SQL.update_products_decrement qty id);
  keep_insert_into_sales :
    forall product_id sku quantity price vat t_ht t_vat t_ttc sold_at,
      statement_keeps P
        (SQL.insert_into_sales product_id sku quantity price vat t_ht t_vat t_ttc sold_at)
}.

(** A call that leaves the file as it was whenever it raises. *)
Definition atomic {A : Type} (m : Call A) : Prop :=
  forall t t' e, m t = (t', Raise e) -> t' = t.

(** A call that never writes. *)
Definition read_only {A : Type} (m : Call A) : Prop := forall t, fst (m t) = t.

(** A call that raises only exceptions of one kind. *)
Definition raises_only {A : Type} (allowed : exn -> Prop) (m : Call A) : Prop :=
  forall t e, snd (m t) = Raise e -> allowed e.

(** The exceptions a repository method lets out: DatabaseError, and the
    OverflowError of the sqlite3 module. *)
Definition storage_error (e : exn) : Prop :=
  match e with
  | DatabaseError _ | OverflowError => True
  | _ => False
  end.

(** Any exception but a raw [sqlite3.Error]. *)
Definition wrapped (e : exn) : Prop :=
  match e with
  | sqlite3_error _ => False
  | _ => True
  end.

(** Products in the order of their skus, compared byte by byte. *)
Definition in_sku_order (p q : Product.t) : Prop :=
  String.leb (Product.sku p) (Product.sku q) = true.

(** The units of the product with id [product_id] that the sales record. *)
Definition sold (product_id : Z) (ss : list SaleRow.t) : Z :=
  int_sum (map SaleRow.quantity
             (filter (fun s => SaleRow.product_id s =? product_id) ss)).

(** The rows a bulk import writes for a product list, numbered from [rowid]. *)
Fixpoint imported (rowid : Z) (now : string) (payload : list Product.t)
  : list ProductRow.t :=
  match payload with
  | [] => []
  | p :: ps =>
      ProductRow.make rowid (Product.sku p) (Product.name p) (Product.category p)
        (SQL.stored_real (Product.unit_price_ht p)) (SQL.stored_real (Product.vat_rate p))
        (Product.quantity p) now
      :: imported (rowid + 1) now ps
  end.

(** The database a bulk import of a product list into empty tables leaves. *)
Definition import_of (now : string) (payload : list Product.t) : Tables :=
  {| products := imported 1 now payload;
     sales := [];
     seq_products := Z.of_nat (List.length payload);
     seq_sales := 0 |}.

(** A product whose fields the columns of [products] accept. *)
Definition importable (p : Product.t) : bool :=
  SQL.fits_int64 (Product.quantity p)
  && SQL.product_constraints (Product.unit_price_ht p) (Product.vat_rate p)
       (Product.quantity p).

(** A product id the sqlite3 module can bind: None, or an int of 64 bits. *)
Definition id_fits (id : option Z) : bool :=
  match id with
  | Some i => SQL.fits_int64 i
  | None => true
  end.

(** An action that leaves the database as it was, whatever it reads, prints,
    returns or raises. *)
Definition keeps_database {A : Type} (m : CLI.Action A) : Prop :=
  forall w, CLI.database (fst (m w)) = CLI.database w.

(** An action that leaves the database as it was when it raises. *)
Definition fails_cleanly {A : Type} (m : CLI.Action A) : Prop :=
  forall w w' x, m w = (w', CLI.Raised x) -> CLI.database w' = CLI.database w.

(** An action that keeps a property of the database. *)
Definition keeps {A : Type} (P : Tables -> Prop) (m : CLI.Action A) : Prop :=
  forall w, P (CLI.database w) -> P (CLI.database (fst (m w))).

(** An action that reads the lines of the input in their order. *)
Definition reads_ahead {A : Type} (m : CLI.Action A) : Prop :=
  forall w, exists consumed, CLI.stdin w = (consumed ++ CLI.stdin (fst (m w)))%list.

(** ** Example tables *)

(** 0.20, 9.99 and 1e308 as Python reads them: the nearest binary64. *)
Definition vat_20 : float := 0x1.999999999999ap-3.
Definition price_9_99 : float := 0x1.3fae147ae147bp+3.
Definition price_1e308 : float := 0x1.1ccf385ebc8ap+1023.

(** The configuration of the scenario of section 8: default VAT 0.20. *)
Definition config_20 : AppConfig := {| default_vat_rate := vat_20 |}.

(** The scenario of section 8: product SKU1, price 10.00, VAT 0.20, stock 5. *)
Definition widget : ProductRow.t :=
  ProductRow.make 1 "SKU1" "Widget" "Tools" 10 vat_20 5 "2024-01-01T09:00:00".

Definition shop : Tables :=
  {| products := [widget];
     sales := [];
     seq_products := 1;
     seq_sales := 0 |}.

(** The same shop after three units of SKU1 were sold. *)
Definition shop_after_sale : Tables :=
  {| products := [ProductRow.make 1 "SKU1" "Widget" "Tools" 10 vat_20 2 "2024-01-01T09:00:00"];
     sales := [SaleRow.make 1 1 "SKU1" 3 10 vat_20 30 6 36 "2024-01-02T10:00:00"];
     seq_products := 1;
     seq_sales := 1 |}.

(** A product whose price times ten exceeds the largest float, with VAT 0. *)
Definition press : ProductRow.t :=
  ProductRow.make 1 "BIG" "Press" "Tools" price_1e308 0 10 "2024-01-01T09:00:00".

Definition workshop : Tables :=
  {| products := [press]; sales := []; seq_products := 1; seq_sales := 0 |}.

(** A valid product with more units than a 64-bit integer holds. *)
Definition bulk : Product.t :=
  Product.make None "BULK" "Sand" "Bulk" 10 9223372036854775808 vat_20
    "2024-01-01T09:00:00".

(** A second product under the sku of [widget], with 2^63 units. *)
Definition bulk_widget : Product.t :=
  Product.make None "SKU1" "Widget XL" "Tools" 10 9223372036854775808 vat_20
    "2024-01-03T08:00:00".

(** A depot that sold 2^62 units of sand twice, restocked in between. *)
Definition depot : Tables :=
  {| products :=
       [ProductRow.make 1 "BULK" "Sand" "Bulk" 1 0 4611686018427387903
          "2024-01-01T09:00:00"];
     sales :=
       [SaleRow.make 1 1 "BULK" 4611686018427387904 1 0 0x1p+62 0 0x1p+62
          "2024-01-02T10:00:00";
        SaleRow.make 2 1 "BULK" 4611686018427387904 1 0 0x1p+62 0 0x1p+62
          "2024-01-04T10:00:00"];
     seq_products := 1;
     seq_sales := 2 |}.

(** The calls that lead from an empty database to [depot]. *)
Definition depot_history : list operation :=
  [Add_product config_20 "2024-01-01T09:00:00" "BULK" "Sand" "Bulk" 1
     9223372036854775807 (Some 0%float);
   Sell_product "2024-01-02T10:00:00" "BULK" 4611686018427387904;
   Update_product "BULK" "Sand" "Bulk" 1 9223372036854775807 0;
   Sell_product "2024-01-04T10:00:00" "BULK" 4611686018427387904].

(** A second product for the shop, and a list of two products to import. *)
Definition gadget : Product.t :=
  Product.make None "A1" "Gadget" "Toys" price_9_99 10 vat_20 "".

Definition anvil : Product.t :=
  Product.make None "B2" "Anvil" "Tools" 120 4 vat_20 "".

(** The shop after one more unit of SKU1 was sold. *)
Definition shop_after_two_sales : Tables :=
  {| products := [ProductRow.make 1 "SKU1" "Widget" "Tools" 10 vat_20 1 "2024-01-01T09:00:00"];
     sales := [SaleRow.make 1 1 "SKU1" 3 10 vat_20 30 6 36 "2024-01-02T10:00:00";
               SaleRow.make 2 1 "SKU1" 1 10 vat_20 10 2 12 "2024-01-05T10:00:00"];
     seq_products := 1;
     seq_sales := 2 |}.

(** Stand-ins for [to_float], [to_int] and [load_initial_json] in the
    examples: they know the texts 9.99, 3 and 10 and one file. *)
Definition example_to_float (text : string) (f : CLI.field) : result float :=
  if String.eqb text "9.99" then Ok price_9_99 else Raise ValidationError.

(** The same, but every VAT rate is refused. *)
Definition strict_to_float (text : string) (f : CLI.field) : result float :=
  match f with
  | CLI.TVA => Raise ValidationError
  | _ => example_to_float text f
  end.

Definition example_to_int (text : string) (f : CLI.field) : result Z :=
  if String.eqb text "3" then Ok 3
  else if String.eqb text "10" then Ok 10
  else Raise ValidationError.

Definition example_load (path : string) : option (list Product.t) :=
  if String.eqb path "data/initial_stock.json" then Some [gadget; anvil] else None.

(** The shop with a console: the lines typed and nothing printed yet. *)
Definition at_the_shop (typed : list string) : CLI.World :=
  {| CLI.database := shop; CLI.stdin := typed; CLI.stdout := [] |}.

(** * Proofs *)

(** ** Floats as SQLite stores them *)

Lemma stored_real_idempotent (x : float) :
  SQL.stored_real (SQL.stored_real x) = SQL.stored_real x.
Proof.
  unfold SQL.stored_real.
  destruct (is_zero x) eqn:Hz; [reflexivity | now rewrite Hz].
Qed.

Lemma stored_real_not_null (x : float) :
  SQL.not_null x = true -> SQL.not_null (SQL.stored_real x) = true.
Proof. unfold SQL.stored_real. now destruct (is_zero x). Qed.

Lemma stored_real_nonneg (x : float) :
  PrimFloat.leb 0 x = true -> PrimFloat.leb 0 (SQL.stored_real x) = true.
Proof. unfold SQL.stored_real. now destruct (is_zero x). Qed.

Lemma stored_real_le_one (x : float) :
  PrimFloat.leb x 1 = true -> PrimFloat.leb (SQL.stored_real x) 1 = true.
Proof. unfold SQL.stored_real. now destruct (is_zero x). Qed.

(** Reading a stored float back gives a float Python finds equal. *)
Lemma stored_real_equal (x : float) :
  SQL.not_null x = true -> PyFloat.eqb x (SQL.stored_real x) = true.
Proof.
  unfold SQL.stored_real, SQL.not_null, is_nan, PyFloat.eqb. intros Hn.
  destruct (is_zero x) eqn:Hz; [exact Hz | now destruct (PrimFloat.eqb x x)].
Qed.

Ltac split_andb :=
  repeat match goal with
    | H : _ && _ = true |- _ => apply andb_prop in H; destruct H
    end.

Lemma product_constraints_stored (p v : float) (q : Z) :
  SQL.product_constraints p v q = true ->
  SQL.product_constraints (SQL.stored_real p) (SQL.stored_real v) q = true.
Proof.
  unfold SQL.product_constraints. intros H. split_andb.
  repeat (apply andb_true_intro; split);
    auto using stored_real_not_null, stored_real_nonneg, stored_real_le_one.
Qed.

Lemma sale_constraints_stored (q : Z) (p v h a c : float) :
  SQL.sale_constraints q p v h a c = true ->
  SQL.sale_constraints q (SQL.stored_real p) (SQL.stored_real v) (SQL.stored_real h)
    (SQL.stored_real a) (SQL.stored_real c) = true.
Proof.
  unfold SQL.sale_constraints. intros H. split_andb.
  repeat (apply andb_true_intro; split);
    auto using stored_real_not_null, stored_real_nonneg, stored_real_le_one.
Qed.

(** ** Rowids *)

Lemma max_rowid_bound (ids : list Z) (i : Z) : In i ids -> i <= SQL.max_rowid ids.
Proof.
  induction ids as [|j ids IH]; simpl; [easy|].
  intros [->|Hin]; [lia | specialize (IH Hin); lia].
Qed.

Lemma next_rowid_fresh (seq : Z) (ids : list Z) : ~ In (SQL.next_rowid seq ids) ids.
Proof.
  intros Hin. apply max_rowid_bound in Hin. unfold SQL.next_rowid in Hin. lia.
Qed.

(** ** What each repository method does to the file *)

Module RepositoryFacts.
Import SQLiteRepository.

Lemma get_product_by_sku_eq (sku : string) (t : Tables) :
  get_product_by_sku sku t
  = (t, Ok (option_map product_of_row (find (SQL.has_sku sku) (products t)))).
Proof.
  unfold get_product_by_sku, connect, bind, execute, SQL.select_product_where_sku. simpl.
  now destruct (find (SQL.has_sku sku) (products t)).
Qed.

Lemma insert_product_eq (now : string) (p : Product.t) (t : Tables) :
  insert_product now p t
  = match SQL.insert_into_products (Product.sku p) (Product.name p) (Product.category p)
            (Product.unit_price_ht p) (Product.vat_rate p) (Product.quantity p)
            (or_now (Product.created_at p) now) t with
    | Ok (t', lastrowid) => (t', Ok lastrowid)
    | Raise (sqlite3_error IntegrityError) => (t, Raise (DatabaseError Contrainte_violee))
    | Raise (sqlite3_error OperationalError) =>
        (t, Raise (DatabaseError Erreur_insert_produit))
    | Raise e => (t, Raise e)
    end.
Proof.
  unfold insert_product, connect, try_except, bind, execute, commit, rollback, ret, raise.
  simpl.
  destruct (SQL.insert_into_products _ _ _ _ _ _ _ t) as [[t' i]|e]; [reflexivity|].
  destruct e as [| | | | |[|]]; reflexivity.
Qed.

Lemma update_product_eq (p : Product.t) (t : Tables) :
  update_product p t
  = match SQL.update_products_where_sku (Product.name p) (Product.category p)
            (Product.unit_price_ht p) (Product.vat_rate p) (Product.quantity p)
            (Product.sku p) t with
    | Ok (t', _) => (t', Ok tt)
    | Raise (sqlite3_error _) => (t, Raise (DatabaseError Erreur_update_produit))
    | Raise e => (t, Raise e)
    end.
Proof.
  unfold update_product, connect, try_except, bind, execute, commit, rollback, ret, raise.
  simpl.
  destruct (SQL.update_products_where_sku _ _ _ _ _ _ t) as [[t' []]|e]; [reflexivity|].
  destruct e as [| | | | |[|]]; reflexivity.
Qed.

Lemma delete_product_eq (sku : string) (t : Tables) :
  delete_product sku t
  = match SQL.delete_from_products_where_sku sku t with
    | Ok (t', _) => (t', Ok tt)
    | Raise (sqlite3_error IntegrityError) =>
        (t, Raise (DatabaseError Impossible_de_supprimer))
    | Raise (sqlite3_error OperationalError) =>
        (t, Raise (DatabaseError Erreur_suppression))
    | Raise e => (t, Raise e)
    end.
Proof.
  unfold delete_product, connect, try_except, bind, execute, commit, rollback, ret, raise.
  simpl.
  destruct (SQL.delete_from_products_where_sku sku t) as [[t' []]|e]; [reflexivity|].
  destruct e as [| | | | |[|]]; reflexivity.
Qed.

Lemma record_sale_eq (now : string) (product_id : option Z) (sku : string) (qty : Z)
    (price_ht vat_rate t_ht t_vat t_ttc : float) (t : Tables) :
  record_sale now product_id sku qty price_ht vat_rate t_ht t_vat t_ttc t
  = match SQL.update_products_decrement qty product_id t with
    | Ok (t1, _) =>
        match SQL.insert_into_sales product_id sku qty price_ht vat_rate
                t_ht t_vat t_ttc now t1 with
        | Ok (t2, _) => (t2, Ok tt)
        | Raise e => (t, Raise (sale_failure e))
        end
    | Raise e => (t, Raise (sale_failure e))
    end.
Proof.
  unfold record_sale, connect, try_except, bind, execute, commit, rollback, ret, raise.
  simpl.
  destruct (SQL.update_products_decrement qty product_id t) as [[t1 []]|e]; simpl.
  - destruct (SQL.insert_into_sales _ _ _ _ _ _ _ _ _ t1) as [[t2 []]|e]; [reflexivity|].
    destruct e as [| | | | |[|]]; reflexivity.
  - destruct e as [| | | | |[|]]; reflexivity.
Qed.

Lemma get_sales_stats_eq (t : Tables) :
  get_sales_stats t
  = match SQL.select_sales_stats t with
    | Ok (_, row) => (t, Ok (if positive (SQL.nb_sales row) then row else no_sales))
    | Raise (sqlite3_error _) => (t, Raise (DatabaseError Erreur_SQLite))
    | Raise e => (t, Raise e)
    end.
Proof.
  unfold get_sales_stats, connect, bind, execute, ret. simpl.
  destruct (SQL.select_sales_stats t) as [[t' row]|e] eqn:Hs.
  - unfold SQL.select_sales_stats in Hs.
    destruct (SQL.sum_integer _); inversion Hs; subst; reflexivity.
  - destruct e as [| | | | |[|]]; reflexivity.
Qed.

End RepositoryFacts.

(** ** Every statement keeps the schema's constraints *)

Lemma has_sku_true (sku : string) (r : ProductRow.t) :
  SQL.has_sku sku r = true <-> ProductRow.sku r = sku.
Proof. unfold SQL.has_sku. apply String.eqb_eq. Qed.

Lemma has_sku_false (sku : string) (r : ProductRow.t) :
  SQL.has_sku sku r = false <-> ProductRow.sku r <> sku.
Proof. unfold SQL.has_sku. apply String.eqb_neq. Qed.

Lemma has_id_true (i : Z) (r : ProductRow.t) :
  SQL.has_id (Some i) r = true <-> ProductRow.id r = i.
Proof. unfold SQL.has_id. apply Z.eqb_eq. Qed.

Lemma no_row_has_sku (sku : string) (rows : list ProductRow.t) :
  existsb (SQL.has_sku sku) rows = false <-> ~ In sku (map ProductRow.sku rows).
Proof.
  split.
  - intros He Hin. apply in_map_iff in Hin as (r & Hr & Hin).
    assert (existsb (SQL.has_sku sku) rows = true) as Ht
      by (apply existsb_exists; exists r; split; [exact Hin | now apply has_sku_true]).
    congruence.
  - intros Hn. destruct (existsb (SQL.has_sku sku) rows) eqn:He; [|reflexivity].
    apply existsb_exists in He as (r & Hin & Hs). apply has_sku_true in Hs.
    exfalso. apply Hn. apply in_map_iff. now exists r.
Qed.

Lemma some_row_has_id (i : Z) (rows : list ProductRow.t) :
  existsb (SQL.has_id (Some i)) rows = true <-> In i (map ProductRow.id rows).
Proof.
  rewrite existsb_exists, in_map_iff. split.
  - intros (r & Hin & Hi). apply has_id_true in Hi. now exists r.
  - intros (r & Hi & Hin). exists r. split; [exact Hin | now apply has_id_true].
Qed.

(** The id of a stored row binds. *)
Lemma binds_id_stored (r : ProductRow.t) (rows : list ProductRow.t) :
  In r rows -> SQL.binds_id (Some (ProductRow.id r)) rows = true.
Proof.
  intros Hr. unfold SQL.binds_id. apply orb_true_iff. right.
  apply some_row_has_id, in_map, Hr.
Qed.

Lemma NoDup_snoc {A : Type} (l : list A) (x : A) :
  NoDup l -> ~ In x l -> NoDup (l ++ [x]).
Proof.
  induction l as [|y l IH]; simpl; intros Hnd Hx.
  - constructor; [easy | constructor].
  - inversion Hnd as [|? ? Hy Hl]; subst. constructor.
    + rewrite in_app_iff. simpl. intros [Hin|[->|[]]]; [easy | apply Hx; now left].
    + apply IH; [exact Hl | intros Hin; apply Hx; now right].
Qed.

Lemma NoDup_map_filter {A B : Type} (f : A -> B) (keep : A -> bool) (l : list A) :
  NoDup (map f l) -> NoDup (map f (filter keep l)).
Proof.
  induction l as [|x l IH]; simpl; intros Hnd; [constructor|].
  inversion Hnd as [|? ? Hx Hl]; subst.
  destruct (keep x); simpl; [constructor|]; auto.
  intros Hin. apply Hx. apply in_map_iff in Hin as (y & Hy & Hin).
  apply filter_In in Hin as [Hin _]. apply in_map_iff. now exists y.
Qed.

Lemma map_map_if {A B : Type} (f : A -> B) (hit : A -> bool) (g : A -> A) (l : list A) :
  (forall x, f (g x) = f x) ->
  map f (map (fun x => if hit x then g x else x) l) = map f l.
Proof.
  intros Hg. rewrite map_map. apply map_ext. intros x. now destruct (hit x).
Qed.

Section Statements.

Variable t : Tables.
Hypothesis Hok : schema_ok t.

Lemma insert_into_products_ok sku name category price vat quantity created_at t' rowid :
  SQL.insert_into_products sku name category price vat quantity created_at t
  = Ok (t', rowid) ->
  schema_ok t'.
Proof.
  unfold SQL.insert_into_products.
  destruct (SQL.fits_int64 quantity) eqn:Hfit; simpl; [|discriminate].
  destruct (SQL.product_constraints price vat quantity) eqn:Hc; simpl; [|discriminate].
  destruct (existsb (SQL.has_sku sku) (products t)) eqn:Hs; simpl; [discriminate|].
  intros H. inversion H; subst; clear H. destruct Hok as [Hp Hid Hsku Hsl Hsid Hfk].
  constructor; simpl; try assumption.
  - apply Forall_app. split; [exact Hp|]. constructor; [|constructor].
    repeat split; simpl;
      auto using product_constraints_stored, stored_real_idempotent.
  - rewrite map_app. simpl. apply NoDup_snoc; [exact Hid | apply next_rowid_fresh].
  - rewrite map_app. simpl. apply NoDup_snoc; [exact Hsku | now apply no_row_has_sku].
  - eapply Forall_impl; [|exact Hfk]. simpl. intros s Hin.
    rewrite map_app, in_app_iff. now left.
Qed.

Lemma update_products_where_sku_ok name category price vat quantity sku t' :
  SQL.update_products_where_sku name category price vat quantity sku t = Ok (t', tt) ->
  schema_ok t'.
Proof.
  unfold SQL.update_products_where_sku.
  destruct (SQL.fits_int64 quantity) eqn:Hfit; simpl; [|discriminate].
  destruct (existsb (SQL.has_sku sku) (products t)
            && negb (SQL.product_constraints price vat quantity)) eqn:Hc; [discriminate|].
  intros H. inversion H; subst; clear H. destruct Hok as [Hp Hid Hsku Hsl Hsid Hfk].
  constructor; simpl; try assumption.
  - apply Forall_map. rewrite Forall_forall in *. intros r Hin.
    destruct (SQL.has_sku sku r) eqn:Hr; [|now apply Hp].
    assert (existsb (SQL.has_sku sku) (products t) = true) as He
      by (apply existsb_exists; now exists r).
    rewrite He in Hc. simpl in Hc. apply negb_false_iff in Hc.
    repeat split; simpl;
      auto using product_constraints_stored, stored_real_idempotent.
  - now rewrite map_map_if.
  - now rewrite map_map_if.
  - now rewrite map_map_if.
Qed.

Lemma delete_from_products_where_sku_ok sku t' :
  SQL.delete_from_products_where_sku sku t = Ok (t', tt) ->
  schema_ok t'.
Proof.
  unfold SQL.delete_from_products_where_sku.
  destruct (existsb _ (products t)) eqn:Hc; [discriminate|].
  intros H. inversion H; subst; clear H. destruct Hok as [Hp Hid Hsku Hsl Hsid Hfk].
  constructor; simpl; try assumption.
  - rewrite Forall_forall in *. intros r Hin. apply filter_In in Hin as [Hin _]. auto.
  - now apply NoDup_map_filter.
  - now apply NoDup_map_filter.
  - rewrite Forall_forall in *. intros s Hs. specialize (Hfk s Hs).
    apply in_map_iff in Hfk as (r & Hr & Hin). apply in_map_iff. exists r.
    split; [exact Hr|]. apply filter_In. split; [exact Hin|].
    destruct (SQL.has_sku sku r) eqn:Hk; [|reflexivity]. exfalso.
    assert (existsb (fun r => SQL.has_sku sku r && SQL.referenced r (sales t)) (products t)
            = true) as He; [|congruence].
    apply existsb_exists. exists r. split; [exact Hin|]. rewrite Hk. simpl.
    apply existsb_exists. exists s. split; [exact Hs | now apply Z.eqb_eq].
Qed.

Lemma update_products_decrement_ok qty id t' :
  0 <= qty ->
  SQL.update_products_decrement qty id t = Ok (t', tt) ->
  schema_ok t'.
Proof.
  intros Hqty. unfold SQL.update_products_decrement.
  destruct (SQL.fits_int64 qty) eqn:Hfit; simpl; [|discriminate].
  destruct (SQL.binds_id id (products t)); simpl; [|discriminate].
  destruct (existsb _ (products t)) eqn:Hc; [discriminate|].
  intros H. inversion H; subst; clear H. destruct Hok as [Hp Hid Hsku Hsl Hsid Hfk].
  constructor; simpl; try assumption.
  - apply Forall_map. rewrite Forall_forall in *. intros r Hin.
    destruct (SQL.has_id id r) eqn:Hr; [|now apply Hp].
    assert ((0 <=? ProductRow.quantity r - qty) = true) as Hq.
    { destruct (0 <=? ProductRow.quantity r - qty) eqn:Hq; [reflexivity|].
      assert (existsb (fun r => SQL.has_id id r
                                && negb (0 <=? ProductRow.quantity r - qty)) (products t)
              = true) as He; [|congruence].
      apply existsb_exists. exists r. now rewrite Hr, Hq. }
    destruct (Hp r Hin) as (Hcs & Hf & Hs1 & Hs2).
    unfold SQL.product_constraints in Hcs. split_andb.
    repeat split; simpl; try assumption.
    + unfold SQL.product_constraints.
      repeat (apply andb_true_intro; split); assumption.
    + unfold SQL.fits_int64, SQL.INT64_MIN, SQL.INT64_MAX in *. lia.
  - now rewrite map_map_if.
  - now rewrite map_map_if.
  - now rewrite map_map_if.
Qed.

Lemma insert_into_sales_ok product_id sku quantity price vat t_ht t_vat t_ttc sold_at t' :
  SQL.insert_into_sales product_id sku quantity price vat t_ht t_vat t_ttc sold_at t
  = Ok (t', tt) ->
  schema_ok t'.
Proof.
  unfold SQL.insert_into_sales.
  destruct (SQL.fits_int64 quantity) eqn:Hfit; simpl; [|discriminate].
  destruct (SQL.binds_id product_id (products t)); simpl; [|discriminate].
  destruct product_id as [pid|]; [|discriminate].
  destruct (SQL.sale_constraints quantity price vat t_ht t_vat t_ttc) eqn:Hc;
    simpl; [|discriminate].
  destruct (existsb (SQL.has_id (Some pid)) (products t)) eqn:Hp'; [|discriminate].
  intros H. inversion H; subst; clear H. destruct Hok as [Hp Hid Hsku Hsl Hsid Hfk].
  constructor; simpl; try assumption.
  - apply Forall_app. split; [exact Hsl|]. constructor; [|constructor].
    repeat split; simpl; auto using sale_constraints_stored, stored_real_idempotent.
  - rewrite map_app. simpl. apply NoDup_snoc; [exact Hsid | apply next_rowid_fresh].
  - apply Forall_app. split; [exact Hfk|]. constructor; [|constructor].
    simpl. now apply some_row_has_id.
Qed.

End Statements.

(** ** Every call keeps the schema's constraints *)

Lemma preserves_ret {A : Type} (P : Tables -> Prop) (a : A) : preserves P (ret a).
Proof. intros t Ht. exact Ht. Qed.

Lemma preserves_raise {A : Type} (P : Tables -> Prop) (e : exn) :
  preserves P (raise e : Call A).
Proof. intros t Ht. exact Ht. Qed.

Lemma preserves_validated {A : Type} (P : Tables -> Prop) (r : result A) :
  preserves P (InventoryManager.validated r).
Proof. intros t Ht. exact Ht. Qed.

Lemma preserves_bind {A B : Type} (P : Tables -> Prop) (m : Call A) (k : A -> Call B) :
  preserves P m -> (forall a, preserves P (k a)) -> preserves P (bind m k).
Proof.
  intros Hm Hk t Ht. unfold bind. specialize (Hm t Ht).
  destruct (m t) as [t' [a|e]]; simpl in *; [now apply Hk | exact Hm].
Qed.

Module Invariant.
Import SQLiteRepository RepositoryFacts.

Lemma reset_and_create_schema_ok : preserves schema_ok reset_and_create_schema.
Proof. intros t _. simpl. constructor; simpl; constructor. Qed.

Lemma create_schema_if_needed_ok : preserves schema_ok create_schema_if_needed.
Proof. intros t Ht. exact Ht. Qed.

Lemma insert_product_ok now p : preserves schema_ok (insert_product now p).
Proof.
  intros t Ht. rewrite insert_product_eq.
  destruct (SQL.insert_into_products _ _ _ _ _ _ _ t) as [[t' i]|e] eqn:Hs.
  - simpl. eapply insert_into_products_ok; eassumption.
  - destruct e as [| | | | |[|]]; exact Ht.
Qed.

Lemma get_product_by_sku_ok sku : preserves schema_ok (get_product_by_sku sku).
Proof. intros t Ht. now rewrite get_product_by_sku_eq. Qed.

Lemma update_product_ok p : preserves schema_ok (update_product p).
Proof.
  intros t Ht. rewrite update_product_eq.
  destruct (SQL.update_products_where_sku _ _ _ _ _ _ t) as [[t' []]|e] eqn:Hs.
  - simpl. eapply update_products_where_sku_ok; eassumption.
  - destruct e as [| | | | |[|]]; exact Ht.
Qed.

Lemma delete_product_ok sku : preserves schema_ok (delete_product sku).
Proof.
  intros t Ht. rewrite delete_product_eq.
  destruct (SQL.delete_from_products_where_sku sku t) as [[t' []]|e] eqn:Hs.
  - simpl. eapply delete_from_products_where_sku_ok; eassumption.
  - destruct e as [| | | | |[|]]; exact Ht.
Qed.

(** A sale row is only inserted with a positive quantity. *)
Lemma insert_into_sales_positive product_id sku qty price vat t_ht t_vat t_ttc now t t' :
  SQL.insert_into_sales product_id sku qty price vat t_ht t_vat t_ttc now t = Ok (t', tt) ->
  0 < qty.
Proof.
  unfold SQL.insert_into_sales.
  destruct (SQL.fits_int64 qty); simpl; [|discriminate].
  destruct (SQL.binds_id product_id (products t)); simpl; [|discriminate].
  destruct product_id; [|discriminate].
  destruct (SQL.sale_constraints qty price vat t_ht t_vat t_ttc) eqn:Hc;
    simpl; [|discriminate].
  intros _. unfold SQL.sale_constraints in Hc. split_andb. lia.
Qed.

Lemma record_sale_ok now product_id sku qty price vat t_ht t_vat t_ttc :
  preserves schema_ok (record_sale now product_id sku qty price vat t_ht t_vat t_ttc).
Proof.
  intros t Ht. rewrite record_sale_eq.
  destruct (SQL.update_products_decrement qty product_id t) as [[t1 []]|e] eqn:Hu;
    [|exact Ht].
  destruct (SQL.insert_into_sales _ _ _ _ _ _ _ _ _ t1) as [[t2 []]|e] eqn:Hi; [|exact Ht].
  simpl. pose proof (insert_into_sales_positive _ _ _ _ _ _ _ _ _ _ _ Hi) as Hpos.
  eapply insert_into_sales_ok; [|exact Hi].
  apply (update_products_decrement_ok t Ht qty product_id); [lia | exact Hu].
Qed.

Lemma list_products_ok : preserves schema_ok list_products.
Proof. intros t Ht. exact Ht. Qed.

Lemma get_sales_stats_ok : preserves schema_ok get_sales_stats.
Proof.
  intros t Ht. rewrite get_sales_stats_eq.
  destruct (SQL.select_sales_stats t) as [[t' row]|e]; [exact Ht|].
  destruct e as [| | | | |[|]]; exact Ht.
Qed.

Import InventoryManager.

Lemma insert_all_ok now ps count : preserves schema_ok (insert_all now ps count).
Proof.
  revert count. induction ps as [|p ps IH]; intros count; simpl.
  - apply preserves_ret.
  - apply preserves_bind; [apply insert_product_ok | intros _; apply IH].
Qed.

Lemma initialize_from_json_ok now payload reset :
  preserves schema_ok (initialize_from_json now payload reset).
Proof.
  unfold initialize_from_json. apply preserves_bind.
  - destruct reset; [apply reset_and_create_schema_ok | apply create_schema_if_needed_ok].
  - intros _. apply insert_all_ok.
Qed.

Lemma list_inventory_ok : preserves schema_ok list_inventory.
Proof.
  unfold list_inventory. apply preserves_bind.
  - apply create_schema_if_needed_ok.
  - intros _. apply list_products_ok.
Qed.

Ltac preserved :=
  repeat first
    [ apply preserves_ret | apply preserves_raise | apply preserves_validated
    | apply insert_product_ok | apply get_product_by_sku_ok | apply update_product_ok
    | apply delete_product_ok | apply record_sale_ok
    | apply preserves_bind; [|intros ?]
    | match goal with
      | |- preserves _ (match ?found with Some _ => _ | None => _ end) => destruct found
      | |- preserves _ (if ?b then _ else _) => destruct b
      end ].

Lemma add_product_ok config now sku name cat price qty vat :
  preserves schema_ok (add_product config now sku name cat price qty vat).
Proof. unfold add_product. preserved. Qed.

Lemma update_product_service_ok sku name cat price qty vat :
  preserves schema_ok (InventoryManager.update_product sku name cat price qty vat).
Proof. unfold InventoryManager.update_product. preserved. Qed.

Lemma delete_product_service_ok sku :
  preserves schema_ok (InventoryManager.delete_product sku).
Proof. unfold InventoryManager.delete_product. preserved. Qed.

Lemma sell_product_ok now sku qty : preserves schema_ok (sell_product now sku qty).
Proof. unfold sell_product. preserved. Qed.

(** Every operation leaves tables that satisfy the schema. *)
Lemma run_ok (op : operation) (t : Tables) : schema_ok t -> schema_ok (run op t).
Proof.
  intros Ht. destruct op; unfold run.
  all: first
    [ now apply reset_and_create_schema_ok
    | now apply create_schema_if_needed_ok
    | now apply insert_product_ok
    | now apply get_product_by_sku_ok
    | now apply update_product_ok
    | now apply delete_product_ok
    | now apply record_sale_ok
    | now apply get_sales_stats_ok
    | now apply list_products_ok
    | now apply list_inventory_ok
    | now apply initialize_from_json_ok
    | now apply add_product_ok
    | now apply update_product_service_ok
    | now apply delete_product_service_ok
    | now apply sell_product_ok ].
Qed.

End Invariant.

(** ** Signs and NaN in float arithmetic

    The exact value of a float is its [spec_float]; the primitive operations
    are specified on it. *)

Module FloatFacts.

Lemma shr_1_nonneg mrs : 0 <= shr_m mrs -> 0 <= shr_m (shr_1 mrs).
Proof.
  destruct mrs as [m r s]. simpl. destruct m as [|[p|p|]|p]; simpl; lia.
Qed.

Lemma iter_pos_shr_1_nonneg p mrs : 0 <= shr_m mrs -> 0 <= shr_m (iter_pos shr_1 p mrs).
Proof.
  revert mrs. induction p as [p IH|p IH|]; intros mrs H; simpl.
  - apply IH, IH, shr_1_nonneg, H.
  - apply IH, IH, H.
  - apply shr_1_nonneg, H.
Qed.

Lemma shr_fexp_nonneg m e l :
  0 <= m -> 0 <= shr_m (fst (shr_fexp prec emax m e l)).
Proof.
  intros H. unfold shr_fexp, shr.
  assert (0 <= shr_m (shr_record_of_loc m l)) as H0
    by (destruct l as [|[| |]]; exact H).
  destruct (fexp prec emax (Zdigits2 m + e) - e); simpl; auto using iter_pos_shr_1_nonneg.
Qed.

Lemma round_nearest_even_nonneg m l : 0 <= m -> 0 <= round_nearest_even m l.
Proof.
  intros H. unfold round_nearest_even. destruct l as [|[| |]]; try lia.
  destruct (Z.even m); lia.
Qed.

Lemma binary_round_aux_signed s m e l :
  0 <= m -> signed s (binary_round_aux prec emax s m e l).
Proof.
  intros H. unfold binary_round_aux.
  pose proof (shr_fexp_nonneg m e l H) as H1.
  destruct (shr_fexp prec emax m e l) as [mrs' e'] eqn:E1. simpl in H1.
  pose proof (shr_fexp_nonneg _ e' loc_Exact
                (round_nearest_even_nonneg _ (loc_of_shr_record mrs') H1)) as H2.
  destruct (shr_fexp prec emax (round_nearest_even _ _) e' loc_Exact) as [mrs'' e''].
  simpl in H2. destruct (shr_m mrs''); [reflexivity| |lia].
  now destruct (e'' <=? emax - prec).
Qed.

Lemma signed_false_nonneg f : signed false f -> nonneg f.
Proof. destruct f; simpl; auto. Qed.

Lemma Prim2SF_zero : Prim2SF 0 = S754_zero false.
Proof. reflexivity. Qed.

Lemma leb_zero_nonneg x : PrimFloat.leb 0 x = true <-> nonneg (Prim2SF x).
Proof.
  rewrite FloatAxioms.leb_spec, Prim2SF_zero. unfold SFleb, SFcompare, nonneg.
  destruct (Prim2SF x) as [s|s| |s m e]; try destruct s; simpl; intuition congruence.
Qed.

Lemma SFcompare_refl f : f <> S754_nan -> SFcompare f f = Some Eq.
Proof.
  destruct f as [s|s| |s m e]; simpl; intros H; try congruence.
  - now destruct s.
  - rewrite Z.compare_refl, Pos.compare_cont_refl. now destruct s.
Qed.

Lemma is_nan_spec x : is_nan x = true <-> Prim2SF x = S754_nan.
Proof.
  unfold is_nan. rewrite FloatAxioms.eqb_spec. unfold SFeqb. split.
  - intros H. destruct (Prim2SF x) eqn:E; try reflexivity;
      rewrite SFcompare_refl in H by congruence; discriminate.
  - intros ->. reflexivity.
Qed.

Lemma not_nan_spec x : is_nan x = false <-> Prim2SF x <> S754_nan.
Proof.
  rewrite <- is_nan_spec. destruct (is_nan x); intuition congruence.
Qed.

Lemma nonneg_not_nan x : PrimFloat.leb 0 x = true -> is_nan x = false.
Proof.
  rewrite leb_zero_nonneg, not_nan_spec. destruct (Prim2SF x); simpl; congruence.
Qed.

Lemma SFmul_nonneg a b :
  nonneg a -> nonneg b -> nonneg (SF64mul a b) \/ SF64mul a b = S754_nan.
Proof.
  unfold SF64mul, SFmul.
  destruct a as [sa|sa| |sa ma ea], b as [sb|sb| |sb mb eb]; simpl;
    intros Ha Hb; subst; auto; try easy.
  left. apply signed_false_nonneg. apply (binary_round_aux_signed false). lia.
Qed.

Lemma binary_round_signed s m e : signed s (binary_round prec emax s m e).
Proof.
  unfold binary_round. destruct (shl_align _ _ _) as [mz ez].
  apply binary_round_aux_signed. lia.
Qed.

Lemma SFadd_nonneg a b : nonneg a -> nonneg b -> nonneg (SF64add a b).
Proof.
  unfold SF64add, SFadd.
  destruct a as [sa|sa| |sa ma ea], b as [sb|sb| |sb mb eb]; simpl;
    intros Ha Hb; subst; auto; try easy.
  - now destruct sa, sb.
  - unfold cond_Zopp. simpl. apply signed_false_nonneg.
    apply (binary_round_signed false).
Qed.

Lemma mul_nonneg x y :
  PrimFloat.leb 0 x = true -> PrimFloat.leb 0 y = true ->
  is_nan (x * y) = false -> PrimFloat.leb 0 (x * y) = true.
Proof.
  rewrite !leb_zero_nonneg, not_nan_spec, mul_spec. intros Hx Hy Hn.
  destruct (SFmul_nonneg _ _ Hx Hy); [assumption | contradiction].
Qed.

Lemma add_nonneg x y :
  PrimFloat.leb 0 x = true -> PrimFloat.leb 0 y = true -> PrimFloat.leb 0 (x + y) = true.
Proof. rewrite !leb_zero_nonneg, add_spec. apply SFadd_nonneg. Qed.

Lemma mul_nan_l x y : is_nan x = true -> is_nan (x * y) = true.
Proof. rewrite !is_nan_spec, mul_spec. intros ->. reflexivity. Qed.

Lemma add_nan_l x y : is_nan x = true -> is_nan (x + y) = true.
Proof. rewrite !is_nan_spec, add_spec. intros ->. reflexivity. Qed.

Lemma add_nan_r x y : is_nan y = true -> is_nan (x + y) = true.
Proof.
  rewrite !is_nan_spec, add_spec. intros ->. unfold SF64add, SFadd.
  now destruct (Prim2SF x).
Qed.

Lemma of_uint63_nonneg n : PrimFloat.leb 0 (of_uint63 n) = true.
Proof.
  rewrite leb_zero_nonneg, of_uint63_spec. unfold binary_normalize.
  destruct (Uint63Axioms.to_Z n) eqn:E; simpl; [trivial| |].
  - apply signed_false_nonneg, (binary_round_signed false).
  - pose proof (Uint63.to_Z_bounded n) as B.
    change (Uint63Axioms.to_Z n) with (Uint63.to_Z n) in E. lia.
Qed.

Lemma SF2Prim_nonneg f : signed false f -> PrimFloat.leb 0 (SF2Prim f) = true.
Proof.
  destruct f as [s|s| |s m e]; intros H; simpl in H; subst; try reflexivity; try easy.
  unfold SF2Prim. generalize (Uint63.of_Z (Z.pos m)). intros n.
  rewrite leb_zero_nonneg, Z_ldexp_spec.
  pose proof (of_uint63_nonneg n) as Hn.
  rewrite leb_zero_nonneg in Hn. unfold SFldexp.
  destruct (Prim2SF (of_uint63 n)) as [s|s| |s m' e']; simpl in *; subst; auto.
  apply signed_false_nonneg, (binary_round_signed false).
Qed.

Lemma SFdiv_signed m1 m2 :
  signed false (SFdiv prec emax (S754_finite false m1 0) (S754_finite false m2 0)).
Proof.
  unfold SFdiv. destruct (SFdiv_core_binary _ _ _ _ _ _) as [[mz ez] lz] eqn:E.
  apply binary_round_aux_signed. unfold SFdiv_core_binary in E.
  match type of E with
  | (let '(q, r) := Z.div_eucl ?a ?b in _) = _ =>
      pose proof (Z.div_eucl_eq a b) as Hd; pose proof (Z.mod_pos_bound a b) as Hm;
      assert (0 <= a) as Ha; [|unfold Z.modulo in Hm; destruct (Z.div_eucl a b) as [q r]]
  end.
  - destruct (0 - 0 - _); try lia. rewrite Z.shiftl_mul_pow2 by lia.
    apply Z.mul_nonneg_nonneg; [lia | apply Z.pow_nonneg; lia].
  - inversion E; subst. nia.
Qed.

Lemma round2_nonneg x : PrimFloat.leb 0 x = true -> PrimFloat.leb 0 (PyFloat.round2 x) = true.
Proof.
  intros H. unfold PyFloat.round2. pose proof H as Hn. rewrite leb_zero_nonneg in Hn.
  destruct (Prim2SF x) as [s|s| |s m e]; simpl in Hn; subst; try assumption.
  destruct (PyFloat.hundredths m e); try reflexivity.
  apply SF2Prim_nonneg, SFdiv_signed.
Qed.

Lemma round2_nan x : is_nan (PyFloat.round2 x) = false -> is_nan x = false.
Proof.
  intros H. destruct (is_nan x) eqn:E; [|reflexivity].
  pose proof E as E'. apply is_nan_spec in E'. unfold PyFloat.round2 in H.
  rewrite E' in H. congruence.
Qed.

Lemma SFcompare_antisym (a b : spec_float) :
  SFcompare b a = option_map CompOpp (SFcompare a b).
Proof.
  destruct a as [sa|sa| |sa ma ea], b as [sb|sb| |sb mb eb]; simpl;
    try destruct sa; try destruct sb; try reflexivity;
    rewrite (Z.compare_antisym ea eb); destruct (ea ?= eb); simpl; try reflexivity;
    now rewrite (Pos.compare_cont_antisym ma mb Eq).
Qed.

Lemma leb_not_ltb (a b : float) : PrimFloat.leb a b = true -> PyFloat.ltb b a = false.
Proof.
  unfold PyFloat.ltb. rewrite FloatAxioms.leb_spec, FloatAxioms.ltb_spec.
  unfold SFleb, SFltb. rewrite (SFcompare_antisym (Prim2SF a) (Prim2SF b)).
  now destruct (SFcompare (Prim2SF a) (Prim2SF b)) as [[| |]|].
Qed.

End FloatFacts.

(** ** Looking a product up *)

Lemma NoDup_map_injective {A B : Type} (f : A -> B) (l : list A) (x y : A) :
  NoDup (map f l) -> In x l -> In y l -> f x = f y -> x = y.
Proof.
  induction l as [|z l IH]; simpl; [easy|].
  intros Hnd Hx Hy Hf. inversion Hnd as [|? ? Hz Hl]; subst.
  destruct Hx as [->|Hx], Hy as [->|Hy]; auto.
  - exfalso. apply Hz. rewrite Hf. now apply in_map.
  - exfalso. apply Hz. rewrite <- Hf. now apply in_map.
Qed.

Lemma find_stored (t : Tables) (r : ProductRow.t) :
  schema_ok t -> stored t r ->
  find (SQL.has_sku (ProductRow.sku r)) (products t) = Some r.
Proof.
  intros [_ _ Hsku _ _ _] Hin. unfold stored in Hin.
  destruct (find _ (products t)) as [x|] eqn:Hf.
  - apply find_some in Hf as [Hx Hs]. apply has_sku_true in Hs. f_equal.
    eapply NoDup_map_injective; eassumption.
  - apply (find_none _ _ Hf) in Hin. apply has_sku_false in Hin. congruence.
Qed.

Lemma find_unknown (t : Tables) (sku : string) :
  unknown t sku -> find (SQL.has_sku sku) (products t) = None.
Proof.
  intros Hu. destruct (find _ (products t)) as [x|] eqn:Hf; [|reflexivity].
  apply find_some in Hf as [Hx Hs]. apply has_sku_true in Hs. now apply Hu in Hx.
Qed.

Lemma get_product_stored (t : Tables) (r : ProductRow.t) :
  schema_ok t -> stored t r ->
  SQLiteRepository.get_product_by_sku (ProductRow.sku r) t
  = (t, Ok (Some (SQLiteRepository.product_of_row r))).
Proof.
  intros Hok Hin. rewrite RepositoryFacts.get_product_by_sku_eq.
  now rewrite find_stored.
Qed.

Lemma get_product_unknown (t : Tables) (sku : string) :
  unknown t sku -> SQLiteRepository.get_product_by_sku sku t = (t, Ok None).
Proof.
  intros Hu. rewrite RepositoryFacts.get_product_by_sku_eq. now rewrite find_unknown.
Qed.

(** Under the primary key and UNIQUE(sku), an UPDATE by sku or by id rewrites
    exactly one row. *)
Lemma map_where_sku (t : Tables) (r : ProductRow.t) (g : ProductRow.t -> ProductRow.t) :
  schema_ok t -> stored t r ->
  map (fun x => if SQL.has_sku (ProductRow.sku r) x then g x else x) (products t)
  = replace_row r (g r) (products t).
Proof.
  intros [_ Hid Hsku _ _ _] Hin. unfold replace_row. apply map_ext_in. intros x Hx.
  destruct (SQL.has_sku (ProductRow.sku r) x) eqn:Hs.
  - apply has_sku_true in Hs.
    assert (x = r) as ->
      by (apply (NoDup_map_injective ProductRow.sku (products t)); assumption).
    now rewrite Z.eqb_refl.
  - destruct (ProductRow.id x =? ProductRow.id r) eqn:Hi; [|reflexivity].
    apply Z.eqb_eq in Hi.
    assert (x = r) as ->
      by (apply (NoDup_map_injective ProductRow.id (products t)); assumption).
    apply has_sku_false in Hs. congruence.
Qed.

Lemma map_where_id (t : Tables) (r : ProductRow.t) (g : ProductRow.t -> ProductRow.t) :
  schema_ok t -> stored t r ->
  map (fun x => if SQL.has_id (Some (ProductRow.id r)) x then g x else x) (products t)
  = replace_row r (g r) (products t).
Proof.
  intros [_ Hid _ _ _ _] Hin. unfold replace_row. apply map_ext_in. intros x Hx.
  unfold SQL.has_id. destruct (ProductRow.id x =? ProductRow.id r) eqn:Hi; [|reflexivity].
  apply Z.eqb_eq in Hi.
  now assert (x = r) as ->
    by (apply (NoDup_map_injective ProductRow.id (products t)); assumption).
Qed.

(** Replacing a stored row keeps every other row and its place. *)
Lemma replace_row_frame (t : Tables) (r r' x : ProductRow.t) :
  schema_ok t -> stored t r -> stored t x -> x <> r ->
  In x (replace_row r r' (products t)).
Proof.
  intros [_ Hid _ _ _ _] Hr Hx Hne. unfold replace_row. apply in_map_iff. exists x.
  split; [|exact Hx].
  destruct (ProductRow.id x =? ProductRow.id r) eqn:Hi; [|reflexivity].
  apply Z.eqb_eq in Hi. exfalso. apply Hne.
  apply (NoDup_map_injective ProductRow.id (products t)); assumption.
Qed.

Lemma replace_row_new (t : Tables) (r r' : ProductRow.t) :
  stored t r -> In r' (replace_row r r' (products t)).
Proof.
  intros Hr. unfold replace_row. apply in_map_iff. exists r.
  now rewrite Z.eqb_refl.
Qed.

(** ** The example tables satisfy the schema *)

Lemma empty_tables_ok : schema_ok empty_tables.
Proof. constructor; simpl; constructor. Qed.

Lemma shop_ok : schema_ok shop.
Proof.
  replace shop
    with (run (Insert_product "2024-01-01T09:00:00"
                 (Product.make None "SKU1" "Widget" "Tools" 10 5 vat_20 ""))
            empty_tables)
    by (vm_compute; reflexivity).
  apply Invariant.run_ok, empty_tables_ok.
Qed.

Lemma shop_after_sale_ok : schema_ok shop_after_sale.
Proof.
  replace shop_after_sale with (run (Sell_product "2024-01-02T10:00:00" "SKU1" 3) shop)
    by (vm_compute; reflexivity).
  apply Invariant.run_ok, shop_ok.
Qed.

(** * The properties of the specification *)

Import InventoryManager.

(** ** Selling *)

Lemma of_int_quantity (qty : Z) :
  0 < qty <= SQL.INT64_MAX ->
  PyFloat.of_int qty = Some (of_uint63 (Uint63.of_Z qty)).
Proof.
  intros H. unfold PyFloat.of_int, SQL.INT64_MAX in *.
  rewrite Z.abs_eq by lia.
  change (2 ^ 63) with 9223372036854775808.
  destruct (qty <? 9223372036854775808) eqn:Hlt; [|apply Z.ltb_ge in Hlt; lia].
  destruct (qty <? 0) eqn:Hneg; [apply Z.ltb_lt in Hneg; lia | reflexivity].
Qed.

Lemma of_int_nonneg (n : Z) (q : float) :
  0 < n -> PyFloat.of_int n = Some q -> PrimFloat.leb 0 q = true.
Proof.
  intros Hn. unfold PyFloat.of_int.
  destruct (Z.abs n <? 2 ^ 63).
  - destruct (n <? 0) eqn:Hneg; [apply Z.ltb_lt in Hneg; lia|].
    intros H. inversion H. apply FloatFacts.of_uint63_nonneg.
  - destruct n as [|p|p]; try lia. unfold binary_normalize.
    pose proof (FloatFacts.binary_round_signed false p 0) as Hs.
    remember (binary_round prec emax false p 0) as sf eqn:Hb. clear Hb.
    intros H. assert (q = SF2Prim sf) as -> by (destruct sf; congruence).
    now apply FloatFacts.SF2Prim_nonneg.
Qed.

Lemma product_row_ok_fields (r : ProductRow.t) :
  product_row_ok r ->
  SQL.not_null (ProductRow.unit_price_ht r) = true
  /\ SQL.not_null (ProductRow.vat_rate r) = true
  /\ PrimFloat.leb 0 (ProductRow.unit_price_ht r) = true
  /\ PrimFloat.leb 0 (ProductRow.vat_rate r) = true
  /\ PrimFloat.leb (ProductRow.vat_rate r) 1 = true
  /\ 0 <= ProductRow.quantity r <= SQL.INT64_MAX.
Proof.
  intros (Hc & Hf & _). unfold SQL.product_constraints, SQL.fits_int64 in *.
  split_andb. repeat split; try assumption; lia.
Qed.

(** The totals of a sale are numbers from zero up as soon as the last one,
    [total_ttc], is not NaN. *)
Lemma totals_storable (r : ProductRow.t) (qty : Z) (ht tv ttc : float) :
  product_row_ok r -> 0 < qty ->
  expected_totals (ProductRow.unit_price_ht r) (ProductRow.vat_rate r) qty
  = Some (ht, tv, ttc) ->
  is_nan ttc = false ->
  SQL.sale_constraints qty (ProductRow.unit_price_ht r) (ProductRow.vat_rate r) ht tv ttc
  = true.
Proof.
  intros Hr Hq He Hn. apply product_row_ok_fields in Hr as (Hp & Hv & Hp0 & Hv0 & Hv1 & _).
  unfold expected_totals in He.
  destruct (PyFloat.of_int qty) as [q|] eqn:Hq'; [|discriminate].
  apply (of_int_nonneg _ _ Hq) in Hq'. inversion He; subst; clear He.
  set (ht := PyFloat.round2 (ProductRow.unit_price_ht r * q)) in *.
  set (tv := PyFloat.round2 (ht * ProductRow.vat_rate r)) in *.
  assert (is_nan (ht + tv) = false) as Hsum by now apply FloatFacts.round2_nan.
  assert (is_nan ht = false) as Hht.
  { destruct (is_nan ht) eqn:E; [|reflexivity].
    now rewrite (FloatFacts.add_nan_l ht tv E) in Hsum. }
  assert (is_nan tv = false) as Htv.
  { destruct (is_nan tv) eqn:E; [|reflexivity].
    now rewrite (FloatFacts.add_nan_r ht tv E) in Hsum. }
  assert (PrimFloat.leb 0 ht = true) as Hht0.
  { apply FloatFacts.round2_nonneg, FloatFacts.mul_nonneg; try assumption.
    now apply FloatFacts.round2_nan. }
  assert (PrimFloat.leb 0 tv = true) as Htv0.
  { apply FloatFacts.round2_nonneg, FloatFacts.mul_nonneg; try assumption.
    now apply FloatFacts.round2_nan. }
  assert (PrimFloat.leb 0 (PyFloat.round2 (ht + tv)) = true) as Httc0
    by now apply FloatFacts.round2_nonneg, FloatFacts.add_nonneg.
  unfold SQL.sale_constraints, SQL.not_null in *.
  rewrite Hht, Htv, Hn, Hp, Hv, Hp0, Hv0, Hv1, Hht0, Htv0, Httc0.
  apply Z.ltb_lt in Hq. now rewrite Hq.
Qed.

Lemma decrement_stored (t : Tables) (r : ProductRow.t) (qty : Z) :
  schema_ok t -> stored t r -> 0 <= qty <= ProductRow.quantity r ->
  SQL.update_products_decrement qty (Some (ProductRow.id r)) t
  = Ok ({| products :=
             replace_row r (SQL.set_quantity (ProductRow.quantity r - qty) r) (products t);
           sales := sales t;
           seq_products := seq_products t;
           seq_sales := seq_sales t |}, tt).
Proof.
  intros Hok Hr Hq. unfold SQL.update_products_decrement.
  pose proof Hok as [Hp Hid _ _ _ _]. rewrite Forall_forall in Hp.
  destruct (product_row_ok_fields r (Hp r Hr)) as (_ & _ & _ & _ & _ & Hmax).
  assert (SQL.fits_int64 qty = true) as ->.
  { unfold SQL.fits_int64, SQL.INT64_MIN, SQL.INT64_MAX in *.
    apply andb_true_intro. split; apply Z.leb_le; lia. }
  rewrite (binds_id_stored r (products t) Hr). simpl.
  destruct (existsb _ (products t)) eqn:He.
  - apply existsb_exists in He as (x & Hx & Hc). apply andb_prop in Hc as [Hi Hc].
    apply has_id_true in Hi.
    assert (x = r) as ->
      by (apply (NoDup_map_injective ProductRow.id (products t)); assumption).
    apply negb_true_iff, Z.leb_gt in Hc. lia.
  - rewrite <- (map_where_id t r (fun x => SQL.set_quantity (ProductRow.quantity r - qty) x))
      by assumption.
    do 3 f_equal. apply map_ext_in. intros x Hx. unfold SQL.has_id.
    destruct (ProductRow.id x =? ProductRow.id r) eqn:Hi; [|reflexivity].
    apply Z.eqb_eq in Hi.
    now assert (x = r) as ->
      by (apply (NoDup_map_injective ProductRow.id (products t)); assumption).
Qed.

Lemma decrement_short (t : Tables) (r : ProductRow.t) (qty : Z) :
  stored t r -> ProductRow.quantity r < qty ->
  SQL.update_products_decrement qty (Some (ProductRow.id r)) t
  = Raise (if SQL.fits_int64 qty then sqlite3_error IntegrityError else OverflowError).
Proof.
  intros Hr Hq. unfold SQL.update_products_decrement.
  destruct (SQL.fits_int64 qty); cbn [negb]; [|reflexivity].
  rewrite (binds_id_stored r (products t) Hr). cbn [negb].
  assert (existsb (fun x => SQL.has_id (Some (ProductRow.id r)) x
                            && negb (0 <=? ProductRow.quantity x - qty)) (products t)
          = true) as ->; [|reflexivity].
  apply existsb_exists. exists r. split; [exact Hr|].
  apply andb_true_intro. split; [now apply has_id_true|].
  apply negb_true_iff, Z.leb_gt. lia.
Qed.

(** The tables a sale of [qty] units of row [r] leaves. *)
Lemma sell_product_run (now : string) (t : Tables) (r : ProductRow.t) (qty : Z)
    (ht tv ttc : float) :
  schema_ok t -> stored t r -> 0 < qty <= ProductRow.quantity r ->
  expected_totals (ProductRow.unit_price_ht r) (ProductRow.vat_rate r) qty
  = Some (ht, tv, ttc) ->
  sell_product now (ProductRow.sku r) qty t
  = if SQL.sale_constraints qty (ProductRow.unit_price_ht r) (ProductRow.vat_rate r)
         ht tv ttc
    then
      ({| products :=
            replace_row r (SQL.set_quantity (ProductRow.quantity r - qty) r) (products t);
          sales :=
            sales t ++
            [SaleRow.make (SQL.next_rowid (seq_sales t) (map SaleRow.id (sales t)))
               (ProductRow.id r) (ProductRow.sku r) qty
               (ProductRow.unit_price_ht r) (ProductRow.vat_rate r)
               (SQL.stored_real ht) (SQL.stored_real tv) (SQL.stored_real ttc) now];
          seq_products := seq_products t;
          seq_sales := SQL.next_rowid (seq_sales t) (map SaleRow.id (sales t)) |},
       Ok {| sku := ProductRow.sku r; qty := qty;
             total_ht := ht; total_vat := tv; total_ttc := ttc |})
    else (t, Raise (DatabaseError Erreur_transaction_vente)).
Proof.
  intros Hok Hr Hq He. unfold sell_product, bind.
  rewrite get_product_stored by assumption. simpl.
  assert ((qty <=? 0) = false) as -> by (apply Z.leb_gt; lia).
  assert ((ProductRow.quantity r <? qty) = false) as -> by (apply Z.ltb_ge; lia).
  unfold expected_totals in He. unfold validated, float_times_int.
  destruct (PyFloat.of_int qty) as [q|]; [|discriminate]. inversion He; subst; clear He.
  rewrite RepositoryFacts.record_sale_eq.
  rewrite decrement_stored by (try assumption; lia).
  unfold SQL.insert_into_sales. simpl products. simpl sales. simpl seq_sales.
  pose proof Hok as [Hp _ _ _ _ _]. rewrite Forall_forall in Hp.
  destruct (Hp r Hr) as (_ & _ & Hsp & Hsv).
  destruct (product_row_ok_fields r (Hp r Hr)) as (_ & _ & _ & _ & _ & Hmax).
  assert (SQL.fits_int64 qty = true) as ->.
  { unfold SQL.fits_int64, SQL.INT64_MIN, SQL.INT64_MAX in *.
    apply andb_true_intro. split; apply Z.leb_le; lia. }
  simpl negb. cbv iota.
  assert (existsb (SQL.has_id (Some (ProductRow.id r)))
            (replace_row r (SQL.set_quantity (ProductRow.quantity r - qty) r) (products t))
          = true) as Hex.
  { apply existsb_exists. exists (SQL.set_quantity (ProductRow.quantity r - qty) r).
    split; [now apply replace_row_new | now apply has_id_true]. }
  unfold SQL.binds_id. rewrite Hex, orb_true_r. cbn [negb].
  rewrite andb_true_r, Hsp, Hsv.
  now destruct (SQL.sale_constraints _ _ _ _ _ _).
Qed.

Lemma workshop_ok : schema_ok workshop.
Proof.
  replace workshop
    with (run (Insert_product "2024-01-01T09:00:00"
                 (Product.make None "BIG" "Press" "Tools" price_1e308 10 0 ""))
            empty_tables)
    by (vm_compute; reflexivity).
  apply Invariant.run_ok, empty_tables_ok.
Qed.

(** C1, as stated, fails: ten units of a product in stock (ten units, price
    1e308, VAT 0, added by [add_product]) are not sold.  The total before tax
    overflows to infinity, the VAT on it is NaN, SQLite binds NaN as NULL and
    the NOT NULL constraint of [sales.total_vat] aborts the transaction: the
    call raises DatabaseError, the stock is not decremented and no sale row is
    appended. *)
Lemma sell_product_overflow_counterexample :
  run (Add_product config_20 "2024-01-01T09:00:00" "BIG" "Press" "Tools" price_1e308 10
         (Some 0%float)) empty_tables
  = workshop
  /\ schema_ok workshop
  /\ stored workshop press
  /\ 0 < 10 <= ProductRow.quantity press
  /\ sell_product "2024-01-02T10:00:00" (ProductRow.sku press) 10 workshop
     = (workshop, Raise (DatabaseError Erreur_transaction_vente)).
Proof.
  split; [vm_compute; reflexivity|].
  split; [exact workshop_ok|]. split; [now left|]. split; [simpl; lia|].
  vm_compute. reflexivity.
Qed.

(** C1, amended.  For a stored product and a quantity from one up to its
    stock, the totals of the sale are defined; when the last of them,
    [total_ttc], is a number (not NaN), [sell_product] returns the receipt,
    replaces the product's row by the same row with the quantity decremented
    by exactly [qty], changes no other product row, and appends exactly one
    sale row that carries the product's id, sku, price and VAT rate and the
    quantity sold.  When [total_ttc] is NaN the sale is refused with
    DatabaseError and the tables are left as they were. *)
Theorem sell_product_sells (now : string) (t : Tables) (r : ProductRow.t) (qty : Z) :
  schema_ok t -> stored t r -> 0 < qty <= ProductRow.quantity r ->
  exists ht tv ttc,
    expected_totals (ProductRow.unit_price_ht r) (ProductRow.vat_rate r) qty
    = Some (ht, tv, ttc)
    /\ (is_nan ttc = false ->
        exists t' sale,
          sell_product now (ProductRow.sku r) qty t
          = (t', Ok {| sku := ProductRow.sku r; qty := qty;
                       total_ht := ht; total_vat := tv; total_ttc := ttc |})
          /\ products t'
             = replace_row r (SQL.set_quantity (ProductRow.quantity r - qty) r) (products t)
          /\ (forall x, stored t x -> x <> r -> stored t' x)
          /\ sales t' = (sales t ++ [sale])%list
          /\ SaleRow.product_id sale = ProductRow.id r
          /\ SaleRow.sku sale = ProductRow.sku r
          /\ SaleRow.quantity sale = qty
          /\ SaleRow.unit_price_ht sale = ProductRow.unit_price_ht r
          /\ SaleRow.vat_rate sale = ProductRow.vat_rate r)
    /\ (is_nan ttc = true ->
        sell_product now (ProductRow.sku r) qty t
        = (t, Raise (DatabaseError Erreur_transaction_vente))).
Proof.
  intros Hok Hr Hq.
  pose proof Hok as [Hp _ _ _ _ _]. rewrite Forall_forall in Hp. specialize (Hp r Hr).
  destruct (product_row_ok_fields r Hp) as (_ & _ & _ & _ & _ & Hmax).
  destruct (expected_totals (ProductRow.unit_price_ht r) (ProductRow.vat_rate r) qty)
    as [[[ht tv] ttc]|] eqn:He.
  2: { unfold expected_totals in He. rewrite of_int_quantity in He by lia. discriminate. }
  exists ht, tv, ttc. split; [reflexivity|].
  rewrite (sell_product_run now t r qty ht tv ttc) by assumption. split.
  - intros Hn. rewrite (totals_storable r qty ht tv ttc) by (try assumption; lia).
    eexists _, _. split; [reflexivity|]. simpl.
    repeat split; try reflexivity.
    intros x Hx Hne. now apply replace_row_frame.
  - intros Hn.
    assert (SQL.sale_constraints qty (ProductRow.unit_price_ht r) (ProductRow.vat_rate r)
              ht tv ttc = false) as ->; [|reflexivity].
    apply not_true_is_false. intros Hc. unfold SQL.sale_constraints, SQL.not_null in Hc.
    split_andb. rewrite Hn in *. discriminate.
Qed.

(** Three units of SKU1 sold at the shop of section 8. *)
Lemma sell_product_sells_witness :
  exists ht tv ttc,
    expected_totals (ProductRow.unit_price_ht widget) (ProductRow.vat_rate widget) 3
    = Some (ht, tv, ttc)
    /\ (is_nan ttc = false ->
        exists t' sale,
          sell_product "2024-01-02T10:00:00" (ProductRow.sku widget) 3 shop
          = (t', Ok {| sku := ProductRow.sku widget; qty := 3;
                       total_ht := ht; total_vat := tv; total_ttc := ttc |})
          /\ products t'
             = replace_row widget
                 (SQL.set_quantity (ProductRow.quantity widget - 3) widget) (products shop)
          /\ (forall x, stored shop x -> x <> widget -> stored t' x)
          /\ sales t' = (sales shop ++ [sale])%list
          /\ SaleRow.product_id sale = ProductRow.id widget
          /\ SaleRow.sku sale = ProductRow.sku widget
          /\ SaleRow.quantity sale = 3
          /\ SaleRow.unit_price_ht sale = ProductRow.unit_price_ht widget
          /\ SaleRow.vat_rate sale = ProductRow.vat_rate widget)
    /\ (is_nan ttc = true ->
        sell_product "2024-01-02T10:00:00" (ProductRow.sku widget) 3 shop
        = (shop, Raise (DatabaseError Erreur_transaction_vente))).
Proof.
  apply (sell_product_sells "2024-01-02T10:00:00" shop widget 3 shop_ok).
  - now left.
  - simpl. lia.
Defined.

(** C2.  [sell_product] raises NotFoundError for an unknown sku, ValidationError
    for a known sku and a quantity of zero or less, and StockError for a known
    sku and a positive quantity above the stock; each time the tables are
    left exactly as they were. *)
Theorem sell_product_rejects (now sku : string) (qty : Z) (t : Tables) :
  schema_ok t ->
  (unknown t sku -> sell_product now sku qty t = (t, Raise NotFoundError))
  /\ (forall r, stored t r -> ProductRow.sku r = sku ->
        (qty <= 0 -> sell_product now sku qty t = (t, Raise ValidationError))
        /\ (0 < qty -> ProductRow.quantity r < qty ->
            sell_product now sku qty t = (t, Raise StockError))).
Proof.
  intros Hok. split.
  - intros Hu. unfold sell_product, bind. now rewrite get_product_unknown.
  - intros r Hr <-. unfold sell_product, bind. rewrite get_product_stored by assumption.
    simpl. split.
    + intros Hq. apply Z.leb_le in Hq. now rewrite Hq.
    + intros Hq Hs. apply Z.leb_gt in Hq. apply Z.ltb_lt in Hs. now rewrite Hq, Hs.
Qed.

(** The three rejections at the shop of section 8. *)
Lemma sell_product_rejects_witness :
  sell_product "2024-01-02T10:00:00" "SKU9" 1 shop = (shop, Raise NotFoundError)
  /\ sell_product "2024-01-02T10:00:00" "SKU1" 0 shop = (shop, Raise ValidationError)
  /\ sell_product "2024-01-02T10:00:00" "SKU1" 6 shop = (shop, Raise StockError).
Proof.
  split; [|split].
  - apply (sell_product_rejects _ "SKU9" 1 shop shop_ok).
    intros r [<-|[]]. discriminate.
  - apply (sell_product_rejects _ "SKU1" 0 shop shop_ok) with (r := widget);
      [left; reflexivity | reflexivity | lia].
  - apply (sell_product_rejects _ "SKU1" 6 shop shop_ok) with (r := widget);
      [left; reflexivity | reflexivity | lia | simpl; lia].
Defined.

Lemma update_products_decrement_sales (qty : Z) (id : option Z) (t t1 : Tables) :
  SQL.update_products_decrement qty id t = Ok (t1, tt) -> sales t1 = sales t.
Proof.
  unfold SQL.update_products_decrement.
  destruct (negb (SQL.fits_int64 qty)); [discriminate|].
  destruct (negb (SQL.binds_id _ (products t))); [discriminate|].
  destruct (existsb _ (products t)); [discriminate|].
  intros H. now inversion H.
Qed.

Lemma insert_into_sales_row (product_id : option Z) (sku : string) (qty : Z)
    (price vat ht tv ttc : float) (now : string) (t t' : Tables) :
  SQL.insert_into_sales product_id sku qty price vat ht tv ttc now t = Ok (t', tt) ->
  SQL.sale_constraints qty price vat ht tv ttc = true
  /\ exists rowid pid,
       product_id = Some pid
       /\ sales t'
          = (sales t ++
             [SaleRow.make rowid pid sku qty (SQL.stored_real price) (SQL.stored_real vat)
                (SQL.stored_real ht) (SQL.stored_real tv) (SQL.stored_real ttc) now])%list.
Proof.
  unfold SQL.insert_into_sales.
  destruct (negb (SQL.fits_int64 qty)); [discriminate|].
  destruct (negb (SQL.binds_id _ (products t))); [discriminate|].
  destruct product_id as [pid|]; [|discriminate].
  destruct (SQL.sale_constraints qty price vat ht tv ttc); [|discriminate]. simpl.
  destruct (existsb _ (products t)); [|discriminate].
  intros H. inversion H. split; [reflexivity|]. now eexists _, pid.
Qed.



(** ** Inserting *)

Lemma insert_product_inv (now : string) (p : Product.t) (t t' : Tables) (rowid : Z) :
  SQLiteRepository.insert_product now p t = (t', Ok rowid) ->
  existsb (SQL.has_sku (Product.sku p)) (products t) = false
  /\ SQL.product_constraints (Product.unit_price_ht p) (Product.vat_rate p)
       (Product.quantity p) = true
  /\ SQL.fits_int64 (Product.quantity p) = true
  /\ products t' = (products t ++ [row_of_product rowid now p])%list
  /\ sales t' = sales t.
Proof.
  rewrite RepositoryFacts.insert_product_eq. unfold SQL.insert_into_products.
  destruct (SQL.fits_int64 (Product.quantity p)); cbn [negb]; [|discriminate].
  destruct (SQL.product_constraints _ _ _); cbn [andb]; [|discriminate].
  destruct (existsb _ (products t)); cbn [negb]; [discriminate|].
  intros H. inversion H; subst. now repeat split.
Qed.

Lemma insert_product_fresh (now : string) (p : Product.t) (t : Tables) :
  unknown t (Product.sku p) ->
  SQL.fits_int64 (Product.quantity p) = true ->
  SQL.product_constraints (Product.unit_price_ht p) (Product.vat_rate p)
    (Product.quantity p) = true ->
  exists t' rowid,
    SQLiteRepository.insert_product now p t = (t', Ok rowid)
    /\ products t' = (products t ++ [row_of_product rowid now p])%list
    /\ sales t' = sales t.
Proof.
  intros Hu Hf Hc. rewrite RepositoryFacts.insert_product_eq.
  unfold SQL.insert_into_products. rewrite Hf, Hc. cbn [negb andb].
  assert (existsb (SQL.has_sku (Product.sku p)) (products t) = false) as ->.
  { apply no_row_has_sku. intros Hin. apply in_map_iff in Hin as (r & Hs & Hin).
    now apply (Hu r). }
  cbn [negb]. eexists _, _. now repeat split.
Qed.

Lemma get_product_inserted (sku : string) (t : Tables) (row : ProductRow.t) :
  existsb (SQL.has_sku sku) (products t) = false ->
  ProductRow.sku row = sku ->
  forall t', products t' = (products t ++ [row])%list ->
  SQLiteRepository.get_product_by_sku sku t'
  = (t', Ok (Some (SQLiteRepository.product_of_row row))).
Proof.
  intros Hn Hs t' Ht'. rewrite RepositoryFacts.get_product_by_sku_eq, Ht'.
  assert (find (SQL.has_sku sku) (products t ++ [row]) = Some row) as ->;
    [|reflexivity].
  clear Ht'. induction (products t) as [|x l IH]; cbn [app find existsb] in *.
  - apply has_sku_true in Hs. now rewrite Hs.
  - apply orb_false_elim in Hn as [Hx Hl]. rewrite Hx. now apply IH.
Qed.

Lemma same_fields_stored (rowid : Z) (now : string) (p : Product.t) :
  SQL.product_constraints (Product.unit_price_ht p) (Product.vat_rate p)
    (Product.quantity p) = true ->
  SQLiteRepository.or_now (Product.created_at p) now = Product.created_at p ->
  Product.same_fields p (SQLiteRepository.product_of_row (row_of_product rowid now p))
  = true.
Proof.
  intros Hc Hnow. unfold SQL.product_constraints in Hc. split_andb.
  unfold Product.same_fields. simpl. rewrite Hnow, !String.eqb_refl, Z.eqb_refl.
  now rewrite !stored_real_equal.
Qed.

Lemma valid_product_constraints (p : Product.t) :
  valid_product p ->
  SQL.product_constraints (Product.unit_price_ht p) (Product.vat_rate p)
    (Product.quantity p) = true.
Proof.
  intros (_ & _ & _ & Hp & Hv0 & Hv1 & Hq & _). unfold SQL.product_constraints, SQL.not_null.
  rewrite (FloatFacts.nonneg_not_nan _ Hp), (FloatFacts.nonneg_not_nan _ Hv0), Hp, Hv0, Hv1.
  apply Z.leb_le in Hq. now rewrite Hq.
Qed.

(** C4, as stated, fails: a product with valid fields and a fresh sku whose
    quantity is 2^63 is not inserted.  The sqlite3 module cannot bind the
    quantity ("Python int too large to convert to SQLite INTEGER") and
    [insert_product] raises OverflowError. *)
Lemma insert_product_roundtrip_counterexample :
  valid_product bulk
  /\ unknown empty_tables (Product.sku bulk)
  /\ SQLiteRepository.insert_product "2024-01-01T09:00:00" bulk empty_tables
     = (empty_tables, Raise OverflowError).
Proof.
  split; [|split].
  - unfold valid_product. simpl. repeat split; try discriminate; try reflexivity.
  - intros r [].
  - vm_compute. reflexivity.
Qed.

(** C4, amended.  For every product with valid fields whose quantity fits a
    signed 64-bit integer and whose sku is not stored, [insert_product]
    returns the new rowid and [get_product_by_sku] then returns a product
    with that id and the same sku, name, category, unit_price_ht, vat_rate,
    quantity and created_at. *)
Theorem insert_product_roundtrip (now : string) (p : Product.t) (t : Tables) :
  valid_product p ->
  Product.quantity p <= SQL.INT64_MAX ->
  unknown t (Product.sku p) ->
  exists t' rowid q,
    SQLiteRepository.insert_product now p t = (t', Ok rowid)
    /\ SQLiteRepository.get_product_by_sku (Product.sku p) t' = (t', Ok (Some q))
    /\ Product.id q = Some rowid
    /\ Product.same_fields p q = true.
Proof.
  intros Hv Hmax Hu. pose proof (valid_product_constraints p Hv) as Hc.
  destruct Hv as (_ & _ & _ & _ & _ & _ & Hq & Hcreated).
  assert (SQL.fits_int64 (Product.quantity p) = true) as Hf.
  { unfold SQL.fits_int64, SQL.INT64_MIN, SQL.INT64_MAX in *.
    apply andb_true_intro. split; apply Z.leb_le; lia. }
  destruct (insert_product_fresh now p t Hu Hf Hc) as (t' & rowid & Hi & Hp & _).
  exists t', rowid, (SQLiteRepository.product_of_row (row_of_product rowid now p)).
  split; [exact Hi|]. split; [|split; [reflexivity|]].
  - apply (get_product_inserted (Product.sku p) t); [|reflexivity|exact Hp].
    apply no_row_has_sku. intros Hin. apply in_map_iff in Hin as (r & Hs & Hin).
    now apply (Hu r).
  - apply same_fields_stored; [exact Hc|].
    unfold SQLiteRepository.or_now. now destruct (Product.created_at p).
Qed.

(** A second product, A1, inserted at the shop and read back. *)
Lemma insert_product_roundtrip_witness :
  exists t' rowid q,
    SQLiteRepository.insert_product "2024-01-03T08:00:00"
      (Product.make None "A1" "Widget" "Tools" price_9_99 10 vat_20 "2024-01-01T09:00:00")
      shop = (t', Ok rowid)
    /\ SQLiteRepository.get_product_by_sku "A1" t' = (t', Ok (Some q))
    /\ Product.id q = Some rowid
    /\ Product.same_fields
         (Product.make None "A1" "Widget" "Tools" price_9_99 10 vat_20 "2024-01-01T09:00:00")
         q = true.
Proof.
  apply (insert_product_roundtrip "2024-01-03T08:00:00"
           (Product.make None "A1" "Widget" "Tools" price_9_99 10 vat_20
              "2024-01-01T09:00:00") shop).
  - unfold valid_product. simpl. repeat split; try discriminate; try reflexivity.
  - simpl. unfold SQL.INT64_MAX. lia.
  - intros r [<-|[]]. discriminate.
Defined.

(** C5, as stated, fails: inserting a second product under a stored sku
    raises OverflowError, not DatabaseError, when its quantity is 2^63: the
    sqlite3 module refuses to bind the quantity before the statement runs. *)
Lemma insert_product_duplicate_counterexample :
  stored shop widget
  /\ Product.sku bulk_widget = ProductRow.sku widget
  /\ SQLiteRepository.insert_product "2024-01-03T08:00:00" bulk_widget shop
     = (shop, Raise OverflowError).
Proof.
  split; [now left|]. split; [reflexivity|]. vm_compute. reflexivity.
Qed.

(** C5, amended.  For every stored product, [insert_product] with a second
    product of the same sku fails and leaves the tables as they were: with
    DatabaseError (the constraint message) when the second product's quantity
    fits a signed 64-bit integer, with OverflowError otherwise.  The stored
    product is still returned, unchanged, by [get_product_by_sku]. *)
Theorem insert_product_duplicate (now : string) (p2 : Product.t) (t : Tables)
    (r : ProductRow.t) :
  schema_ok t -> stored t r -> Product.sku p2 = ProductRow.sku r ->
  SQLiteRepository.insert_product now p2 t
  = (t, Raise (if SQL.fits_int64 (Product.quantity p2)
               then DatabaseError Contrainte_violee
               else OverflowError))
  /\ SQLiteRepository.get_product_by_sku (ProductRow.sku r)
       (fst (SQLiteRepository.insert_product now p2 t))
     = (t, Ok (Some (SQLiteRepository.product_of_row r))).
Proof.
  intros Hok Hr Hs.
  assert (SQLiteRepository.insert_product now p2 t
          = (t, Raise (if SQL.fits_int64 (Product.quantity p2)
                       then DatabaseError Contrainte_violee
                       else OverflowError))) as Hi.
  { rewrite RepositoryFacts.insert_product_eq. unfold SQL.insert_into_products.
    destruct (SQL.fits_int64 (Product.quantity p2)); cbn [negb]; [|reflexivity].
    assert (existsb (SQL.has_sku (Product.sku p2)) (products t) = true) as ->.
    { apply existsb_exists. exists r. split; [exact Hr | now apply has_sku_true]. }
    now rewrite andb_false_r. }
  rewrite Hi. split; [reflexivity|]. now apply get_product_stored.
Qed.

(** A second product under the sku SKU1 is refused at the shop. *)
Lemma insert_product_duplicate_witness :
  SQLiteRepository.insert_product "2024-01-03T08:00:00"
    (Product.make None "SKU1" "Gadget" "Toys" 1 1 0 "") shop
  = (shop, Raise (DatabaseError Contrainte_violee))
  /\ SQLiteRepository.get_product_by_sku "SKU1"
       (fst (SQLiteRepository.insert_product "2024-01-03T08:00:00"
               (Product.make None "SKU1" "Gadget" "Toys" 1 1 0 "") shop))
     = (shop, Ok (Some (SQLiteRepository.product_of_row widget))).
Proof.
  apply (insert_product_duplicate "2024-01-03T08:00:00"
           (Product.make None "SKU1" "Gadget" "Toys" 1 1 0 "") shop widget shop_ok).
  - now left.
  - reflexivity.
Defined.

(** ** Adding *)

Lemma add_product_inv (config : AppConfig) (now sku name cat : string) (price : float)
    (qty : Z) (vat : option float) (t t' : Tables) (p : Product.t) :
  add_product config now sku name cat price qty vat t = (t', Ok p) ->
  exists s name' cat' rowid,
    Validation.validate_sku sku = Ok s
    /\ Validation.validate_non_empty name "nom" = Ok name'
    /\ Validation.validate_non_empty cat "categorie" = Ok cat'
    /\ p = Product.make None s name' cat' price qty
             (match vat with Some v => v | None => default_vat_rate config end) now
    /\ SQLiteRepository.insert_product now p t = (t', Ok rowid).
Proof.
  unfold add_product, bind, validated.
  destruct (Validation.validate_sku sku) as [s|e]; [|discriminate].
  rewrite RepositoryFacts.get_product_by_sku_eq.
  destruct (find (SQL.has_sku s) (products t)); simpl; [discriminate|].
  destruct (Validation.validate_non_empty name "nom") as [name'|e]; [|discriminate].
  destruct (Validation.validate_non_empty cat "categorie") as [cat'|e]; [|discriminate].
  unfold Validation.validate_unit_price_ht, Validation.validate_quantity,
    Validation.validate_vat_rate.
  destruct (PyFloat.ltb price 0); [discriminate|].
  destruct ((qty <? 0) || (negb true && (qty <=? 0))); [discriminate|].
  destruct (PyFloat.ltb _ 0 || PyFloat.ltb 1 _); [discriminate|].
  destruct (SQLiteRepository.insert_product _ _ t) as [t1 [rowid|e]] eqn:Hi;
    [|discriminate].
  unfold ret. intros H. inversion H; subst. now eexists s, name', cat', rowid.
Qed.

(** C6.  [add_product] raises ValidationError, and leaves the tables as they
    were, when the validated sku is already stored; a call without VAT that
    succeeds stores a row with the configured default VAT rate; a call that
    succeeds returns the created product, which [get_product_by_sku] then
    gives back with the same fields.  With default VAT 0.20,
    add_product("A1", "Widget", "Tools", 9.99, 10) stores VAT rate 0.20. *)
Theorem add_product_cases :
  (forall config now sku name cat price qty vat t s r,
      Validation.validate_sku sku = Ok s -> stored t r -> ProductRow.sku r = s ->
      add_product config now sku name cat price qty vat t = (t, Raise ValidationError))
  /\ (forall config now sku name cat price qty t t' p,
         add_product config now sku name cat price qty None t = (t', Ok p) ->
         Product.vat_rate p = default_vat_rate config
         /\ exists row,
              products t' = (products t ++ [row])%list
              /\ ProductRow.sku row = Product.sku p
              /\ PyFloat.eqb (default_vat_rate config) (ProductRow.vat_rate row) = true)
  /\ (forall config now sku name cat price qty vat t t' p,
         add_product config now sku name cat price qty vat t = (t', Ok p) ->
         exists q,
           SQLiteRepository.get_product_by_sku (Product.sku p) t' = (t', Ok (Some q))
           /\ Product.same_fields p q = true)
  /\ add_product config_20 "2024-01-03T08:00:00" "A1" "Widget" "Tools" price_9_99 10 None
       empty_tables
     = ({| products := [ProductRow.make 1 "A1" "Widget" "Tools" price_9_99 vat_20 10
                          "2024-01-03T08:00:00"];
           sales := [];
           seq_products := 1;
           seq_sales := 0 |},
        Ok (Product.make None "A1" "Widget" "Tools" price_9_99 10 vat_20
              "2024-01-03T08:00:00")).
Proof.
  split; [|split; [|split]].
  - intros config now sku name cat price qty vat t s r Hs Hr Hsku.
    unfold add_product, bind, validated. rewrite Hs.
    rewrite RepositoryFacts.get_product_by_sku_eq.
    destruct (find (SQL.has_sku s) (products t)) as [x|] eqn:Hf; [reflexivity|].
    apply (find_none _ _ Hf) in Hr. apply has_sku_false in Hr. contradiction.
  - intros config now sku name cat price qty t t' p H.
    apply add_product_inv in H as (s & name' & cat' & rowid & _ & _ & _ & Hpe & Hi).
    apply insert_product_inv in Hi as (_ & Hc & _ & Hp & _).
    split; [now rewrite Hpe|]. exists (row_of_product rowid now p).
    split; [exact Hp|]. split; [reflexivity|].
    unfold SQL.product_constraints in Hc. split_andb.
    replace (default_vat_rate config) with (Product.vat_rate p) by now rewrite Hpe.
    now apply stored_real_equal.
  - intros config now sku name cat price qty vat t t' p H.
    apply add_product_inv in H as (s & name' & cat' & rowid & _ & _ & _ & Hpe & Hi).
    apply insert_product_inv in Hi as (Hn & Hc & _ & Hp & _).
    exists (SQLiteRepository.product_of_row (row_of_product rowid now p)). split.
    + now apply (get_product_inserted (Product.sku p) t (row_of_product rowid now p) Hn).
    + apply same_fields_stored; [exact Hc|].
      rewrite Hpe. unfold SQLiteRepository.or_now. simpl. now destruct now.
  - vm_compute. reflexivity.
Qed.

(** SKU1 with blanks around it is validated to the stored sku and rejected. *)
Lemma add_product_cases_witness :
  add_product config_20 "2024-01-03T08:00:00" " SKU1 " "Gadget" "Toys" 1 1 None shop
  = (shop, Raise ValidationError).
Proof.
  apply (proj1 add_product_cases config_20 "2024-01-03T08:00:00" " SKU1 " "Gadget" "Toys"
           1%float 1 None shop "SKU1" widget).
  - reflexivity.
  - now left.
  - reflexivity.
Defined.

(** ** Updating *)

(** The row [update_product] leaves in place of row [r]. *)
Lemma update_product_run (name cat : string) (price : float) (qty : Z) (vat : float)
    (t : Tables) (r : ProductRow.t) :
  schema_ok t -> stored t r ->
  (exists name' cat',
      Validation.validate_non_empty name "nom" = Ok name'
      /\ Validation.validate_non_empty cat "categorie" = Ok cat'
      /\ InventoryManager.update_product (ProductRow.sku r) name cat price qty vat t
         = ({| products := replace_row r (updated_row r name' cat' price vat qty) (products t);
               sales := sales t;
               seq_products := seq_products t;
               seq_sales := seq_sales t |}, Ok tt))
  \/ (exists e,
         InventoryManager.update_product (ProductRow.sku r) name cat price qty vat t
         = (t, Raise e)).
Proof.
  intros Hok Hr. unfold InventoryManager.update_product, bind, validated.
  rewrite get_product_stored by assumption. simpl.
  destruct (Validation.validate_non_empty name "nom") as [name'|e];
    [|right; now exists e].
  destruct (Validation.validate_non_empty cat "categorie") as [cat'|e];
    [|right; now exists e].
  destruct (Validation.validate_unit_price_ht price) as [price'|e] eqn:Hprice;
    [|right; now exists e].
  destruct (Validation.validate_quantity qty true) as [qty'|e] eqn:Hqty;
    [|right; now exists e].
  destruct (Validation.validate_vat_rate vat) as [vat'|e] eqn:Hvat;
    [|right; now exists e].
  assert (price' = price) as ->
    by (unfold Validation.validate_unit_price_ht in Hprice;
        destruct (PyFloat.ltb price 0); congruence).
  assert (qty' = qty) as ->
    by (unfold Validation.validate_quantity in Hqty;
        destruct ((qty <? 0) || _); congruence).
  assert (vat' = vat) as ->
    by (unfold Validation.validate_vat_rate in Hvat;
        destruct (PyFloat.ltb vat 0 || _); congruence).
  rewrite RepositoryFacts.update_product_eq. unfold SQL.update_products_where_sku.
  simpl Product.quantity. simpl Product.sku.
  destruct (SQL.fits_int64 qty); cbn [negb]; [|right; now eexists].
  destruct (existsb _ (products t) && _); [right; now eexists|].
  left. exists name', cat'. repeat split. simpl.
  now rewrite (map_where_sku t r (SQL.set_fields name' cat' price vat qty)).
Qed.

Lemma update_product_succeeds (name cat name' cat' : string) (price : float) (qty : Z)
    (vat : float) (t : Tables) (r : ProductRow.t) :
  schema_ok t -> stored t r ->
  Validation.validate_non_empty name "nom" = Ok name' ->
  Validation.validate_non_empty cat "categorie" = Ok cat' ->
  PrimFloat.leb 0 price = true ->
  PrimFloat.leb 0 vat = true -> PrimFloat.leb vat 1 = true ->
  0 <= qty <= SQL.INT64_MAX ->
  exists t',
    InventoryManager.update_product (ProductRow.sku r) name cat price qty vat t
    = (t', Ok tt).
Proof.
  intros Hok Hr Hname Hcat Hp Hv0 Hv1 Hq.
  unfold InventoryManager.update_product, bind, validated.
  rewrite get_product_stored by assumption. simpl. rewrite Hname, Hcat.
  unfold Validation.validate_unit_price_ht, Validation.validate_quantity,
    Validation.validate_vat_rate.
  rewrite (FloatFacts.leb_not_ltb _ _ Hp), (FloatFacts.leb_not_ltb _ _ Hv0),
    (FloatFacts.leb_not_ltb _ _ Hv1).
  assert ((qty <? 0) = false) as -> by (apply Z.ltb_ge; lia). simpl.
  rewrite RepositoryFacts.update_product_eq. unfold SQL.update_products_where_sku.
  simpl Product.quantity. simpl Product.unit_price_ht. simpl Product.vat_rate.
  assert (SQL.fits_int64 qty = true) as ->.
  { unfold SQL.fits_int64, SQL.INT64_MIN, SQL.INT64_MAX in *.
    apply andb_true_intro. split; apply Z.leb_le; lia. }
  assert (SQL.product_constraints price vat qty = true) as ->.
  { unfold SQL.product_constraints, SQL.not_null.
    rewrite (FloatFacts.nonneg_not_nan _ Hp), (FloatFacts.nonneg_not_nan _ Hv0),
      Hp, Hv0, Hv1.
    destruct Hq as [Hq _]. apply Z.leb_le in Hq. now rewrite Hq. }
  cbn [negb]. rewrite andb_false_r. now eexists.
Qed.

(** C7.  [update_product] raises NotFoundError and leaves the tables as they
    were when the sku is unknown.  For a stored sku, a call that returns has
    replaced the row of that sku by one with the validated name and category
    and the given price, VAT rate and quantity, and the same id, sku and
    created_at; every other product row and the sales are as before.  A call
    that raises leaves the tables as they were.  The call returns whenever
    name and category are not blank, the price is at least 0, the VAT rate is
    in [0, 1] and the quantity is from 0 to 2^63 - 1. *)
Theorem update_product_cases (sku name cat : string) (price : float) (qty : Z)
    (vat : float) (t : Tables) :
  schema_ok t ->
  (unknown t sku ->
   InventoryManager.update_product sku name cat price qty vat t
   = (t, Raise NotFoundError))
  /\ (forall r, stored t r -> ProductRow.sku r = sku ->
        (forall t',
            InventoryManager.update_product sku name cat price qty vat t = (t', Ok tt) ->
            exists name' cat',
              Validation.validate_non_empty name "nom" = Ok name'
              /\ Validation.validate_non_empty cat "categorie" = Ok cat'
              /\ products t'
                 = replace_row r (updated_row r name' cat' price vat qty) (products t)
              /\ (forall x, stored t x -> x <> r -> stored t' x)
              /\ sales t' = sales t)
        /\ (forall t' e,
               InventoryManager.update_product sku name cat price qty vat t
               = (t', Raise e) ->
               t' = t)
        /\ (forall name' cat',
               Validation.validate_non_empty name "nom" = Ok name' ->
               Validation.validate_non_empty cat "categorie" = Ok cat' ->
               PrimFloat.leb 0 price = true ->
               PrimFloat.leb 0 vat = true -> PrimFloat.leb vat 1 = true ->
               0 <= qty <= SQL.INT64_MAX ->
               exists t',
                 InventoryManager.update_product sku name cat price qty vat t
                 = (t', Ok tt))).
Proof.
  intros Hok. split.
  - intros Hu. unfold InventoryManager.update_product, bind.
    now rewrite get_product_unknown.
  - intros r Hr <-.
    destruct (update_product_run name cat price qty vat t r Hok Hr)
      as [(name' & cat' & Hn & Hc & Hrun)|(e & Hrun)]; rewrite Hrun.
    + split; [|split].
      * intros t' H. inversion H; subst; clear H. exists name', cat'.
        repeat split; try assumption. simpl. intros x Hx Hne.
        now apply replace_row_frame.
      * intros t' e H. discriminate.
      * intros. now eexists.
    + split; [|split].
      * intros t' H. discriminate.
      * intros t' e' H. now inversion H.
      * intros name' cat' Hn Hc Hp Hv0 Hv1 Hq.
        destruct (update_product_succeeds name cat name' cat' price qty vat t r)
          as (t' & Ht'); try assumption.
        rewrite Hrun in Ht'. discriminate.
Qed.

(** An unknown sku, and SKU1 renamed, repriced and restocked. *)
Lemma update_product_cases_witness :
  InventoryManager.update_product "SKU9" "Gadget" "Toys" 12 7 vat_20 shop
  = (shop, Raise NotFoundError)
  /\ exists t',
       InventoryManager.update_product "SKU1" " Gadget " "Toys" 12 7 vat_20 shop
       = (t', Ok tt)
       /\ products t' = [ProductRow.make 1 "SKU1" "Gadget" "Toys" 12 vat_20 7
                           "2024-01-01T09:00:00"]
       /\ sales t' = sales shop.
Proof.
  split.
  - apply (update_product_cases "SKU9" "Gadget" "Toys" 12 7 vat_20 shop shop_ok).
    intros r [<-|[]]. discriminate.
  - destruct (proj2 (update_product_cases "SKU1" " Gadget " "Toys" 12 7 vat_20 shop shop_ok)
                widget (or_introl eq_refl) eq_refl) as (Hok & _ & Hrun).
    assert (0 <= 7 <= SQL.INT64_MAX) as Hq by (unfold SQL.INT64_MAX; lia).
    destruct (Hrun "Gadget" "Toys" eq_refl eq_refl eq_refl eq_refl eq_refl Hq)
      as (t' & Ht').
    exists t'. split; [exact Ht'|].
    destruct (Hok t' Ht') as (name' & cat' & Hn & Hc & Hp & _ & Hs).
    split; [|exact Hs]. rewrite Hp.
    inversion Hn; subst. inversion Hc; subst. reflexivity.
Defined.

(** ** Deleting *)

Lemma referenced_spec (r : ProductRow.t) (ss : list SaleRow.t) :
  SQL.referenced r ss = true
  <-> exists s, In s ss /\ SaleRow.product_id s = ProductRow.id r.
Proof.
  unfold SQL.referenced. rewrite existsb_exists.
  split; intros (s & Hs & Hp); exists s; split; try assumption; now apply Z.eqb_eq.
Qed.

Lemma delete_restricted (t : Tables) (r : ProductRow.t) :
  schema_ok t -> stored t r ->
  existsb (fun x => SQL.has_sku (ProductRow.sku r) x && SQL.referenced x (sales t))
    (products t)
  = SQL.referenced r (sales t).
Proof.
  intros [_ _ Hsku _ _ _] Hr.
  destruct (SQL.referenced r (sales t)) eqn:Href.
  - apply existsb_exists. exists r. split; [exact Hr|]. rewrite Href.
    now rewrite (proj2 (has_sku_true _ r)).
  - destruct (existsb _ (products t)) eqn:He; [|reflexivity].
    apply existsb_exists in He as (x & Hx & Hc). apply andb_prop in Hc as [Hs Hc].
    apply has_sku_true in Hs.
    assert (x = r) as ->
      by (apply (NoDup_map_injective ProductRow.sku (products t)); assumption).
    congruence.
Qed.

(** C8.  [delete_product] raises NotFoundError for an unknown sku.  For a
    stored product that a sale references it raises DatabaseError with the
    message "Impossible de supprimer : ce produit est lie a des ventes." and
    leaves products and sales as they were; for a stored product without
    sales it removes exactly that row and keeps the sales. *)
Theorem delete_product_cases (sku : string) (t : Tables) :
  schema_ok t ->
  (unknown t sku -> delete_product sku t = (t, Raise NotFoundError))
  /\ (forall r, stored t r -> ProductRow.sku r = sku ->
        ((exists s, In s (sales t) /\ SaleRow.product_id s = ProductRow.id r) ->
         delete_product sku t = (t, Raise (DatabaseError Impossible_de_supprimer)))
        /\ ((forall s, In s (sales t) -> SaleRow.product_id s <> ProductRow.id r) ->
            exists t',
              delete_product sku t = (t', Ok tt)
              /\ ~ stored t' r
              /\ (forall x, stored t' x <-> stored t x /\ x <> r)
              /\ sales t' = sales t)).
Proof.
  intros Hok. split.
  - intros Hu. unfold delete_product, bind. now rewrite get_product_unknown.
  - intros r Hr <-. unfold delete_product, bind.
    rewrite get_product_stored by assumption. simpl.
    rewrite RepositoryFacts.delete_product_eq. unfold SQL.delete_from_products_where_sku.
    rewrite delete_restricted by assumption. split.
    + intros Href. apply referenced_spec in Href. now rewrite Href.
    + intros Hfree.
      assert (SQL.referenced r (sales t) = false) as ->.
      { destruct (SQL.referenced r (sales t)) eqn:E; [|reflexivity].
        apply referenced_spec in E as (s & Hs & Hp). now apply Hfree in Hs. }
      eexists. split; [reflexivity|]. simpl. unfold stored. simpl.
      assert (forall x, In x (products t) ->
                (negb (SQL.has_sku (ProductRow.sku r) x) = true <-> x <> r)) as Hkey.
      { intros x Hx. rewrite negb_true_iff, has_sku_false. split.
        - intros Hne ->. now apply Hne.
        - intros Hne Hs. apply Hne. destruct Hok as [_ _ Hsku _ _ _].
          apply (NoDup_map_injective ProductRow.sku (products t)); assumption. }
      split; [|split; [|reflexivity]].
      * intros Hin. apply filter_In in Hin as [Hin Hk]. now apply (Hkey r Hin) in Hk.
      * intros x. rewrite filter_In. split; intros [Hx Hk]; split; try assumption;
          now apply (Hkey x Hx).
Qed.

(** An unknown sku, SKU1 once it has a sale, and SKU1 without sales. *)
Lemma delete_product_cases_witness :
  delete_product "SKU9" shop = (shop, Raise NotFoundError)
  /\ delete_product "SKU1" shop_after_sale
     = (shop_after_sale, Raise (DatabaseError Impossible_de_supprimer))
  /\ exists t',
       delete_product "SKU1" shop = (t', Ok tt)
       /\ ~ stored t' widget
       /\ (forall x, stored t' x <-> stored shop x /\ x <> widget)
       /\ sales t' = sales shop.
Proof.
  split; [|split].
  - apply (delete_product_cases "SKU9" shop shop_ok).
    intros r [<-|[]]. discriminate.
  - apply (proj2 (delete_product_cases "SKU1" shop_after_sale shop_after_sale_ok)
             (ProductRow.make 1 "SKU1" "Widget" "Tools" 10 vat_20 2 "2024-01-01T09:00:00")
             (or_introl eq_refl) eq_refl).
    eexists. split; [left; reflexivity | reflexivity].
  - apply (proj2 (delete_product_cases "SKU1" shop shop_ok) widget
             (or_introl eq_refl) eq_refl).
    intros s [].
Defined.

(** ** The dashboard *)

Lemma run_all_ok (ops : list operation) (t : Tables) :
  schema_ok t -> schema_ok (run_all ops t).
Proof.
  revert t. induction ops as [|op ops IH]; intros t Ht; simpl; [exact Ht|].
  apply IH. now apply Invariant.run_ok.
Qed.

Lemma depot_reached : run_all depot_history empty_tables = depot.
Proof. vm_compute. reflexivity. Qed.

Lemma depot_ok : schema_ok depot.
Proof. rewrite <- depot_reached. apply run_all_ok, empty_tables_ok. Qed.

Lemma sum_step_overflown (vs : list Z) : fold_left SQL.sum_step vs None = None.
Proof. induction vs as [|v vs IH]; simpl; [reflexivity | exact IH]. Qed.

Lemma int_sum_nonneg (vs : list Z) : Forall (fun v => 0 <= v) vs -> 0 <= int_sum vs.
Proof. induction 1; simpl; lia. Qed.

(** SUM over non-negative integers: the exact sum while it fits 64 bits, an
    error as soon as it does not. *)
Lemma sum_step_exact (vs : list Z) (acc : Z) :
  Forall (fun v => 0 <= v) vs -> 0 <= acc <= SQL.INT64_MAX ->
  fold_left SQL.sum_step vs (Some acc)
  = if acc + int_sum vs <=? SQL.INT64_MAX then Some (acc + int_sum vs) else None.
Proof.
  intros Hvs. revert acc. induction Hvs as [|v vs Hv Hvs IH]; intros acc Hacc; simpl.
  - rewrite Z.add_0_r. now rewrite (proj2 (Z.leb_le acc SQL.INT64_MAX)) by lia.
  - pose proof (int_sum_nonneg vs Hvs) as Hs.
    unfold SQL.fits_int64, SQL.INT64_MIN in *.
    rewrite (proj2 (Z.leb_le (-9223372036854775808) (acc + v))) by lia. simpl.
    destruct (acc + v <=? SQL.INT64_MAX) eqn:E.
    + apply Z.leb_le in E. rewrite IH by lia. now rewrite Z.add_assoc.
    + apply Z.leb_gt in E. rewrite sum_step_overflown.
      now rewrite (proj2 (Z.leb_gt (acc + (v + int_sum vs)) SQL.INT64_MAX)) by lia.
Qed.

Lemma sum_integer_exact (vs : list Z) :
  Forall (fun v => 0 <= v) vs -> vs <> [] ->
  SQL.sum_integer vs
  = if int_sum vs <=? SQL.INT64_MAX then Ok (SQL.Integer (int_sum vs))
    else Raise (sqlite3_error OperationalError).
Proof.
  intros Hvs Hne. unfold SQL.sum_integer. destruct vs as [|v vs]; [contradiction|].
  rewrite sum_step_exact by (try assumption; unfold SQL.INT64_MAX; lia).
  rewrite Z.add_0_l. now destruct (int_sum (v :: vs) <=? SQL.INT64_MAX).
Qed.

(** SUM over non-negative floats is never NaN. *)
Lemma float_sum_nonneg (xs : list float) (acc : float) :
  Forall (fun x => PrimFloat.leb 0 x = true) xs -> PrimFloat.leb 0 acc = true ->
  PrimFloat.leb 0 (fold_left PrimFloat.add xs acc) = true.
Proof.
  intros Hxs. revert acc. induction Hxs as [|x xs Hx Hxs IH]; intros acc Hacc; simpl;
    [exact Hacc|].
  apply IH. now apply FloatFacts.add_nonneg.
Qed.

Lemma sum_real_exact (xs : list float) :
  Forall (fun x => PrimFloat.leb 0 x = true) xs -> xs <> [] ->
  SQL.sum_real xs = SQL.Real (float_sum xs).
Proof.
  intros Hxs Hne. unfold SQL.sum_real, float_sum. destruct xs as [|x xs]; [contradiction|].
  now rewrite (FloatFacts.nonneg_not_nan _ (float_sum_nonneg (x :: xs) zero Hxs eq_refl)).
Qed.

Lemma sale_row_ok_fields (s : SaleRow.t) :
  sale_row_ok s ->
  0 <= SaleRow.quantity s
  /\ PrimFloat.leb 0 (SaleRow.total_ht s) = true
  /\ PrimFloat.leb 0 (SaleRow.total_vat s) = true
  /\ PrimFloat.leb 0 (SaleRow.total_ttc s) = true.
Proof.
  intros (Hc & _). unfold SQL.sale_constraints in Hc. split_andb.
  repeat split; try assumption. lia.
Qed.




(** ** Stock never goes negative *)

(** C10, as stated, fails: [record_sale] called directly with 2^63 units,
    more than the stock, raises OverflowError, not DatabaseError: the sqlite3
    module cannot bind the quantity and no statement runs. *)
Lemma record_sale_overflow_counterexample :
  stored shop widget
  /\ ProductRow.quantity widget < 9223372036854775808
  /\ SQLiteRepository.record_sale "2024-01-02T10:00:00" (Some (ProductRow.id widget))
       "SKU1" 9223372036854775808 10 vat_20 30 6 36 shop
     = (shop, Raise OverflowError).
Proof.
  split; [now left|]. split; [simpl; lia|]. vm_compute. reflexivity.
Qed.

(** C10, amended.  Every operation of the repository and of the service
    leaves tables that satisfy the schema, so every stored product's quantity
    is at least 0 after it.  [record_sale] called directly with a quantity
    above the product's stock leaves products and sales as they were and
    raises DatabaseError when the quantity fits a signed 64-bit integer
    (CHECK(quantity >= 0) aborts the transaction), OverflowError otherwise. *)
Theorem stock_never_negative :
  (forall (op : operation) (t : Tables),
      schema_ok t ->
      schema_ok (run op t)
      /\ forall r, stored (run op t) r -> 0 <= ProductRow.quantity r)
  /\ (forall (now : string) (t : Tables) (r : ProductRow.t) (sku : string) (qty : Z)
             (price_ht vat_rate t_ht t_vat t_ttc : float),
         stored t r -> ProductRow.quantity r < qty ->
         SQLiteRepository.record_sale now (Some (ProductRow.id r)) sku qty
           price_ht vat_rate t_ht t_vat t_ttc t
         = (t, Raise (if SQL.fits_int64 qty
                      then DatabaseError Erreur_transaction_vente
                      else OverflowError))).
Proof.
  split.
  - intros op t Ht. pose proof (Invariant.run_ok op t Ht) as Hrun.
    split; [exact Hrun|]. intros r Hr. destruct Hrun as [Hp _ _ _ _ _].
    rewrite Forall_forall in Hp. now apply Hp, product_row_ok_fields in Hr.
  - intros now t r sku qty price_ht vat_rate t_ht t_vat t_ttc Hr Hq.
    rewrite RepositoryFacts.record_sale_eq, decrement_short by assumption.
    now destruct (SQL.fits_int64 qty).
Qed.

(** A sale keeps the schema; six units cannot be taken from a stock of five. *)
Lemma stock_never_negative_witness :
  (schema_ok (run (Sell_product "2024-01-02T10:00:00" "SKU1" 3) shop)
   /\ forall r, stored (run (Sell_product "2024-01-02T10:00:00" "SKU1" 3) shop) r ->
                0 <= ProductRow.quantity r)
  /\ SQLiteRepository.record_sale "2024-01-02T10:00:00" (Some 1) "SKU1" 6
       10 vat_20 60 12 72 shop
     = (shop, Raise (DatabaseError Erreur_transaction_vente)).
Proof.
  split.
  - exact (proj1 stock_never_negative (Sell_product "2024-01-02T10:00:00" "SKU1" 3)
             shop shop_ok).
  - apply (proj2 stock_never_negative "2024-01-02T10:00:00" shop widget "SKU1" 6).
    + now left.
    + simpl. lia.
Defined.

(** ** All or nothing *)

(** A repository method that raises leaves the database file as it was:
    a failed statement is backed out, the handler rolls the transaction back
    and closing the connection drops what was not committed.  For
    [record_sale] this is the atomic unit of section 4.3: the stock is never
    decremented without the sale row, nor the sale row written without the
    decrement. *)
Theorem repository_all_or_nothing (t t' : Tables) (e : exn) :
  (forall now p, SQLiteRepository.insert_product now p t = (t', Raise e) -> t' = t)
  /\ (forall p, SQLiteRepository.update_product p t = (t', Raise e) -> t' = t)
  /\ (forall sku, SQLiteRepository.delete_product sku t = (t', Raise e) -> t' = t)
  /\ (forall now product_id sku qty price_ht vat_rate t_ht t_vat t_ttc,
         SQLiteRepository.record_sale now product_id sku qty price_ht vat_rate
           t_ht t_vat t_ttc t = (t', Raise e) ->
         t' = t)
  /\ (forall now product_id sku qty price_ht vat_rate t_ht t_vat t_ttc,
         SQLiteRepository.record_sale now product_id sku qty price_ht vat_rate
           t_ht t_vat t_ttc t = (t', Ok tt) ->
         exists t1,
           SQL.update_products_decrement qty product_id t = Ok (t1, tt)
           /\ SQL.insert_into_sales product_id sku qty price_ht vat_rate
                t_ht t_vat t_ttc now t1 = Ok (t', tt)).
Proof.
  repeat split.
  - intros now p. rewrite RepositoryFacts.insert_product_eq.
    destruct (SQL.insert_into_products _ _ _ _ _ _ _ t) as [[t1 i]|x];
      [discriminate|].
    destruct x as [| | | | |[|]]; intros H; now inversion H.
  - intros p. rewrite RepositoryFacts.update_product_eq.
    destruct (SQL.update_products_where_sku _ _ _ _ _ _ t) as [[t1 []]|x];
      [discriminate|].
    destruct x as [| | | | |[|]]; intros H; now inversion H.
  - intros sku. rewrite RepositoryFacts.delete_product_eq.
    destruct (SQL.delete_from_products_where_sku sku t) as [[t1 []]|x];
      [discriminate|].
    destruct x as [| | | | |[|]]; intros H; now inversion H.
  - intros now product_id sku qty price_ht vat_rate t_ht t_vat t_ttc.
    rewrite RepositoryFacts.record_sale_eq.
    destruct (SQL.update_products_decrement qty product_id t) as [[t1 []]|x];
      [|intros H; now inversion H].
    destruct (SQL.insert_into_sales _ _ _ _ _ _ _ _ _ t1) as [[t2 []]|x];
      [discriminate | intros H; now inversion H].
  - intros now product_id sku qty price_ht vat_rate t_ht t_vat t_ttc.
    rewrite RepositoryFacts.record_sale_eq.
    destruct (SQL.update_products_decrement qty product_id t) as [[t1 []]|x];
      [|discriminate].
    destruct (SQL.insert_into_sales _ _ _ _ _ _ _ _ _ t1) as [[t2 []]|x] eqn:Hi;
      [|discriminate].
    intros H. inversion H; subst. now exists t1.
Qed.

(** A sale of -2 units: the UPDATE adds two units, the INSERT violates
    CHECK(quantity > 0), and the rollback takes the two units back. *)
Lemma repository_all_or_nothing_witness :
  fst (SQLiteRepository.record_sale "2024-01-02T10:00:00" (Some 1) "SKU1" (-2) 10 vat_20
         20 4 24 shop)
  = shop.
Proof.
  apply (proj1 (proj2 (proj2 (proj2
           (repository_all_or_nothing shop
              (fst (SQLiteRepository.record_sale "2024-01-02T10:00:00" (Some 1) "SKU1"
                      (-2) 10 vat_20 20 4 24 shop))
              (DatabaseError Erreur_transaction_vente)))))
           "2024-01-02T10:00:00" (Some 1) "SKU1" (-2) 10%float vat_20 20%float 4%float
           24%float).
  vm_compute. reflexivity.
Defined.

(** * Further properties of the code *)

(** ** Properties kept by every statement *)

Section Frame.

Variable P : Tables -> Prop.

Section Products.

Hypothesis Hkeep : product_statements_keep P.

Lemma insert_product_keeps now p : preserves P (SQLiteRepository.insert_product now p).
Proof.
  intros t Ht. rewrite RepositoryFacts.insert_product_eq.
  destruct (SQL.insert_into_products _ _ _ _ _ _ _ t) as [[t' i]|e] eqn:Hs.
  - simpl. eapply (keep_insert_into_products P Hkeep); eassumption.
  - destruct e as [| | | | |[|]]; exact Ht.
Qed.

Lemma update_product_keeps p : preserves P (SQLiteRepository.update_product p).
Proof.
  intros t Ht. rewrite RepositoryFacts.update_product_eq.
  destruct (SQL.update_products_where_sku _ _ _ _ _ _ t) as [[t' []]|e] eqn:Hs.
  - simpl. eapply (keep_update_products_where_sku P Hkeep); eassumption.
  - destruct e as [| | | | |[|]]; exact Ht.
Qed.

Lemma delete_product_keeps sku : preserves P (SQLiteRepository.delete_product sku).
Proof.
  intros t Ht. rewrite RepositoryFacts.delete_product_eq.
  destruct (SQL.delete_from_products_where_sku sku t) as [[t' []]|e] eqn:Hs.
  - simpl. eapply (keep_delete_from_products_where_sku P Hkeep); eassumption.
  - destruct e as [| | | | |[|]]; exact Ht.
Qed.

Lemma get_product_by_sku_keeps sku : preserves P (SQLiteRepository.get_product_by_sku sku).
Proof. intros t Ht. now rewrite RepositoryFacts.get_product_by_sku_eq. Qed.

Lemma get_sales_stats_keeps : preserves P SQLiteRepository.get_sales_stats.
Proof.
  intros t Ht. rewrite RepositoryFacts.get_sales_stats_eq.
  destruct (SQL.select_sales_stats t) as [[t' row]|e]; [exact Ht|].
  destruct e as [| | | | |[|]]; exact Ht.
Qed.

Lemma insert_all_keeps now ps count : preserves P (insert_all now ps count).
Proof.
  revert count. induction ps as [|p ps IH]; intros count; simpl.
  - apply preserves_ret.
  - apply preserves_bind; [apply insert_product_keeps | intros _; apply IH].
Qed.

Ltac kept :=
  repeat first
    [ apply preserves_ret | apply preserves_raise | apply preserves_validated
    | apply insert_product_keeps | apply get_product_by_sku_keeps
    | apply update_product_keeps | apply delete_product_keeps
    | apply preserves_bind; [|intros ?]
    | match goal with
      | |- preserves _ (match ?found with Some _ => _ | None => _ end) => destruct found
      | |- preserves _ (if ?b then _ else _) => destruct b
      end ].

Lemma add_product_keeps config now sku name cat price qty vat :
  preserves P (add_product config now sku name cat price qty vat).
Proof. unfold add_product. kept. Qed.

Lemma update_product_service_keeps sku name cat price qty vat :
  preserves P (InventoryManager.update_product sku name cat price qty vat).
Proof. unfold InventoryManager.update_product. kept. Qed.

Lemma delete_product_service_keeps sku :
  preserves P (InventoryManager.delete_product sku).
Proof. unfold InventoryManager.delete_product. kept. Qed.

Lemma import_keeps now payload : preserves P (initialize_from_json now payload false).
Proof.
  unfold initialize_from_json.
  apply preserves_bind; [intros x Hx; exact Hx | intros _; apply insert_all_keeps].
Qed.

(** Every operation that neither drops the tables nor records a sale keeps
    what the three statements on [products] keep. *)
Lemma frame_products (op : operation) (t : Tables) :
  resets op = false -> is_sale op = false -> P t -> P (run op t).
Proof.
  intros Hr Hs Ht. destruct op; try discriminate; unfold run.
  all: first
    [ exact Ht
    | now apply insert_product_keeps
    | now apply get_product_by_sku_keeps
    | now apply update_product_keeps
    | now apply delete_product_keeps
    | now apply get_sales_stats_keeps
    | now apply add_product_keeps
    | now apply update_product_service_keeps
    | now apply delete_product_service_keeps
    | simpl in Hr; subst; now apply import_keeps ].
Qed.

End Products.

Section Sales.

Hypothesis Hkeep : sale_statements_keep P.

Lemma record_sale_keeps now product_id sku qty price vat t_ht t_vat t_ttc :
  preserves P
    (SQLiteRepository.record_sale now product_id sku qty price vat t_ht t_vat t_ttc).
Proof.
  intros t Ht. rewrite RepositoryFacts.record_sale_eq.
  destruct (SQL.update_products_decrement qty product_id t) as [[t1 []]|e] eqn:Hu;
    [|exact Ht].
  destruct (SQL.insert_into_sales _ _ _ _ _ _ _ _ _ t1) as [[t2 []]|e] eqn:Hi; [|exact Ht].
  simpl. eapply (keep_insert_into_sales P Hkeep); [|exact Hi].
  eapply (keep_update_products_decrement P Hkeep); eassumption.
Qed.

Lemma sell_product_keeps now sku qty : preserves P (sell_product now sku qty).
Proof.
  unfold sell_product.
  apply preserves_bind; [intros t Ht; now rewrite RepositoryFacts.get_product_by_sku_eq|].
  intros [p|]; [|apply preserves_raise].
  destruct (qty <=? 0); [apply preserves_raise|].
  destruct (Product.quantity p <? qty); [apply preserves_raise|].
  apply preserves_bind; [apply preserves_validated | intros amount].
  apply preserves_bind; [apply record_sale_keeps | intros _; apply preserves_ret].
Qed.

(** The two operations that record a sale keep what the two statements of
    [record_sale] keep. *)
Lemma frame_sales (op : operation) (t : Tables) :
  is_sale op = true -> P t -> P (run op t).
Proof.
  intros Hs Ht. destruct op; try discriminate; unfold run.
  - now apply record_sale_keeps.
  - now apply sell_product_keeps.
Qed.

End Sales.

(** Every operation that does not drop the tables keeps what all five
    writing statements keep. *)
Lemma frame (op : operation) (t : Tables) :
  product_statements_keep P -> sale_statements_keep P ->
  resets op = false -> P t -> P (run op t).
Proof.
  intros Hp Hs Hr Ht. destruct (is_sale op) eqn:Hsale.
  - now apply frame_sales.
  - now apply frame_products.
Qed.

Lemma frame_all (ops : list operation) (t : Tables) :
  product_statements_keep P -> sale_statements_keep P ->
  Forall (fun op => resets op = false) ops -> P t -> P (run_all ops t).
Proof.
  intros Hp Hs Hops. revert t. induction Hops as [|op ops Hr Hops IH]; intros t Ht; simpl.
  - exact Ht.
  - apply IH. now apply frame.
Qed.

End Frame.

(** ** What each statement does to the sales and to the counters *)

Lemma insert_into_products_frame sku name category price vat quantity created_at t t' i :
  SQL.insert_into_products sku name category price vat quantity created_at t = Ok (t', i) ->
  sales t' = sales t /\ seq_sales t' = seq_sales t
  /\ i = SQL.next_rowid (seq_products t) (map ProductRow.id (products t))
  /\ seq_products t' = i.
Proof.
  unfold SQL.insert_into_products.
  destruct (negb (SQL.fits_int64 quantity)); [discriminate|].
  destruct (SQL.product_constraints price vat quantity && _); [|discriminate].
  intros H. inversion H; subst. now repeat split.
Qed.

Lemma update_products_where_sku_frame name category price vat quantity sku t t' :
  SQL.update_products_where_sku name category price vat quantity sku t = Ok (t', tt) ->
  sales t' = sales t /\ seq_sales t' = seq_sales t /\ seq_products t' = seq_products t.
Proof.
  unfold SQL.update_products_where_sku.
  destruct (negb (SQL.fits_int64 quantity)); [discriminate|].
  destruct (existsb _ (products t) && _); [discriminate|].
  intros H. inversion H; subst. now repeat split.
Qed.

Lemma delete_from_products_where_sku_frame sku t t' :
  SQL.delete_from_products_where_sku sku t = Ok (t', tt) ->
  sales t' = sales t /\ seq_sales t' = seq_sales t /\ seq_products t' = seq_products t.
Proof.
  unfold SQL.delete_from_products_where_sku.
  destruct (existsb _ (products t)); [discriminate|].
  intros H. inversion H; subst. now repeat split.
Qed.

Lemma update_products_decrement_frame qty id t t' :
  SQL.update_products_decrement qty id t = Ok (t', tt) ->
  sales t' = sales t /\ seq_sales t' = seq_sales t /\ seq_products t' = seq_products t.
Proof.
  unfold SQL.update_products_decrement.
  destruct (negb (SQL.fits_int64 qty)); [discriminate|].
  destruct (negb (SQL.binds_id _ (products t))); [discriminate|].
  destruct (existsb _ (products t)); [discriminate|].
  intros H. inversion H; subst. now repeat split.
Qed.

(** The UPDATE keeps every id, so an id that was bound binds again. *)
Lemma update_products_decrement_binds qty id t t' :
  SQL.update_products_decrement qty id t = Ok (t', tt) ->
  SQL.binds_id id (products t') = true.
Proof.
  unfold SQL.update_products_decrement.
  destruct (negb (SQL.fits_int64 qty)); [discriminate|].
  destruct (SQL.binds_id id (products t)) eqn:Hb; cbn [negb]; [|discriminate].
  destruct (existsb _ (products t)); [discriminate|].
  intros H. inversion H; subst; clear H. cbn [products].
  destruct id as [i|]; [|reflexivity]. unfold SQL.binds_id in *.
  destruct (SQL.fits_int64 i); [reflexivity|]. cbn [orb] in *.
  apply some_row_has_id. apply some_row_has_id in Hb.
  now rewrite map_map_if.
Qed.

Lemma insert_into_sales_frame product_id sku qty price vat ht tv ttc now t t' :
  SQL.insert_into_sales product_id sku qty price vat ht tv ttc now t = Ok (t', tt) ->
  products t' = products t /\ seq_products t' = seq_products t.
Proof.
  unfold SQL.insert_into_sales.
  destruct (negb (SQL.fits_int64 qty)); [discriminate|].
  destruct (negb (SQL.binds_id _ (products t))); [discriminate|].
  destruct product_id as [pid|]; [|discriminate].
  destruct (SQL.sale_constraints qty price vat ht tv ttc && _); [|discriminate].
  intros H. inversion H; subst. now split.
Qed.

Lemma next_rowid_above (seq : Z) (ids : list Z) :
  seq < SQL.next_rowid seq ids /\ 0 < SQL.next_rowid seq ids.
Proof.
  unfold SQL.next_rowid.
  assert (0 <= SQL.max_rowid ids) by (induction ids; simpl; lia). lia.
Qed.

(** ** AUTOINCREMENT *)

Lemma counter_kept_products (s : Z) : product_statements_keep (fun t => s <= seq_products t).
Proof.
  constructor.
  - intros sku name category price vat quantity created_at t t' i Ht H.
    apply insert_into_products_frame in H as (_ & _ & Hi & Hs).
    pose proof (next_rowid_above (seq_products t) (map ProductRow.id (products t))). lia.
  - intros name category price vat quantity sku t t' [] Ht H.
    apply update_products_where_sku_frame in H as (_ & _ & Hs). lia.
  - intros sku t t' [] Ht H.
    apply delete_from_products_where_sku_frame in H as (_ & _ & Hs). lia.
Qed.

Lemma counter_kept_sales (s : Z) : sale_statements_keep (fun t => s <= seq_products t).
Proof.
  constructor.
  - intros qty id t t' [] Ht H.
    apply update_products_decrement_frame in H as (_ & _ & Hs). lia.
  - intros product_id sku quantity price vat t_ht t_vat t_ttc sold_at t t' [] Ht H.
    apply insert_into_sales_frame in H as (_ & Hs). lia.
Qed.

Lemma insert_product_rowid (now : string) (p : Product.t) (t t' : Tables) (i : Z) :
  SQLiteRepository.insert_product now p t = (t', Ok i) ->
  i = SQL.next_rowid (seq_products t) (map ProductRow.id (products t))
  /\ seq_products t' = i.
Proof.
  rewrite RepositoryFacts.insert_product_eq.
  destruct (SQL.insert_into_products _ _ _ _ _ _ _ t) as [[t1 k]|e] eqn:Hs.
  - intros H. inversion H; subst.
    now apply insert_into_products_frame in Hs as (_ & _ & Hi & Hseq).
  - destruct e as [| | | | |[|]]; discriminate.
Qed.

(** X2.  The id [insert_product] returns is positive, greater than the id of
    every stored product, and smaller than the id any later [insert_product]
    returns, whatever was deleted in between, as long as the tables were not
    dropped: the schema's AUTOINCREMENT never gives an id a second time. *)
Theorem product_ids_never_reused (now now' : string) (p p' : Product.t)
    (ops : list operation) (t t1 t2 : Tables) (i j : Z) :
  SQLiteRepository.insert_product now p t = (t1, Ok i) ->
  Forall (fun op => resets op = false) ops ->
  SQLiteRepository.insert_product now' p' (run_all ops t1) = (t2, Ok j) ->
  0 < i /\ (forall r, stored t r -> ProductRow.id r < i) /\ i < j.
Proof.
  intros Hi Hops Hj.
  apply insert_product_rowid in Hi as (Hi & Hseq).
  apply insert_product_rowid in Hj as (Hj & _).
  pose proof (next_rowid_above (seq_products t) (map ProductRow.id (products t))) as Hpos.
  split; [lia|]. split.
  - intros r Hr. unfold stored in Hr.
    apply (in_map ProductRow.id) in Hr. apply max_rowid_bound in Hr.
    unfold SQL.next_rowid in Hi. lia.
  - assert (i <= seq_products (run_all ops t1)) as Hle.
    { apply (frame_all (fun t => i <= seq_products t));
        [apply counter_kept_products | apply counter_kept_sales | exact Hops | lia]. }
    pose proof (next_rowid_above (seq_products (run_all ops t1))
                  (map ProductRow.id (products (run_all ops t1)))). lia.
Qed.

(** A1 inserted at the shop gets id 2; deleted and inserted again, id 3. *)
Lemma product_ids_never_reused_witness :
  0 < 2 /\ (forall r, stored shop r -> ProductRow.id r < 2) /\ 2 < 3.
Proof.
  apply (product_ids_never_reused "2024-01-03T08:00:00" "2024-01-05T08:00:00" gadget gadget
           [Delete_product "A1"] shop
           (fst (SQLiteRepository.insert_product "2024-01-03T08:00:00" gadget shop))
           (fst (SQLiteRepository.insert_product "2024-01-05T08:00:00" gadget
                   (run_all [Delete_product "A1"]
                      (fst (SQLiteRepository.insert_product "2024-01-03T08:00:00" gadget
                              shop)))))).
  - vm_compute. reflexivity.
  - repeat constructor.
  - vm_compute. reflexivity.
Defined.

(** ** The sales ledger *)

Lemma ledger_kept_products (s0 : list SaleRow.t) :
  product_statements_keep (fun t => sales t = s0).
Proof.
  constructor.
  - intros sku name category price vat quantity created_at t t' i Ht H.
    apply insert_into_products_frame in H as (Hs & _). congruence.
  - intros name category price vat quantity sku t t' [] Ht H.
    apply update_products_where_sku_frame in H as (Hs & _). congruence.
  - intros sku t t' [] Ht H.
    apply delete_from_products_where_sku_frame in H as (Hs & _). congruence.
Qed.

Lemma prefix_kept_products (s0 : list SaleRow.t) :
  product_statements_keep (fun t => exists new, sales t = (s0 ++ new)%list).
Proof.
  constructor.
  - intros sku name category price vat quantity created_at t t' i Ht H.
    apply insert_into_products_frame in H as (Hs & _). now rewrite Hs.
  - intros name category price vat quantity sku t t' [] Ht H.
    apply update_products_where_sku_frame in H as (Hs & _). now rewrite Hs.
  - intros sku t t' [] Ht H.
    apply delete_from_products_where_sku_frame in H as (Hs & _). now rewrite Hs.
Qed.

Lemma prefix_kept_sales (s0 : list SaleRow.t) :
  sale_statements_keep (fun t => exists new, sales t = (s0 ++ new)%list).
Proof.
  constructor.
  - intros qty id t t' [] Ht H.
    apply update_products_decrement_frame in H as (Hs & _). now rewrite Hs.
  - intros product_id sku quantity price vat t_ht t_vat t_ttc sold_at t t' [] [new Ht] H.
    apply insert_into_sales_row in H as (_ & rowid & pid & _ & Hs).
    rewrite Hs, Ht, <- app_assoc. now eexists.
Qed.

(** X3.  A recorded sale is never changed or removed, except by dropping the
    tables: after any operations that do not drop them, the sales table is
    the table as it was followed by the new sales; an operation that is
    neither a drop nor a sale leaves it as it was; an operation that drops
    the tables ([reset_and_create_schema], [initialize_from_json] with
    reset) leaves no sale at all. *)
Theorem sales_only_appended (t : Tables) :
  (forall ops, Forall (fun op => resets op = false) ops ->
     exists new, sales (run_all ops t) = (sales t ++ new)%list)
  /\ (forall op, resets op = false -> is_sale op = false -> sales (run op t) = sales t)
  /\ (forall op, resets op = true -> sales (run op t) = []).
Proof.
  split; [|split].
  - intros ops Hops.
    apply (frame_all (fun t' => exists new, sales t' = (sales t ++ new)%list));
      [apply prefix_kept_products | apply prefix_kept_sales | exact Hops|].
    exists []. now rewrite app_nil_r.
  - intros op Hr Hs.
    now apply (frame_products (fun t' => sales t' = sales t) (ledger_kept_products _)).
  - intros op Hr. destruct op; try discriminate; [reflexivity|].
    simpl in Hr. subst reset. unfold run, initialize_from_json, bind. simpl.
    apply (insert_all_keeps (fun t' => sales t' = []) (ledger_kept_products _)).
    reflexivity.
Qed.

(** At the shop after its first sale: a product added and one more unit sold,
    an update, and an import that drops the tables. *)
Lemma sales_only_appended_witness :
  (exists new,
      sales (run_all [Add_product config_20 "2024-01-03T08:00:00" "A1" "Gadget" "Toys"
                        price_9_99 10 None;
                      Sell_product "2024-01-05T10:00:00" "SKU1" 1] shop_after_sale)
      = (sales shop_after_sale ++ new)%list)
  /\ sales (run (Update_product "SKU1" "Widget" "Tools" 12 7 vat_20) shop_after_sale)
     = sales shop_after_sale
  /\ sales (run (Initialize_from_json "2024-01-06T08:00:00" [gadget] true) shop_after_sale)
     = [].
Proof.
  destruct (sales_only_appended shop_after_sale) as (Happ & Hsame & Hdrop).
  split; [|split].
  - apply Happ. repeat constructor.
  - apply Hsame; reflexivity.
  - apply Hdrop; reflexivity.
Defined.

(** ** Consistency of every reachable database *)

(** X4.  Whatever operations are run on an empty database, the tables they
    leave are consistent: no two products share a sku or an id, no two sales
    share an id, every sale refers to a stored product, has a positive
    quantity and totals from zero up, and every product has a price from zero
    up, a VAT rate between 0 and 1 and a stock from 0 to 2^63 - 1. *)
Theorem reachable_tables_consistent (ops : list operation) :
  let t := run_all ops empty_tables in
  NoDup (map ProductRow.sku (products t))
  /\ NoDup (map ProductRow.id (products t))
  /\ NoDup (map SaleRow.id (sales t))
  /\ (forall s, In s (sales t) ->
        (exists r, stored t r /\ ProductRow.id r = SaleRow.product_id s)
        /\ 0 < SaleRow.quantity s
        /\ PrimFloat.leb 0 (SaleRow.total_ht s) = true
        /\ PrimFloat.leb 0 (SaleRow.total_vat s) = true
        /\ PrimFloat.leb 0 (SaleRow.total_ttc s) = true)
  /\ (forall r, stored t r ->
        PrimFloat.leb 0 (ProductRow.unit_price_ht r) = true
        /\ PrimFloat.leb 0 (ProductRow.vat_rate r) = true
        /\ PrimFloat.leb (ProductRow.vat_rate r) 1 = true
        /\ 0 <= ProductRow.quantity r <= SQL.INT64_MAX).
Proof.
  intros t. destruct (run_all_ok ops empty_tables empty_tables_ok) as [Hp Hid Hsku Hs Hsid Hfk].
  fold t in Hp, Hid, Hsku, Hs, Hsid, Hfk. rewrite Forall_forall in Hp, Hs, Hfk.
  repeat split; try assumption.
  - specialize (Hfk s H). apply in_map_iff in Hfk as (r & Hr & Hin). now exists r.
  - destruct (Hs s H) as (Hc & _). unfold SQL.sale_constraints in Hc. split_andb. lia.
  - now apply Hs, sale_row_ok_fields in H.
  - now apply Hs, sale_row_ok_fields in H.
  - now apply Hs, sale_row_ok_fields in H.
  - now apply Hp, product_row_ok_fields in H.
  - now apply Hp, product_row_ok_fields in H.
  - now apply Hp, product_row_ok_fields in H.
  - now apply Hp, product_row_ok_fields in H.
  - now apply Hp, product_row_ok_fields in H.
Qed.

(** ** Keys that are not stored *)

Lemma tables_eta (t : Tables) :
  {| products := products t; sales := sales t;
     seq_products := seq_products t; seq_sales := seq_sales t |} = t.
Proof. now destruct t. Qed.

Lemma unknown_has_sku (t : Tables) (sku : string) :
  unknown t sku -> forall r, In r (products t) -> SQL.has_sku sku r = false.
Proof. intros Hu r Hr. apply has_sku_false. now apply Hu. Qed.

Lemma unknown_existsb (t : Tables) (sku : string) (f : ProductRow.t -> bool) :
  unknown t sku -> existsb (fun r => SQL.has_sku sku r && f r) (products t) = false.
Proof.
  intros Hu. destruct (existsb _ (products t)) eqn:He; [|reflexivity].
  apply existsb_exists in He as (r & Hr & Hc). apply andb_prop in Hc as [Hs _].
  now rewrite (unknown_has_sku t sku Hu r Hr) in Hs.
Qed.

(** X5.  The repository does not report a sku that is not stored:
    [get_product_by_sku] returns None, [delete_product] returns normally, and
    [update_product] returns normally whatever the fields of the product are
    (it raises OverflowError for a quantity outside 64 bits); none of them
    changes the database. *)
Theorem repository_unknown_sku (t : Tables) (sku : string) :
  unknown t sku ->
  SQLiteRepository.get_product_by_sku sku t = (t, Ok None)
  /\ SQLiteRepository.delete_product sku t = (t, Ok tt)
  /\ (forall p, Product.sku p = sku ->
        SQLiteRepository.update_product p t
        = (t, if SQL.fits_int64 (Product.quantity p) then Ok tt else Raise OverflowError)).
Proof.
  intros Hu. split; [now apply get_product_unknown|]. split.
  - rewrite RepositoryFacts.delete_product_eq. unfold SQL.delete_from_products_where_sku.
    rewrite unknown_existsb by exact Hu.
    assert (filter (fun r => negb (SQL.has_sku sku r)) (products t) = products t) as ->.
    { apply forallb_filter_id. apply forallb_forall. intros r Hr.
      now rewrite (unknown_has_sku t sku Hu r Hr). }
    now rewrite tables_eta.
  - intros p <-. rewrite RepositoryFacts.update_product_eq.
    unfold SQL.update_products_where_sku.
    destruct (SQL.fits_int64 (Product.quantity p)); cbn [negb]; [|reflexivity].
    assert (existsb (SQL.has_sku (Product.sku p)) (products t) = false) as ->.
    { apply no_row_has_sku. intros Hin. apply in_map_iff in Hin as (r & Hs & Hr).
      now apply (Hu r). }
    cbn [andb].
    assert (map (fun r => if SQL.has_sku (Product.sku p) r
                          then SQL.set_fields (Product.name p) (Product.category p)
                                 (Product.unit_price_ht p) (Product.vat_rate p)
                                 (Product.quantity p) r
                          else r) (products t) = products t) as ->.
    { rewrite <- (map_id (products t)) at 2. apply map_ext_in. intros r Hr.
      now rewrite (unknown_has_sku t _ Hu r Hr). }
    now rewrite tables_eta.
Qed.

(** SKU9 is not stored at the shop: the update is accepted even with a
    negative price and a VAT rate of 5. *)
Lemma repository_unknown_sku_witness :
  SQLiteRepository.get_product_by_sku "SKU9" shop = (shop, Ok None)
  /\ SQLiteRepository.delete_product "SKU9" shop = (shop, Ok tt)
  /\ SQLiteRepository.update_product
       (Product.make None "SKU9" "Gadget" "Toys" (-1) 7 5 "") shop
     = (shop, Ok tt).
Proof.
  destruct (repository_unknown_sku shop "SKU9") as (Hget & Hdel & Hupd).
  - intros r [<-|[]]. discriminate.
  - split; [exact Hget|]. split; [exact Hdel|].
    exact (Hupd (Product.make None "SKU9" "Gadget" "Toys" (-1)%float 7 5%float "") eq_refl).
Defined.

Lemma unknown_id_existsb (id : option Z) (rows : list ProductRow.t) :
  (forall r, In r rows -> SQL.has_id id r = false) -> existsb (SQL.has_id id) rows = false.
Proof.
  intros Hid. destruct (existsb (SQL.has_id id) rows) eqn:He; [|reflexivity].
  apply existsb_exists in He as (r & Hr & Hc). now rewrite (Hid r Hr) in Hc.
Qed.

(** X6.  [record_sale] for a product id that no stored product has, or for no
    id at all, records nothing and leaves the database as it was.  It raises
    OverflowError when the quantity or the id is outside 64 bits, and
    DatabaseError otherwise: the UPDATE matches no row and the INSERT
    violates the foreign key, or NOT NULL when there is no id. *)
Theorem record_sale_unknown_product (now : string) (product_id : option Z) (sku : string)
    (qty : Z) (price_ht vat_rate t_ht t_vat t_ttc : float) (t : Tables) :
  (forall r, stored t r -> product_id <> Some (ProductRow.id r)) ->
  SQLiteRepository.record_sale now product_id sku qty price_ht vat_rate t_ht t_vat t_ttc t
  = (t, Raise (if SQL.fits_int64 qty && id_fits product_id
               then DatabaseError Erreur_transaction_vente
               else OverflowError)).
Proof.
  intros Hu. rewrite RepositoryFacts.record_sale_eq.
  unfold SQL.update_products_decrement.
  destruct (SQL.fits_int64 qty) eqn:Hfit; cbn [negb andb]; [|reflexivity].
  assert (forall r, In r (products t) -> SQL.has_id product_id r = false) as Hid.
  { intros r Hr. destruct product_id as [pid|]; [|reflexivity].
    unfold SQL.has_id. apply Z.eqb_neq. intros Heq. apply (Hu r Hr). now rewrite Heq. }
  assert (SQL.binds_id product_id (products t) = id_fits product_id) as ->.
  { destruct product_id as [pid|]; [|reflexivity]. unfold SQL.binds_id, id_fits.
    assert (existsb (SQL.has_id (Some pid)) (products t) = false) as ->
      by (apply unknown_id_existsb; exact Hid).
    apply orb_false_r. }
  destruct (id_fits product_id) eqn:Hf; cbn [negb]; [|reflexivity].
  assert (existsb (fun r => SQL.has_id product_id r
                            && negb (0 <=? ProductRow.quantity r - qty)) (products t)
          = false) as ->.
  { destruct (existsb _ (products t)) eqn:He; [|reflexivity].
    apply existsb_exists in He as (r & Hr & Hc). now rewrite (Hid r Hr) in Hc. }
  unfold SQL.insert_into_sales. rewrite Hfit. cbn [negb].
  destruct product_id as [pid|]; [|reflexivity]. cbn [products].
  unfold SQL.binds_id. unfold id_fits in Hf. rewrite Hf. cbn [orb negb].
  assert (existsb (SQL.has_id (Some pid))
            (map (fun r => if SQL.has_id (Some pid) r
                           then SQL.set_quantity (ProductRow.quantity r - qty) r
                           else r) (products t)) = false) as ->.
  { apply unknown_id_existsb. intros x Hx. apply in_map_iff in Hx as (r & <- & Hr).
    rewrite (Hid r Hr). exact (Hid r Hr). }
  now rewrite andb_false_r.
Qed.

(** No product of the shop has id 7, nor id 2^63, which cannot be bound. *)
Lemma record_sale_unknown_product_witness :
  SQLiteRepository.record_sale "2024-01-02T10:00:00" (Some 7) "SKU1" 1 10 vat_20 10 2 12 shop
  = (shop, Raise (DatabaseError Erreur_transaction_vente))
  /\ SQLiteRepository.record_sale "2024-01-02T10:00:00" (Some 9223372036854775808) "SKU1" 1
       10 vat_20 10 2 12 shop
     = (shop, Raise OverflowError).
Proof.
  split.
  - apply (record_sale_unknown_product "2024-01-02T10:00:00" (Some 7) "SKU1" 1 10%float vat_20
             10%float 2%float 12%float shop).
    intros r [<-|[]]. discriminate.
  - apply (record_sale_unknown_product "2024-01-02T10:00:00" (Some 9223372036854775808)
             "SKU1" 1 10%float vat_20 10%float 2%float 12%float shop).
    intros r [<-|[]]. discriminate.
Defined.

(** ** What is raised, and what a raise leaves *)

Lemma raises_only_bind {A B : Type} (allowed : exn -> Prop) (m : Call A) (k : A -> Call B) :
  raises_only allowed m -> (forall a, raises_only allowed (k a)) ->
  raises_only allowed (bind m k).
Proof.
  intros Hm Hk t e. unfold bind. specialize (Hm t).
  destruct (m t) as [t' [a|e']]; simpl in *.
  - apply Hk.
  - intros H. apply Hm. inversion H. reflexivity.
Qed.

Lemma raises_only_ret {A : Type} (allowed : exn -> Prop) (a : A) :
  raises_only allowed (ret a : Call A).
Proof. intros t e H. discriminate. Qed.

Lemma raises_only_weaken {A : Type} (P Q : exn -> Prop) (m : Call A) :
  (forall e, P e -> Q e) -> raises_only P m -> raises_only Q m.
Proof. intros HPQ Hm t e H. apply HPQ. now apply (Hm t). Qed.

Lemma storage_error_wrapped (e : exn) : storage_error e -> wrapped e.
Proof. now destruct e. Qed.

Module Raises.
Import SQLiteRepository RepositoryFacts.

Lemma reset_and_create_schema_raises : raises_only storage_error reset_and_create_schema.
Proof. intros t e H. discriminate. Qed.

Lemma create_schema_if_needed_raises : raises_only storage_error create_schema_if_needed.
Proof. intros t e H. discriminate. Qed.

Lemma insert_into_products_raises sku name category price vat quantity created_at t e :
  SQL.insert_into_products sku name category price vat quantity created_at t = Raise e ->
  e = OverflowError \/ e = sqlite3_error IntegrityError.
Proof.
  unfold SQL.insert_into_products.
  destruct (negb (SQL.fits_int64 quantity)); [intros H; inversion H; now left|].
  destruct (SQL.product_constraints price vat quantity && _); [discriminate|].
  intros H; inversion H; now right.
Qed.

Lemma insert_product_raises now p : raises_only storage_error (insert_product now p).
Proof.
  intros t e. rewrite insert_product_eq.
  destruct (SQL.insert_into_products _ _ _ _ _ _ _ t) as [[t' i]|x] eqn:Hs; [discriminate|].
  apply insert_into_products_raises in Hs as [->| ->]; simpl; intros H; now inversion H.
Qed.

Lemma get_product_by_sku_raises sku : raises_only storage_error (get_product_by_sku sku).
Proof. intros t e. rewrite get_product_by_sku_eq. discriminate. Qed.

Lemma update_product_raises p : raises_only storage_error (update_product p).
Proof.
  intros t e. rewrite update_product_eq. unfold SQL.update_products_where_sku.
  destruct (negb (SQL.fits_int64 _)); [intros H; now inversion H|].
  destruct (existsb _ (products t) && _); [intros H; now inversion H | discriminate].
Qed.

Lemma delete_product_raises sku : raises_only storage_error (delete_product sku).
Proof.
  intros t e. rewrite delete_product_eq. unfold SQL.delete_from_products_where_sku.
  destruct (existsb _ (products t)); [intros H; now inversion H | discriminate].
Qed.

Lemma list_products_raises : raises_only storage_error list_products.
Proof. intros t e H. discriminate. Qed.

Lemma update_products_decrement_raises qty id t e :
  SQL.update_products_decrement qty id t = Raise e ->
  e = if SQL.fits_int64 qty && SQL.binds_id id (products t)
      then sqlite3_error IntegrityError else OverflowError.
Proof.
  unfold SQL.update_products_decrement.
  destruct (SQL.fits_int64 qty); cbn [negb andb]; [|intros H; now inversion H].
  destruct (SQL.binds_id id (products t)); cbn [negb]; [|intros H; now inversion H].
  destruct (existsb _ (products t)); [|discriminate].
  intros H; now inversion H.
Qed.

Lemma insert_into_sales_raises product_id sku qty price vat ht tv ttc now t e :
  SQL.insert_into_sales product_id sku qty price vat ht tv ttc now t = Raise e ->
  e = if SQL.fits_int64 qty && SQL.binds_id product_id (products t)
      then sqlite3_error IntegrityError else OverflowError.
Proof.
  unfold SQL.insert_into_sales.
  destruct (SQL.fits_int64 qty); cbn [negb andb]; [|intros H; now inversion H].
  destruct (SQL.binds_id product_id (products t)); cbn [negb];
    [|intros H; now inversion H].
  destruct product_id as [pid|]; [|intros H; now inversion H].
  destruct (SQL.sale_constraints qty price vat ht tv ttc && _); [discriminate|].
  intros H; now inversion H.
Qed.

Lemma sale_failure_storage (bound : bool) (e : exn) :
  e = (if bound then sqlite3_error IntegrityError else OverflowError) ->
  storage_error (sale_failure e).
Proof. intros ->. now destruct bound. Qed.

Lemma record_sale_raises now product_id sku qty price vat t_ht t_vat t_ttc :
  raises_only storage_error
    (record_sale now product_id sku qty price vat t_ht t_vat t_ttc).
Proof.
  intros t e. rewrite record_sale_eq.
  destruct (SQL.update_products_decrement qty product_id t) as [[t1 []]|x] eqn:Hu.
  - destruct (SQL.insert_into_sales _ _ _ _ _ _ _ _ _ t1) as [[t2 []]|x] eqn:Hi;
      [discriminate|].
    simpl. intros H. inversion H. eapply sale_failure_storage.
    eapply insert_into_sales_raises. exact Hi.
  - simpl. intros H. inversion H. eapply sale_failure_storage.
    eapply update_products_decrement_raises. exact Hu.
Qed.

Lemma get_sales_stats_raises : raises_only storage_error get_sales_stats.
Proof.
  intros t e. rewrite get_sales_stats_eq. unfold SQL.select_sales_stats.
  destruct (SQL.sum_integer _) as [v|x] eqn:Hs; [discriminate|].
  unfold SQL.sum_integer in Hs. destruct (map _ (sales t)); [discriminate|].
  destruct (fold_left _ _ _); [discriminate|]. inversion Hs. simpl.
  intros H. now inversion H.
Qed.

End Raises.

Module ServiceRaises.
Import InventoryManager Raises.

Lemma validated_raises {A : Type} (r : result A) :
  (forall e, r = Raise e -> wrapped e) -> raises_only wrapped (validated r).
Proof. intros Hr t e H. now apply Hr. Qed.

Lemma repository_wrapped {A : Type} (m : Call A) :
  raises_only storage_error m -> raises_only wrapped m.
Proof. apply raises_only_weaken, storage_error_wrapped. Qed.

Lemma raise_wrapped {A : Type} (e : exn) : wrapped e -> raises_only wrapped (raise e : Call A).
Proof. intros He t e' H. inversion H. now subst. Qed.

Lemma validate_non_empty_raises s field e :
  Validation.validate_non_empty s field = Raise e -> wrapped e.
Proof.
  unfold Validation.validate_non_empty. destruct (Validation.strip s); intros H; now inversion H.
Qed.

Lemma validate_unit_price_ht_raises x e :
  Validation.validate_unit_price_ht x = Raise e -> wrapped e.
Proof.
  unfold Validation.validate_unit_price_ht. destruct (PyFloat.ltb x 0); intros H; now inversion H.
Qed.

Lemma validate_quantity_raises n b e :
  Validation.validate_quantity n b = Raise e -> wrapped e.
Proof.
  unfold Validation.validate_quantity. destruct ((n <? 0) || _); intros H; now inversion H.
Qed.

Lemma validate_vat_rate_raises x e :
  Validation.validate_vat_rate x = Raise e -> wrapped e.
Proof.
  unfold Validation.validate_vat_rate. destruct (PyFloat.ltb x 0 || _); intros H; now inversion H.
Qed.

Lemma float_times_int_raises x n e : float_times_int x n = Raise e -> wrapped e.
Proof. unfold float_times_int. destruct (PyFloat.of_int n); intros H; now inversion H. Qed.

Ltac wrapped_call :=
  repeat first
    [ apply raises_only_ret
    | apply raise_wrapped; exact I
    | apply validated_raises;
      first [ apply validate_non_empty_raises | apply validate_unit_price_ht_raises
            | apply validate_quantity_raises | apply validate_vat_rate_raises
            | apply float_times_int_raises ]
    | apply repository_wrapped;
      first [ apply insert_product_raises | apply get_product_by_sku_raises
            | apply update_product_raises | apply delete_product_raises
            | apply record_sale_raises | apply list_products_raises
            | apply get_sales_stats_raises | apply create_schema_if_needed_raises
            | apply reset_and_create_schema_raises ]
    | apply raises_only_bind; [|intros ?]
    | match goal with
      | |- raises_only _ (match ?found with Some _ => _ | None => _ end) => destruct found
      | |- raises_only _ (if ?b then _ else _) => destruct b
      end ].

Lemma insert_all_raises now ps count : raises_only wrapped (insert_all now ps count).
Proof.
  revert count. induction ps as [|p ps IH]; intros count; simpl.
  - apply raises_only_ret.
  - apply raises_only_bind; [apply repository_wrapped, insert_product_raises|].
    intros _. apply IH.
Qed.

Lemma initialize_from_json_raises now payload reset :
  raises_only wrapped (initialize_from_json now payload reset).
Proof.
  unfold initialize_from_json. apply raises_only_bind.
  - destruct reset; wrapped_call.
  - intros _. apply insert_all_raises.
Qed.

Lemma list_inventory_raises : raises_only wrapped list_inventory.
Proof. unfold list_inventory. wrapped_call. Qed.

Lemma add_product_raises config now sku name cat price qty vat :
  raises_only wrapped (add_product config now sku name cat price qty vat).
Proof.
  unfold add_product. apply raises_only_bind.
  - apply validated_raises. apply validate_non_empty_raises.
  - intros s. wrapped_call.
Qed.

Lemma update_product_service_raises sku name cat price qty vat :
  raises_only wrapped (InventoryManager.update_product sku name cat price qty vat).
Proof. unfold InventoryManager.update_product. wrapped_call. Qed.

Lemma delete_product_service_raises sku : raises_only wrapped (InventoryManager.delete_product sku).
Proof. unfold InventoryManager.delete_product. wrapped_call. Qed.

Lemma sell_product_raises now sku qty : raises_only wrapped (sell_product now sku qty).
Proof. unfold sell_product. wrapped_call. Qed.

End ServiceRaises.

Lemma exception_of_raise {A : Type} (r : result A) (e : exn) :
  exception_of r = Some e -> r = Raise e.
Proof. destruct r; simpl; congruence. Qed.

(** X7.  No operation lets a raw [sqlite3.Error] out, and what a method of the
    repository raises is DatabaseError, or the OverflowError of the sqlite3
    module for an int outside 64 bits: ValidationError, NotFoundError and
    StockError come from the service alone. *)
Theorem errors_are_wrapped (op : operation) (t : Tables) (e : exn) :
  raised op t = Some e ->
  wrapped e /\ (repository_level op = true -> storage_error e).
Proof.
  intros H. destruct op; unfold raised in H; apply exception_of_raise in H;
    cbn [repository_level].
  all: first
    [ assert (storage_error e) as He;
      [ revert H;
        first [ apply Raises.reset_and_create_schema_raises
              | apply Raises.create_schema_if_needed_raises
              | apply Raises.insert_product_raises
              | apply Raises.get_product_by_sku_raises
              | apply Raises.update_product_raises
              | apply Raises.delete_product_raises
              | apply Raises.list_products_raises
              | apply Raises.record_sale_raises
              | apply Raises.get_sales_stats_raises ]
      | split; [now apply storage_error_wrapped | intros _; exact He] ]
    | split; [|discriminate]; revert H;
      first [ apply ServiceRaises.initialize_from_json_raises
            | apply ServiceRaises.list_inventory_raises
            | apply ServiceRaises.add_product_raises
            | apply ServiceRaises.update_product_service_raises
            | apply ServiceRaises.delete_product_service_raises
            | apply ServiceRaises.sell_product_raises ] ].
Qed.

(** A second SKU1 at the shop: the IntegrityError leaves [insert_product] as
    DatabaseError. *)
Lemma errors_are_wrapped_witness :
  wrapped (DatabaseError Contrainte_violee) /\ storage_error (DatabaseError Contrainte_violee).
Proof.
  destruct (errors_are_wrapped
              (Insert_product "2024-01-03T08:00:00"
                 (Product.make None "SKU1" "Gadget" "Toys" 1 1 0 ""))
              shop (DatabaseError Contrainte_violee) eq_refl) as [Hw Hs].
  split; [exact Hw | exact (Hs eq_refl)].
Defined.

(** ** A use case that raises *)

Lemma atomic_raise {A : Type} (e : exn) : atomic (raise e : Call A).
Proof. intros t t' e' H. now inversion H. Qed.

Lemma atomic_ret {A : Type} (a : A) : atomic (ret a : Call A).
Proof. intros t t' e' H. discriminate. Qed.

Lemma read_only_atomic {A : Type} (m : Call A) : read_only m -> atomic m.
Proof. intros Hm t t' e H. specialize (Hm t). rewrite H in Hm. exact Hm. Qed.

Lemma atomic_bind_read {A B : Type} (m : Call A) (k : A -> Call B) :
  read_only m -> (forall a, atomic (k a)) -> atomic (bind m k).
Proof.
  intros Hm Hk t t' e. unfold bind. specialize (Hm t).
  destruct (m t) as [t1 [a|e']]; simpl in Hm; subst t1.
  - apply Hk.
  - intros H. now inversion H.
Qed.

Lemma atomic_bind_last {A B : Type} (m : Call A) (b : A -> B) :
  atomic m -> atomic (bind m (fun a => ret (b a))).
Proof.
  intros Hm t t' e. unfold bind, ret. specialize (Hm t).
  destruct (m t) as [t1 [a|e']]; [discriminate|].
  intros H. inversion H; subst. now apply (Hm t' e).
Qed.

Lemma read_only_validated {A : Type} (r : result A) : read_only (validated r).
Proof. intros t. reflexivity. Qed.

Lemma read_only_get_product_by_sku sku : read_only (SQLiteRepository.get_product_by_sku sku).
Proof. intros t. now rewrite RepositoryFacts.get_product_by_sku_eq. Qed.

Lemma read_only_create_schema_if_needed : read_only SQLiteRepository.create_schema_if_needed.
Proof. intros t. reflexivity. Qed.

Lemma read_only_list_products : read_only SQLiteRepository.list_products.
Proof. intros t. reflexivity. Qed.

Lemma read_only_get_sales_stats : read_only SQLiteRepository.get_sales_stats.
Proof.
  intros t. rewrite RepositoryFacts.get_sales_stats_eq.
  destruct (SQL.select_sales_stats t) as [[t' row]|e]; [reflexivity|].
  destruct e as [| | | | |[|]]; reflexivity.
Qed.

Lemma insert_product_atomic now p : atomic (SQLiteRepository.insert_product now p).
Proof.
  intros t t' e. rewrite RepositoryFacts.insert_product_eq.
  destruct (SQL.insert_into_products _ _ _ _ _ _ _ t) as [[t1 i]|x]; [discriminate|].
  destruct x as [| | | | |[|]]; intros H; now inversion H.
Qed.

Lemma update_product_atomic p : atomic (SQLiteRepository.update_product p).
Proof.
  intros t t' e. rewrite RepositoryFacts.update_product_eq.
  destruct (SQL.update_products_where_sku _ _ _ _ _ _ t) as [[t1 []]|x]; [discriminate|].
  destruct x as [| | | | |[|]]; intros H; now inversion H.
Qed.

Lemma delete_product_atomic sku : atomic (SQLiteRepository.delete_product sku).
Proof.
  intros t t' e. rewrite RepositoryFacts.delete_product_eq.
  destruct (SQL.delete_from_products_where_sku sku t) as [[t1 []]|x]; [discriminate|].
  destruct x as [| | | | |[|]]; intros H; now inversion H.
Qed.

Lemma record_sale_atomic now product_id sku qty price vat t_ht t_vat t_ttc :
  atomic (SQLiteRepository.record_sale now product_id sku qty price vat t_ht t_vat t_ttc).
Proof.
  intros t t' e. rewrite RepositoryFacts.record_sale_eq.
  destruct (SQL.update_products_decrement qty product_id t) as [[t1 []]|x];
    [|intros H; now inversion H].
  destruct (SQL.insert_into_sales _ _ _ _ _ _ _ _ _ t1) as [[t2 []]|x];
    [discriminate | intros H; now inversion H].
Qed.

Ltac all_or_nothing :=
  repeat first
    [ apply atomic_raise | apply atomic_ret
    | apply update_product_atomic | apply delete_product_atomic
    | apply (atomic_bind_last _ (fun _ => _)); first [apply insert_product_atomic | apply record_sale_atomic]
    | apply atomic_bind_read;
      [first [ apply read_only_validated | apply read_only_get_product_by_sku
             | apply read_only_create_schema_if_needed ] | intros ?]
    | apply read_only_atomic;
      first [apply read_only_list_products | apply read_only_get_sales_stats]
    | match goal with
      | |- atomic (match ?found with Some _ => _ | None => _ end) => destruct found
      | |- atomic (if ?b then _ else _) => destruct b
      end ].

Lemma list_inventory_atomic : atomic list_inventory.
Proof. unfold list_inventory. all_or_nothing. Qed.

Lemma add_product_atomic config now sku name cat price qty vat :
  atomic (add_product config now sku name cat price qty vat).
Proof. unfold add_product. all_or_nothing. Qed.

Lemma update_product_service_atomic sku name cat price qty vat :
  atomic (InventoryManager.update_product sku name cat price qty vat).
Proof. unfold InventoryManager.update_product. all_or_nothing. Qed.

Lemma delete_product_service_atomic sku : atomic (InventoryManager.delete_product sku).
Proof. unfold InventoryManager.delete_product. all_or_nothing. Qed.

Lemma sell_product_atomic now sku qty : atomic (sell_product now sku qty).
Proof. unfold sell_product. all_or_nothing. Qed.

Lemma get_dashboard_data_atomic : atomic get_dashboard_data.
Proof. unfold get_dashboard_data. all_or_nothing. Qed.

Lemma atomic_run {A : Type} (m : Call A) (t : Tables) (e : exn) :
  atomic m -> exception_of (snd (m t)) = Some e -> fst (m t) = t.
Proof.
  intros Hm H. apply exception_of_raise in H. apply (Hm t (fst (m t)) e).
  rewrite <- H. now destruct (m t).
Qed.

(** X8.  A use case of the service other than the bulk import changes nothing
    when it raises: [list_inventory], [add_product], [update_product],
    [delete_product], [sell_product] and [get_dashboard_data] leave the
    database exactly as it was whenever they end with an exception. *)
Theorem use_cases_all_or_nothing (op : operation) (t : Tables) (e : exn) :
  single_change op = true -> raised op t = Some e -> run op t = t.
Proof.
  intros Hop. destruct op; simpl in Hop; try discriminate Hop; unfold raised, run.
  - apply (atomic_run list_inventory), list_inventory_atomic.
  - apply atomic_run, add_product_atomic.
  - apply atomic_run, update_product_service_atomic.
  - apply atomic_run, delete_product_service_atomic.
  - apply atomic_run, sell_product_atomic.
  - apply (atomic_run get_dashboard_data), get_dashboard_data_atomic.
Qed.

(** 2^63 units of a new product pass the validators and are refused when the
    row is written: nothing is added to the shop. *)
Lemma use_cases_all_or_nothing_witness :
  run (Add_product config_20 "2024-01-03T08:00:00" "BULK" "Sand" "Bulk" 10
         9223372036854775808 None) shop
  = shop.
Proof.
  apply (use_cases_all_or_nothing
           (Add_product config_20 "2024-01-03T08:00:00" "BULK" "Sand" "Bulk" 10
              9223372036854775808 None) shop OverflowError).
  - reflexivity.
  - vm_compute. reflexivity.
Defined.

(** X9.  On a database that satisfies the schema, [sell_product] raises nothing
    but NotFoundError, ValidationError, StockError and DatabaseError: the
    quantity sold is at most the stock, which fits 64 bits, so it is
    converted to a float and bound without OverflowError. *)
Theorem sell_product_failures (now sku : string) (qty : Z) (t t' : Tables) (e : exn) :
  schema_ok t ->
  sell_product now sku qty t = (t', Raise e) ->
  e = NotFoundError \/ e = ValidationError \/ e = StockError
  \/ e = DatabaseError Erreur_transaction_vente.
Proof.
  intros Hok. unfold sell_product, bind.
  rewrite RepositoryFacts.get_product_by_sku_eq.
  destruct (find (SQL.has_sku sku) (products t)) as [r|] eqn:Hf; simpl;
    [|intros H; inversion H; now left].
  apply find_some in Hf as [Hr _].
  destruct (qty <=? 0) eqn:Hq; [intros H; inversion H; now right; left|].
  destruct (ProductRow.quantity r <? qty) eqn:Hs; [intros H; inversion H; now right; right; left|].
  apply Z.leb_gt in Hq. apply Z.ltb_ge in Hs.
  destruct Hok as [Hp _ _ _ _ _]. rewrite Forall_forall in Hp.
  destruct (product_row_ok_fields r (Hp r Hr)) as (_ & _ & _ & _ & _ & Hmax).
  unfold validated, float_times_int. rewrite of_int_quantity by lia.
  assert (SQL.fits_int64 qty = true) as Hfit.
  { unfold SQL.fits_int64, SQL.INT64_MIN, SQL.INT64_MAX in *.
    apply andb_true_intro. split; apply Z.leb_le; lia. }
  rewrite RepositoryFacts.record_sale_eq.
  destruct (SQL.update_products_decrement _ _ t) as [[t1 []]|x] eqn:Hu.
  - destruct (SQL.insert_into_sales _ _ _ _ _ _ _ _ _ t1) as [[t2 []]|x] eqn:Hi;
      [discriminate|].
    intros H. inversion H. right; right; right.
    apply Raises.insert_into_sales_raises in Hi.
    now rewrite Hi, Hfit, (update_products_decrement_binds _ _ _ _ Hu).
  - intros H. inversion H. right; right; right.
    apply Raises.update_products_decrement_raises in Hu.
    now rewrite Hu, Hfit, (binds_id_stored r (products t) Hr).
Qed.

(** The sale the workshop refuses is refused with DatabaseError. *)
Lemma sell_product_failures_witness :
  DatabaseError Erreur_transaction_vente = NotFoundError
  \/ DatabaseError Erreur_transaction_vente = ValidationError
  \/ DatabaseError Erreur_transaction_vente = StockError
  \/ DatabaseError Erreur_transaction_vente = DatabaseError Erreur_transaction_vente.
Proof.
  apply (sell_product_failures "2024-01-02T10:00:00" "BIG" 10 workshop workshop
           (DatabaseError Erreur_transaction_vente) workshop_ok).
  vm_compute. reflexivity.
Defined.

(** ** Listing *)

Lemma ascii_compare_trans (x y z : ascii) :
  Ascii.compare x y = Lt -> Ascii.compare y z = Lt -> Ascii.compare x z = Lt.
Proof.
  unfold Ascii.compare. rewrite !N.compare_lt_iff. apply N.lt_trans.
Qed.

Lemma string_compare_trans (a b c : string) :
  String.compare a b = Lt -> String.compare b c = Lt -> String.compare a c = Lt.
Proof.
  revert b c. induction a as [|x a IH]; intros [|y b] [|z c]; simpl; try easy.
  destruct (Ascii.compare x y) eqn:Hxy; try easy;
    destruct (Ascii.compare y z) eqn:Hyz; try easy.
  - apply Ascii.compare_eq_iff in Hxy, Hyz. subst.
    assert (Ascii.compare z z = Eq) as -> by (unfold Ascii.compare; apply N.compare_refl).
    apply IH.
  - apply Ascii.compare_eq_iff in Hxy. subst. now rewrite Hyz.
  - apply Ascii.compare_eq_iff in Hyz. subst. now rewrite Hxy.
  - now rewrite (ascii_compare_trans x y z).
Qed.

Lemma string_leb_trans (a b c : string) :
  String.leb a b = true -> String.leb b c = true -> String.leb a c = true.
Proof.
  intros Hab Hbc.
  destruct (String.compare a b) eqn:Cab.
  - apply String.compare_eq_iff in Cab. now subst.
  - destruct (String.compare b c) eqn:Cbc.
    + apply String.compare_eq_iff in Cbc. now subst.
    + unfold String.leb. now rewrite (string_compare_trans a b c).
    + unfold String.leb in Hbc. now rewrite Cbc in Hbc.
  - unfold String.leb in Hab. now rewrite Cab in Hab.
Qed.

Lemma insert_by_sku_permutation (r : ProductRow.t) (rows : list ProductRow.t) :
  Permutation (SQL.insert_by_sku r rows) (r :: rows).
Proof.
  induction rows as [|x rows IH]; simpl; [reflexivity|].
  destruct (String.leb (ProductRow.sku r) (ProductRow.sku x)); [reflexivity|].
  rewrite IH. apply perm_swap.
Qed.

Lemma order_by_sku_permutation (rows : list ProductRow.t) :
  Permutation (SQL.order_by_sku rows) rows.
Proof.
  induction rows as [|x rows IH]; simpl; [reflexivity|].
  unfold SQL.order_by_sku in *. simpl. rewrite insert_by_sku_permutation.
  now apply perm_skip.
Qed.

Lemma insert_by_sku_sorted (r : ProductRow.t) (rows : list ProductRow.t) :
  StronglySorted (fun x y => String.leb (ProductRow.sku x) (ProductRow.sku y) = true) rows ->
  StronglySorted (fun x y => String.leb (ProductRow.sku x) (ProductRow.sku y) = true)
    (SQL.insert_by_sku r rows).
Proof.
  induction 1 as [|x rows Hs IH Hx]; simpl.
  - constructor; constructor.
  - destruct (String.leb (ProductRow.sku r) (ProductRow.sku x)) eqn:Hle.
    + constructor; [now constructor|]. constructor; [exact Hle|].
      rewrite Forall_forall in *. intros y Hy.
      apply (string_leb_trans _ (ProductRow.sku x)); [exact Hle | now apply Hx].
    + constructor; [exact IH|].
      rewrite Forall_forall in *. intros y Hy.
      apply (Permutation_in _ (insert_by_sku_permutation r rows)) in Hy as [<-|Hy];
        [|now apply Hx].
      destruct (String.leb_total (ProductRow.sku r) (ProductRow.sku x)); congruence.
Qed.

Lemma order_by_sku_sorted (rows : list ProductRow.t) :
  StronglySorted (fun x y => String.leb (ProductRow.sku x) (ProductRow.sku y) = true)
    (SQL.order_by_sku rows).
Proof.
  induction rows as [|x rows IH]; [constructor|].
  unfold SQL.order_by_sku in *. simpl. now apply insert_by_sku_sorted.
Qed.

Lemma StronglySorted_map {A B : Type} (R : B -> B -> Prop) (f : A -> B) (l : list A) :
  StronglySorted (fun x y => R (f x) (f y)) l -> StronglySorted R (map f l).
Proof.
  induction 1 as [|x l Hs IH Hx]; simpl; constructor; [exact IH|].
  now apply Forall_map.
Qed.

(** X10.  [list_products] returns every stored product exactly once, in
    ascending order of the skus compared byte by byte, and leaves the database
    as it was; [list_inventory] returns the same list. *)
Theorem list_products_sorted (t : Tables) :
  exists ps,
    SQLiteRepository.list_products t = (t, Ok ps)
    /\ list_inventory t = (t, Ok ps)
    /\ Permutation ps (map SQLiteRepository.product_of_row (products t))
    /\ StronglySorted in_sku_order ps.
Proof.
  exists (map SQLiteRepository.product_of_row (SQL.order_by_sku (products t))).
  split; [reflexivity|]. split; [reflexivity|]. split.
  - apply Permutation_map, order_by_sku_permutation.
  - apply StronglySorted_map. unfold in_sku_order. simpl. apply order_by_sku_sorted.
Qed.

(** ** Stock and sales *)

Lemma int_sum_app (xs ys : list Z) : int_sum (xs ++ ys) = int_sum xs + int_sum ys.
Proof. induction xs as [|x xs IH]; simpl; lia. Qed.

Lemma sold_app (id : Z) (ss : list SaleRow.t) (s : SaleRow.t) :
  sold id (ss ++ [s])
  = sold id ss + (if SaleRow.product_id s =? id then SaleRow.quantity s else 0).
Proof.
  unfold sold. rewrite filter_app, map_app, int_sum_app. simpl.
  destruct (SaleRow.product_id s =? id); simpl; lia.
Qed.

Lemma set_quantity_same (r : ProductRow.t) : SQL.set_quantity (ProductRow.quantity r) r = r.
Proof. now destruct r. Qed.

Lemma set_quantity_twice (q q' : Z) (r : ProductRow.t) :
  SQL.set_quantity q' (SQL.set_quantity q r) = SQL.set_quantity q' r.
Proof. reflexivity. Qed.

(** The stock of a product plus the units its sales record. *)
Lemma record_sale_balance (r : ProductRow.t) (total : Z)
    now product_id sku qty price vat t_ht t_vat t_ttc :
  preserves
    (fun t => exists q, stored t (SQL.set_quantity q r)
                        /\ q + sold (ProductRow.id r) (sales t) = total)
    (SQLiteRepository.record_sale now product_id sku qty price vat t_ht t_vat t_ttc).
Proof.
  intros t (q & Hr & Hq). rewrite RepositoryFacts.record_sale_eq.
  destruct (SQL.update_products_decrement qty product_id t) as [[t1 []]|e] eqn:Hu;
    [|now exists q].
  destruct (SQL.insert_into_sales _ _ _ _ _ _ _ _ _ t1) as [[t2 []]|e] eqn:Hi;
    [|now exists q].
  simpl. pose proof (update_products_decrement_sales _ _ _ _ Hu) as Hs1.
  pose proof (insert_into_sales_frame _ _ _ _ _ _ _ _ _ _ _ Hi) as (Hp2 & _).
  apply insert_into_sales_row in Hi as (_ & rowid & pid & -> & Hs2).
  unfold stored. rewrite Hp2, Hs2, Hs1, sold_app. simpl.
  unfold SQL.update_products_decrement in Hu.
  destruct (negb (SQL.fits_int64 qty)); [discriminate|].
  destruct (negb (SQL.binds_id _ (products t))); [discriminate|].
  destruct (existsb _ (products t)); [discriminate|].
  inversion Hu as [Ht1]. simpl. clear Hu Ht1.
  destruct (pid =? ProductRow.id r) eqn:Hid.
  - exists (q - qty). split; [|lia].
    apply in_map_iff. exists (SQL.set_quantity q r). split; [|exact Hr].
    unfold SQL.has_id. simpl. rewrite Z.eqb_sym, Hid. reflexivity.
  - exists q. split; [|lia].
    apply in_map_iff. exists (SQL.set_quantity q r). split; [|exact Hr].
    unfold SQL.has_id. simpl. now rewrite Z.eqb_sym, Hid.
Qed.

Lemma sell_product_balance (r : ProductRow.t) (total : Z) now sku qty :
  preserves
    (fun t => exists q, stored t (SQL.set_quantity q r)
                        /\ q + sold (ProductRow.id r) (sales t) = total)
    (sell_product now sku qty).
Proof.
  unfold sell_product.
  apply preserves_bind; [intros t Ht; now rewrite RepositoryFacts.get_product_by_sku_eq|].
  intros [p|]; [|apply preserves_raise].
  destruct (qty <=? 0); [apply preserves_raise|].
  destruct (Product.quantity p <? qty); [apply preserves_raise|].
  apply preserves_bind; [apply preserves_validated | intros amount].
  apply preserves_bind; [apply record_sale_balance | intros _; apply preserves_ret].
Qed.

(** X11.  Sales move units from the stock to the ledger and nothing else: after
    any sequence of [sell_product] and [record_sale] calls, successful or
    not, a product's row is as it was but for its quantity, and its quantity
    plus the units its sales record is what it was before. *)
Theorem stock_and_sales_balance (ops : list operation) (t : Tables) (r : ProductRow.t) :
  Forall (fun op => is_sale op = true) ops ->
  stored t r ->
  exists q,
    stored (run_all ops t) (SQL.set_quantity q r)
    /\ q + sold (ProductRow.id r) (sales (run_all ops t))
       = ProductRow.quantity r + sold (ProductRow.id r) (sales t).
Proof.
  intros Hops Hr.
  assert (exists q, stored t (SQL.set_quantity q r)
                    /\ q + sold (ProductRow.id r) (sales t)
                       = ProductRow.quantity r + sold (ProductRow.id r) (sales t)) as Ht
    by (exists (ProductRow.quantity r); now rewrite set_quantity_same).
  revert Ht. generalize (ProductRow.quantity r + sold (ProductRow.id r) (sales t)).
  intros total. clear Hr. revert t.
  induction Hops as [|op ops Hop Hops IH]; intros t Ht; simpl; [exact Ht|].
  apply IH. destruct op; try discriminate; unfold run.
  - now apply record_sale_balance.
  - now apply sell_product_balance.
Qed.

(** Three units sold, six refused, two more taken by [record_sale]: of the
    five units of SKU1 none is lost. *)
Lemma stock_and_sales_balance_witness :
  exists q,
    stored (run_all [Sell_product "2024-01-02T10:00:00" "SKU1" 3;
                     Sell_product "2024-01-03T10:00:00" "SKU1" 6;
                     Record_sale "2024-01-04T10:00:00" (Some 1) "SKU1" 2 10 vat_20 20 4 24]
              shop)
      (SQL.set_quantity q widget)
    /\ q + sold 1 (sales (run_all [Sell_product "2024-01-02T10:00:00" "SKU1" 3;
                                   Sell_product "2024-01-03T10:00:00" "SKU1" 6;
                                   Record_sale "2024-01-04T10:00:00" (Some 1) "SKU1" 2
                                     10 vat_20 20 4 24] shop))
       = 5 + sold 1 [].
Proof.
  apply (stock_and_sales_balance
           [Sell_product "2024-01-02T10:00:00" "SKU1" 3;
            Sell_product "2024-01-03T10:00:00" "SKU1" 6;
            Record_sale "2024-01-04T10:00:00" (Some 1) "SKU1" 2 10 vat_20 20 4 24]
           shop widget).
  - repeat constructor.
  - now left.
Defined.

(** ** The bulk import *)

Lemma imported_app (k : Z) (now : string) (l : list Product.t) (p : Product.t) :
  imported k now (l ++ [p])
  = (imported k now l ++
     [ProductRow.make (k + Z.of_nat (List.length l)) (Product.sku p) (Product.name p)
        (Product.category p) (SQL.stored_real (Product.unit_price_ht p))
        (SQL.stored_real (Product.vat_rate p)) (Product.quantity p) now])%list.
Proof.
  revert k. induction l as [|x l IH]; intros k.
  - simpl. now rewrite Z.add_0_r.
  - cbn [app imported List.length]. rewrite IH. do 4 f_equal. lia.
Qed.

Lemma imported_skus (k : Z) (now : string) (l : list Product.t) :
  map ProductRow.sku (imported k now l) = map Product.sku l.
Proof. revert k. induction l as [|x l IH]; intros k; simpl; [|rewrite IH]; reflexivity. Qed.

Lemma imported_max_rowid (k : Z) (now : string) (l : list Product.t) :
  0 <= k ->
  Z.max k (SQL.max_rowid (map ProductRow.id (imported (k + 1) now l)))
  = k + Z.of_nat (List.length l).
Proof.
  revert k. induction l as [|x l IH]; intros k Hk.
  - simpl. lia.
  - cbn [imported map SQL.max_rowid fold_right List.length]. fold (SQL.max_rowid).
    change (fold_right Z.max 0 (map ProductRow.id (imported (k + 1 + 1) now l)))
      with (SQL.max_rowid (map ProductRow.id (imported (k + 1 + 1) now l))).
    simpl ProductRow.id. specialize (IH (k + 1)). lia.
Qed.

Lemma or_now_same (now : string) : SQLiteRepository.or_now now now = now.
Proof. now destruct now. Qed.

(** One product of the list, inserted after the products [done]. *)
Lemma insert_imported (now : string) (done : list Product.t) (p : Product.t) :
  SQLiteRepository.insert_product now
    (Product.make None (Product.sku p) (Product.name p) (Product.category p)
       (Product.unit_price_ht p) (Product.quantity p) (Product.vat_rate p) now)
    (import_of now done)
  = if SQL.fits_int64 (Product.quantity p)
    then if importable p && negb (existsb (String.eqb (Product.sku p)) (map Product.sku done))
         then (import_of now (done ++ [p]), Ok (Z.of_nat (List.length done) + 1))
         else (import_of now done, Raise (DatabaseError Contrainte_violee))
    else (import_of now done, Raise OverflowError).
Proof.
  rewrite RepositoryFacts.insert_product_eq. unfold SQL.insert_into_products, importable.
  cbn [Product.sku Product.name Product.category Product.unit_price_ht Product.vat_rate
       Product.quantity Product.created_at].
  destruct (SQL.fits_int64 (Product.quantity p)); cbn [negb andb]; [|reflexivity].
  assert (existsb (SQL.has_sku (Product.sku p)) (products (import_of now done))
          = existsb (String.eqb (Product.sku p)) (map Product.sku done)) as ->.
  { unfold import_of. cbn [products]. rewrite <- (imported_skus 1 now done).
    generalize (imported 1 now done). intros rows.
    induction rows as [|x rows IH]; simpl; [reflexivity|].
    rewrite IH. unfold SQL.has_sku. now rewrite String.eqb_sym. }
  destruct (SQL.product_constraints _ _ _ && negb _); [|reflexivity].
  unfold import_of. cbn [products sales seq_products seq_sales].
  assert (SQL.next_rowid (Z.of_nat (List.length done))
            (map ProductRow.id (imported 1 now done))
          = Z.of_nat (List.length done) + 1) as ->.
  { unfold SQL.next_rowid. pose proof (imported_max_rowid 0 now done (Z.le_refl 0)) as H.
    simpl in H.
    assert (0 <= SQL.max_rowid (map ProductRow.id (imported 1 now done)))
      by (generalize (map ProductRow.id (imported 1 now done)); intros ids;
          induction ids; simpl; lia).
    lia. }
  rewrite imported_app, or_now_same, length_app. simpl List.length.
  replace (1 + Z.of_nat (List.length done)) with (Z.of_nat (List.length done) + 1) by lia.
  now replace (Z.of_nat (List.length done + 1)) with (Z.of_nat (List.length done) + 1) by lia.
Qed.

Lemma insert_all_imported (now : string) (todo more done : list Product.t) (count : Z) :
  forallb importable todo = true ->
  NoDup (map Product.sku (done ++ todo)) ->
  insert_all now
    (map (fun p => Product.make None (Product.sku p) (Product.name p) (Product.category p)
                     (Product.unit_price_ht p) (Product.quantity p) (Product.vat_rate p) now)
       (todo ++ more)) count (import_of now done)
  = insert_all now
      (map (fun p => Product.make None (Product.sku p) (Product.name p) (Product.category p)
                       (Product.unit_price_ht p) (Product.quantity p) (Product.vat_rate p) now)
         more) (count + Z.of_nat (List.length todo)) (import_of now (done ++ todo)).
Proof.
  revert done count. induction todo as [|p todo IH]; intros done count Hok Hnd.
  - simpl. now rewrite Z.add_0_r, app_nil_r.
  - cbn [forallb] in Hok. apply andb_prop in Hok as [Hp Hok].
    cbn [app map insert_all]. unfold bind at 1. rewrite insert_imported.
    pose proof Hp as Hfit. unfold importable in Hfit. apply andb_prop in Hfit as [Hfit _].
    rewrite Hfit, Hp.
    assert (existsb (String.eqb (Product.sku p)) (map Product.sku done) = false) as ->.
    { destruct (existsb _ (map Product.sku done)) eqn:He; [|reflexivity].
      apply existsb_exists in He as (s & Hs & Heq). apply String.eqb_eq in Heq. subst s.
      rewrite map_app in Hnd. apply NoDup_remove_2 in Hnd. exfalso. apply Hnd.
      apply in_or_app. now left. }
    cbn [negb andb].
    replace (done ++ p :: todo)%list with ((done ++ [p]) ++ todo)%list in *
      by now rewrite <- app_assoc.
    rewrite IH by assumption.
    now replace (count + Z.of_nat (List.length (p :: todo)))
      with (count + 1 + Z.of_nat (List.length todo)) by (cbn [List.length]; lia).
Qed.

Lemma initialize_from_json_reset (now : string) (payload : list Product.t) (t : Tables) :
  initialize_from_json now payload true t
  = insert_all now
      (map (fun p => Product.make None (Product.sku p) (Product.name p) (Product.category p)
                       (Product.unit_price_ht p) (Product.quantity p) (Product.vat_rate p) now)
         payload) 0 (import_of now []).
Proof. reflexivity. Qed.

(** X12.  [initialize_from_json] with reset replaces whatever the database held:
    when the columns accept every product of the list and no two of them
    share a sku, it returns the length of the list and leaves exactly the
    products of the list, in the order of the list, with the ids 1, 2, ...,
    created at the time of the import, and no sale. *)
Theorem initialize_from_json_imports (now : string) (payload : list Product.t) (t : Tables) :
  forallb importable payload = true ->
  NoDup (map Product.sku payload) ->
  initialize_from_json now payload true t
  = (import_of now payload, Ok (Z.of_nat (List.length payload))).
Proof.
  intros Hok Hnd. rewrite initialize_from_json_reset.
  rewrite <- (app_nil_r payload) at 1.
  now rewrite (insert_all_imported now payload [] [] 0 Hok Hnd).
Qed.

(** Two products imported over the shop and its sale. *)
Lemma initialize_from_json_imports_witness :
  initialize_from_json "2024-01-06T08:00:00" [gadget; anvil] true shop_after_sale
  = ({| products :=
          [ProductRow.make 1 "A1" "Gadget" "Toys" price_9_99 vat_20 10 "2024-01-06T08:00:00";
           ProductRow.make 2 "B2" "Anvil" "Tools" 120 vat_20 4 "2024-01-06T08:00:00"];
        sales := [];
        seq_products := 2;
        seq_sales := 0 |}, Ok 2).
Proof.
  apply (initialize_from_json_imports "2024-01-06T08:00:00" [gadget; anvil] shop_after_sale).
  - reflexivity.
  - constructor; [intros [H|[]]; discriminate|]. constructor; [intros []|constructor].
Defined.

(** X13.  [initialize_from_json] is not all or nothing: at the first product the
    table refuses (a field the columns do not accept, or the sku of an
    earlier product of the list) it raises DatabaseError (OverflowError for a
    quantity outside 64 bits) and the database is left with the products
    before that one; the rest of the list is not looked at. *)
Theorem initialize_from_json_stops (now : string) (good rest : list Product.t)
    (bad : Product.t) (t : Tables) :
  forallb importable good = true ->
  NoDup (map Product.sku good) ->
  importable bad = false \/ In (Product.sku bad) (map Product.sku good) ->
  initialize_from_json now (good ++ bad :: rest) true t
  = (import_of now good,
     Raise (if SQL.fits_int64 (Product.quantity bad)
            then DatabaseError Contrainte_violee
            else OverflowError)).
Proof.
  intros Hok Hnd Hbad. rewrite initialize_from_json_reset.
  rewrite (insert_all_imported now good (bad :: rest) [] 0 Hok Hnd).
  cbn [app map insert_all]. unfold bind. rewrite insert_imported.
  destruct (SQL.fits_int64 (Product.quantity bad)); [|reflexivity].
  assert (importable bad
          && negb (existsb (String.eqb (Product.sku bad)) (map Product.sku good)) = false)
    as ->; [|reflexivity].
  destruct Hbad as [->|Hin]; [reflexivity|].
  apply andb_false_intro2, negb_false_iff, existsb_exists.
  exists (Product.sku bad). split; [exact Hin | apply String.eqb_refl].
Qed.

(** A list that names A1 twice: the import stops at the second A1 and the
    anvil after it is not imported. *)
Lemma initialize_from_json_stops_witness :
  initialize_from_json "2024-01-06T08:00:00" [gadget; gadget; anvil] true shop_after_sale
  = ({| products :=
          [ProductRow.make 1 "A1" "Gadget" "Toys" price_9_99 vat_20 10 "2024-01-06T08:00:00"];
        sales := [];
        seq_products := 1;
        seq_sales := 0 |}, Raise (DatabaseError Contrainte_violee)).
Proof.
  apply (initialize_from_json_stops "2024-01-06T08:00:00" [gadget] [anvil] gadget
           shop_after_sale).
  - reflexivity.
  - constructor; [intros []|constructor].
  - right. now left.
Defined.

(** ** The dashboard after a sale *)

Lemma get_sales_stats_exact (t : Tables) :
  schema_ok t ->
  SQLiteRepository.get_sales_stats t
  = (t, if int_sum (map SaleRow.quantity (sales t)) <=? SQL.INT64_MAX
        then Ok {| SQL.nb_sales := SQL.Integer (Z.of_nat (List.length (sales t)));
                   SQL.total_qty := SQL.Integer (int_sum (map SaleRow.quantity (sales t)));
                   SQL.total_ht := SQL.Real (float_sum (map SaleRow.total_ht (sales t)));
                   SQL.total_vat := SQL.Real (float_sum (map SaleRow.total_vat (sales t)));
                   SQL.total_ttc := SQL.Real (float_sum (map SaleRow.total_ttc (sales t))) |}
        else Raise (DatabaseError Erreur_SQLite)).
Proof.
  intros [_ _ _ Hsales _ _]. rewrite RepositoryFacts.get_sales_stats_eq.
  unfold SQL.select_sales_stats.
  destruct (sales t) as [|s ss] eqn:Hs; [reflexivity|]. rewrite <- Hs in *.
  assert (sales t <> []) as Hne by congruence.
  assert (forall (f : SaleRow.t -> float),
             (forall x, sale_row_ok x -> PrimFloat.leb 0 (f x) = true) ->
             SQL.sum_real (map f (sales t)) = SQL.Real (float_sum (map f (sales t))))
    as Hreal.
  { intros f Hf. apply sum_real_exact.
    - apply Forall_map. eapply Forall_impl; [exact Hf | exact Hsales].
    - rewrite Hs. discriminate. }
  rewrite sum_integer_exact.
  2: { apply Forall_map. eapply Forall_impl; [|exact Hsales].
       intros x Hx. now apply sale_row_ok_fields in Hx. }
  2: { rewrite Hs. discriminate. }
  rewrite !Hreal by (intros x Hx; now apply sale_row_ok_fields in Hx).
  destruct (int_sum _ <=? SQL.INT64_MAX); [|reflexivity]. simpl.
  assert ((0 <? Z.of_nat (List.length (sales t))) = true) as ->; [|reflexivity].
  apply Z.ltb_lt. rewrite Hs. simpl. lia.
Qed.

(** The sale row a successful [sell_product] appends. *)
Lemma sell_product_sale_row (now sku : string) (qty : Z) (t t' : Tables) (rc : receipt) :
  sell_product now sku qty t = (t', Ok rc) ->
  exists rowid pid price vat,
    sales t'
    = (sales t ++
       [SaleRow.make rowid pid sku qty price vat (SQL.stored_real (total_ht rc))
          (SQL.stored_real (total_vat rc)) (SQL.stored_real (total_ttc rc)) now])%list.
Proof.
  unfold sell_product, bind. rewrite RepositoryFacts.get_product_by_sku_eq.
  destruct (find (SQL.has_sku sku) (products t)) as [r|]; simpl; [|discriminate].
  destruct (qty <=? 0); [discriminate|].
  destruct (ProductRow.quantity r <? qty); [discriminate|].
  unfold validated, float_times_int.
  destruct (PyFloat.of_int qty) as [q|]; [|discriminate].
  rewrite RepositoryFacts.record_sale_eq.
  destruct (SQL.update_products_decrement _ _ t) as [[t1 []]|e] eqn:Hu; [|discriminate].
  destruct (SQL.insert_into_sales _ _ _ _ _ _ _ _ _ t1) as [[t2 []]|e] eqn:Hi;
    [|discriminate].
  intros H. inversion H; subst; clear H. simpl.
  apply insert_into_sales_row in Hi as (_ & rowid & pid & _ & Hsales).
  rewrite (update_products_decrement_sales _ _ _ _ Hu) in Hsales.
  eexists rowid, pid, _, _. exact Hsales.
Qed.

(** X14.  Each sale adds its receipt to the dashboard: after a successful
    [sell_product], [get_dashboard_data] counts one sale more and [qty] units
    more than before, and each of the three totals is what SUM gives for the
    amounts recorded before followed by the amount of the receipt (as the
    REAL column stores it), a float; it raises DatabaseError once the units
    sold exceed 2^63 - 1. *)
Theorem dashboard_after_sale (now sku : string) (qty : Z) (t t' : Tables) (rc : receipt)
    (stats : SQL.stats_row) :
  schema_ok t ->
  get_dashboard_data t = (t, Ok stats) ->
  sell_product now sku qty t = (t', Ok rc) ->
  exists (n q : Z) (h v c : float),
    SQL.nb_sales stats = SQL.Integer n
    /\ SQL.total_qty stats = SQL.Integer q
    /\ SQL.sum_real (map SaleRow.total_ht (sales t) ++ [SQL.stored_real (total_ht rc)])
       = SQL.Real h
    /\ SQL.sum_real (map SaleRow.total_vat (sales t) ++ [SQL.stored_real (total_vat rc)])
       = SQL.Real v
    /\ SQL.sum_real (map SaleRow.total_ttc (sales t) ++ [SQL.stored_real (total_ttc rc)])
       = SQL.Real c
    /\ get_dashboard_data t'
       = (t', if q + qty <=? SQL.INT64_MAX
              then Ok {| SQL.nb_sales := SQL.Integer (n + 1);
                         SQL.total_qty := SQL.Integer (q + qty);
                         SQL.total_ht := SQL.Real h;
                         SQL.total_vat := SQL.Real v;
                         SQL.total_ttc := SQL.Real c |}
              else Raise (DatabaseError Erreur_SQLite)).
Proof.
  intros Hok Hstats Hsell.
  assert (schema_ok t') as Hok'
    by (change t' with (fst (t', Ok rc : result receipt)); rewrite <- Hsell;
        now apply Invariant.sell_product_ok).
  apply sell_product_sale_row in Hsell as (rowid & pid & price & vat & Hsales).
  assert (forall (f : SaleRow.t -> float),
             (forall x, sale_row_ok x -> PrimFloat.leb 0 (f x) = true) ->
             SQL.sum_real (map f (sales t')) = SQL.Real (float_sum (map f (sales t'))))
    as Hreal.
  { intros f Hf. apply sum_real_exact.
    - apply Forall_map. eapply Forall_impl; [exact Hf | apply (sales_checked t' Hok')].
    - rewrite Hsales. now destruct (sales t). }
  pose proof (Hreal SaleRow.total_ht) as Hh.
  pose proof (Hreal SaleRow.total_vat) as Hv.
  pose proof (Hreal SaleRow.total_ttc) as Hc.
  rewrite Hsales, map_app in Hh, Hv, Hc. cbn [map SaleRow.total_ht SaleRow.total_vat
    SaleRow.total_ttc] in Hh, Hv, Hc.
  unfold get_dashboard_data in *.
  rewrite (get_sales_stats_exact t Hok) in Hstats.
  rewrite (get_sales_stats_exact t' Hok'), Hsales.
  destruct (int_sum (map SaleRow.quantity (sales t)) <=? SQL.INT64_MAX); [|discriminate].
  inversion Hstats as [Hs]. clear Hstats Hs.
  eexists _, _, _, _, _. cbn [SQL.nb_sales SQL.total_qty].
  split; [reflexivity|]. split; [reflexivity|].
  split; [apply Hh; intros x Hx; now apply sale_row_ok_fields in Hx|].
  split; [apply Hv; intros x Hx; now apply sale_row_ok_fields in Hx|].
  split; [apply Hc; intros x Hx; now apply sale_row_ok_fields in Hx|].
  rewrite !map_app. cbn [map]. rewrite int_sum_app, length_app. simpl.
  rewrite Z.add_0_r.
  now replace (Z.of_nat (List.length (sales t) + 1))
    with (Z.of_nat (List.length (sales t)) + 1) by lia.
Qed.

(** One more unit of SKU1 sold at the shop after its first sale. *)
Lemma dashboard_after_sale_witness :
  get_dashboard_data shop_after_two_sales
  = (shop_after_two_sales,
     Ok {| SQL.nb_sales := SQL.Integer 2;
           SQL.total_qty := SQL.Integer 4;
           SQL.total_ht := SQL.Real 40;
           SQL.total_vat := SQL.Real 8;
           SQL.total_ttc := SQL.Real 48 |}).
Proof.
  destruct (dashboard_after_sale "2024-01-05T10:00:00" "SKU1" 1 shop_after_sale
              shop_after_two_sales
              {| sku := "SKU1"; qty := 1; total_ht := 10; total_vat := 2; total_ttc := 12 |}
              {| SQL.nb_sales := SQL.Integer 1; SQL.total_qty := SQL.Integer 3;
                 SQL.total_ht := SQL.Real 30; SQL.total_vat := SQL.Real 6;
                 SQL.total_ttc := SQL.Real 36 |}
              shop_after_sale_ok)
    as (n & q & h & v & c & Hn & Hq & Hh & Hv & Hc & Hstats).
  - vm_compute. reflexivity.
  - vm_compute. reflexivity.
  - injection Hn as <-. injection Hq as <-.
    injection Hh as <-. injection Hv as <-. injection Hc as <-. exact Hstats.
Defined.

(** ** Looking a product up after an update or a delete *)

Lemma find_map_other (other : string) (f : ProductRow.t -> ProductRow.t)
    (rows : list ProductRow.t) :
  (forall x, In x rows ->
     f x = x \/ (SQL.has_sku other x = false /\ SQL.has_sku other (f x) = false)) ->
  find (SQL.has_sku other) (map f rows) = find (SQL.has_sku other) rows.
Proof.
  induction rows as [|x rows IH]; intros Hf; simpl; [reflexivity|].
  destruct (Hf x (or_introl eq_refl)) as [->|[-> ->]];
    rewrite IH by (intros y Hy; apply Hf; now right); reflexivity.
Qed.

Lemma find_filter_other (other sku : string) (rows : list ProductRow.t) :
  other <> sku ->
  find (SQL.has_sku other) (filter (fun r => negb (SQL.has_sku sku r)) rows)
  = find (SQL.has_sku other) rows.
Proof.
  intros Hne. induction rows as [|x rows IH]; simpl; [reflexivity|].
  destruct (SQL.has_sku sku x) eqn:Hs; simpl.
  - apply has_sku_true in Hs.
    assert (SQL.has_sku other x = false) as -> by (apply has_sku_false; congruence).
    exact IH.
  - now rewrite IH.
Qed.

Lemma is_zero_not_nan (x : float) : is_zero x = true -> is_nan x = false.
Proof.
  unfold is_zero, is_nan. rewrite !FloatAxioms.eqb_spec. unfold SFeqb.
  change (Prim2SF zero) with (S754_zero false).
  now destruct (Prim2SF x) as [[|]|[|]| |[|] m e].
Qed.

(** A float that was stored is, for Python, the float that was written. *)
Lemma stored_real_written (x : float) :
  SQL.not_null (SQL.stored_real x) = true -> PyFloat.eqb x (SQL.stored_real x) = true.
Proof.
  intros H. apply stored_real_equal. revert H. unfold SQL.stored_real, SQL.not_null.
  destruct (is_zero x) eqn:Hz; [|easy]. intros _. now rewrite is_zero_not_nan.
Qed.

(** X15.  After [update_product] returns, [get_product_by_sku] gives the product
    with the id and created_at it had, the validated name and category, and
    the price, VAT rate and quantity of the call; the lookup of every other
    sku returns what it returned before. *)
Theorem update_product_then_lookup (sku name cat : string) (price : float) (qty : Z)
    (vat : float) (t t' : Tables) :
  schema_ok t ->
  InventoryManager.update_product sku name cat price qty vat t = (t', Ok tt) ->
  exists before after,
    SQLiteRepository.get_product_by_sku sku t = (t, Ok (Some before))
    /\ SQLiteRepository.get_product_by_sku sku t' = (t', Ok (Some after))
    /\ Product.id after = Product.id before
    /\ Product.sku after = sku
    /\ Product.created_at after = Product.created_at before
    /\ Validation.validate_non_empty name "nom" = Ok (Product.name after)
    /\ Validation.validate_non_empty cat "categorie" = Ok (Product.category after)
    /\ PyFloat.eqb price (Product.unit_price_ht after) = true
    /\ PyFloat.eqb vat (Product.vat_rate after) = true
    /\ Product.quantity after = qty
    /\ (forall other, other <> sku ->
          snd (SQLiteRepository.get_product_by_sku other t')
          = snd (SQLiteRepository.get_product_by_sku other t)).
Proof.
  intros Hok Hup.
  assert (schema_ok t') as Hok'
    by (change t' with (fst (t', Ok tt : result unit)); rewrite <- Hup;
        now apply Invariant.update_product_service_ok).
  destruct (find (SQL.has_sku sku) (products t)) as [r|] eqn:Hf.
  2: { unfold InventoryManager.update_product, bind in Hup.
       rewrite RepositoryFacts.get_product_by_sku_eq, Hf in Hup. discriminate. }
  apply find_some in Hf as [Hr Hs]. apply has_sku_true in Hs. subst sku.
  destruct (update_product_run name cat price qty vat t r Hok Hr)
    as [(name' & cat' & Hn & Hc & Hrun)|(e & Hrun)]; rewrite Hrun in Hup;
    [|discriminate].
  injection Hup as Ht'. clear Hrun.
  set (r' := updated_row r name' cat' price vat qty) in *.
  assert (stored t' r') as Hr' by (rewrite <- Ht'; now apply replace_row_new).
  exists (SQLiteRepository.product_of_row r), (SQLiteRepository.product_of_row r').
  split; [now apply get_product_stored|].
  split; [now apply (get_product_stored t' r')|].
  destruct Hok' as [Hp' _ _ _ _ _]. rewrite Forall_forall in Hp'.
  destruct (Hp' r' Hr') as (Hcs & _). unfold SQL.product_constraints in Hcs. split_andb.
  repeat split; try assumption; try (now apply stored_real_written).
  intros other Hne. rewrite !RepositoryFacts.get_product_by_sku_eq, <- Ht'. simpl.
  unfold replace_row. rewrite find_map_other; [reflexivity|].
  intros x Hx. destruct (ProductRow.id x =? ProductRow.id r) eqn:Hi; [|now left].
  right. apply Z.eqb_eq in Hi. destruct Hok as [_ Hid _ _ _ _].
  assert (x = r) as -> by (apply (NoDup_map_injective ProductRow.id (products t)); assumption).
  split; apply has_sku_false; simpl; congruence.
Qed.

(** SKU1 renamed, repriced and restocked at the shop. *)
Lemma update_product_then_lookup_witness :
  exists before after,
    SQLiteRepository.get_product_by_sku "SKU1" shop = (shop, Ok (Some before))
    /\ SQLiteRepository.get_product_by_sku "SKU1"
         (fst (InventoryManager.update_product "SKU1" " Gadget " "Toys" 12 7 vat_20 shop))
       = (fst (InventoryManager.update_product "SKU1" " Gadget " "Toys" 12 7 vat_20 shop),
          Ok (Some after))
    /\ Product.id after = Product.id before
    /\ Product.sku after = "SKU1"
    /\ Product.created_at after = Product.created_at before
    /\ Validation.validate_non_empty " Gadget " "nom" = Ok (Product.name after)
    /\ Validation.validate_non_empty "Toys" "categorie" = Ok (Product.category after)
    /\ PyFloat.eqb 12 (Product.unit_price_ht after) = true
    /\ PyFloat.eqb vat_20 (Product.vat_rate after) = true
    /\ Product.quantity after = 7
    /\ (forall other, other <> "SKU1" ->
          snd (SQLiteRepository.get_product_by_sku other
                 (fst (InventoryManager.update_product "SKU1" " Gadget " "Toys" 12 7 vat_20
                         shop)))
          = snd (SQLiteRepository.get_product_by_sku other shop)).
Proof.
  apply (update_product_then_lookup "SKU1" " Gadget " "Toys" 12 7 vat_20 shop _ shop_ok).
  vm_compute. reflexivity.
Defined.

Lemma find_filter_sku (sku : string) (rows : list ProductRow.t) :
  find (SQL.has_sku sku) (filter (fun r => negb (SQL.has_sku sku r)) rows) = None.
Proof.
  induction rows as [|x rows IH]; simpl; [reflexivity|].
  destruct (SQL.has_sku sku x) eqn:Hs; simpl; [exact IH | now rewrite Hs].
Qed.

(** X16.  After [delete_product] returns, the sku is gone for every use case:
    [get_product_by_sku] returns None for it, and [sell_product],
    [update_product] and [delete_product] raise NotFoundError; the lookup of
    every other sku returns what it returned before, and no sale changed. *)
Theorem delete_product_then_lookup (sku : string) (t t' : Tables) :
  InventoryManager.delete_product sku t = (t', Ok tt) ->
  SQLiteRepository.get_product_by_sku sku t' = (t', Ok None)
  /\ (forall now qty, sell_product now sku qty t' = (t', Raise NotFoundError))
  /\ (forall name cat price qty vat,
        InventoryManager.update_product sku name cat price qty vat t'
        = (t', Raise NotFoundError))
  /\ InventoryManager.delete_product sku t' = (t', Raise NotFoundError)
  /\ (forall other, other <> sku ->
        snd (SQLiteRepository.get_product_by_sku other t')
        = snd (SQLiteRepository.get_product_by_sku other t))
  /\ sales t' = sales t.
Proof.
  unfold InventoryManager.delete_product at 1. unfold bind.
  rewrite RepositoryFacts.get_product_by_sku_eq.
  destruct (find (SQL.has_sku sku) (products t)) as [r|]; simpl; [|discriminate].
  rewrite RepositoryFacts.delete_product_eq. unfold SQL.delete_from_products_where_sku.
  destruct (existsb _ (products t)); [discriminate|].
  intros H. injection H as Ht'.
  assert (SQLiteRepository.get_product_by_sku sku t' = (t', Ok None)) as Hget.
  { rewrite RepositoryFacts.get_product_by_sku_eq, <- Ht'. simpl.
    now rewrite find_filter_sku. }
  split; [exact Hget|]. split; [|split; [|split; [|split]]].
  - intros now qty. unfold sell_product, bind. now rewrite Hget.
  - intros name cat price qty vat. unfold InventoryManager.update_product, bind.
    now rewrite Hget.
  - unfold InventoryManager.delete_product, bind. now rewrite Hget.
  - intros other Hne. rewrite !RepositoryFacts.get_product_by_sku_eq, <- Ht'. simpl.
    now rewrite find_filter_other.
  - now rewrite <- Ht'.
Qed.

(** SKU1 deleted from the shop before any sale. *)
Lemma delete_product_then_lookup_witness :
  SQLiteRepository.get_product_by_sku "SKU1" (fst (InventoryManager.delete_product "SKU1" shop))
  = (fst (InventoryManager.delete_product "SKU1" shop), Ok None).
Proof.
  apply (delete_product_then_lookup "SKU1" shop
           (fst (InventoryManager.delete_product "SKU1" shop))).
  vm_compute. reflexivity.
Defined.

(** ** What the repository accepts *)

Lemma or_now_twice (created_at now : string) :
  SQLiteRepository.or_now (SQLiteRepository.or_now created_at now) now
  = SQLiteRepository.or_now created_at now.
Proof. destruct created_at; [now destruct now | reflexivity]. Qed.

(** X17.  [insert_product] checks no more than the table does: any product
    whose quantity fits 64 bits and whose price, VAT rate and quantity pass
    the CHECK constraints is stored under a sku that is not yet stored, be
    its sku, name or category empty, and [get_product_by_sku] returns it with
    the new id and the same fields; an empty created_at is replaced by the
    time of the insertion. *)
Theorem insert_product_accepts (now : string) (p : Product.t) (t : Tables) :
  importable p = true ->
  unknown t (Product.sku p) ->
  exists t' rowid q,
    SQLiteRepository.insert_product now p t = (t', Ok rowid)
    /\ SQLiteRepository.get_product_by_sku (Product.sku p) t' = (t', Ok (Some q))
    /\ Product.id q = Some rowid
    /\ Product.same_fields
         (Product.make None (Product.sku p) (Product.name p) (Product.category p)
            (Product.unit_price_ht p) (Product.quantity p) (Product.vat_rate p)
            (SQLiteRepository.or_now (Product.created_at p) now)) q = true.
Proof.
  intros Hok Hu. unfold importable in Hok. apply andb_prop in Hok as [Hf Hc].
  destruct (insert_product_fresh now p t Hu Hf Hc) as (t' & rowid & Hi & Hp & _).
  exists t', rowid, (SQLiteRepository.product_of_row (row_of_product rowid now p)).
  split; [exact Hi|]. split; [|split; [reflexivity|]].
  - apply (get_product_inserted (Product.sku p) t); [|reflexivity|exact Hp].
    apply no_row_has_sku. intros Hin. apply in_map_iff in Hin as (r & Hs & Hin).
    now apply (Hu r).
  - set (p' := Product.make None (Product.sku p) (Product.name p) (Product.category p)
                 (Product.unit_price_ht p) (Product.quantity p) (Product.vat_rate p)
                 (SQLiteRepository.or_now (Product.created_at p) now)).
    replace (row_of_product rowid now p) with (row_of_product rowid now p')
      by (unfold row_of_product, p'; simpl; now rewrite or_now_twice).
    apply same_fields_stored; [exact Hc|]. unfold p'. simpl. apply or_now_twice.
Qed.

(** A product without sku, name, category or date is stored at the shop. *)
Lemma insert_product_accepts_witness :
  exists t' rowid q,
    SQLiteRepository.insert_product "2024-01-03T08:00:00"
      (Product.make None "" "" "" 0 0 0 "") shop = (t', Ok rowid)
    /\ SQLiteRepository.get_product_by_sku "" t' = (t', Ok (Some q))
    /\ Product.id q = Some rowid
    /\ Product.same_fields (Product.make None "" "" "" 0 0 0 "2024-01-03T08:00:00") q = true.
Proof.
  apply (insert_product_accepts "2024-01-03T08:00:00" (Product.make None "" "" "" 0 0 0 "")
           shop).
  - reflexivity.
  - intros r [<-|[]]. discriminate.
Defined.

(** ** The console menu *)

Module Console.
Import CLI.

Lemma keeps_database_ret {A : Type} (a : A) : keeps_database (pure a).
Proof. intros w. reflexivity. Qed.

Lemma keeps_database_raise {A : Type} (x : exception) : keeps_database (throw x : Action A).
Proof. intros w. reflexivity. Qed.

Lemma keeps_database_print (p : printed) : keeps_database (print p).
Proof. intros w. reflexivity. Qed.

Lemma keeps_database_input (q : question) : keeps_database (input q).
Proof. intros w. unfold input. now destruct (stdin w). Qed.

Lemma keeps_database_utils {A : Type} (r : result A) : keeps_database (utils r).
Proof. intros w. reflexivity. Qed.

Lemma keeps_database_two_decimals (v : SQL.value) : keeps_database (two_decimals v).
Proof. intros w. now destruct v. Qed.

Lemma keeps_database_bind {A B : Type} (m : Action A) (k : A -> Action B) :
  keeps_database m -> (forall a, keeps_database (k a)) -> keeps_database (seq m k).
Proof.
  intros Hm Hk w. unfold seq. specialize (Hm w).
  destruct (m w) as [w1 [a|x]]; simpl in *; [|exact Hm].
  now rewrite Hk.
Qed.

Lemma keeps_database_prompt (q : question) : keeps_database (_prompt q).
Proof.
  unfold _prompt. apply keeps_database_bind; [apply keeps_database_input|].
  intros line. apply keeps_database_ret.
Qed.

Lemma keeps_database_app {A : Type} (m : Call A) : read_only m -> keeps_database (app m).
Proof.
  intros Hm w. unfold app. specialize (Hm (database w)).
  now destruct (m (database w)) as [t r].
Qed.

Lemma keeps_database_fails {A : Type} (m : Action A) : keeps_database m -> fails_cleanly m.
Proof. intros Hm w w' x H. specialize (Hm w). now rewrite H in Hm. Qed.

Lemma fails_cleanly_bind {A B : Type} (m : Action A) (k : A -> Action B) :
  keeps_database m -> (forall a, fails_cleanly (k a)) -> fails_cleanly (seq m k).
Proof.
  intros Hm Hk w w' x. unfold seq. specialize (Hm w).
  destruct (m w) as [w1 [a|y]]; simpl in Hm.
  - intros H. apply Hk in H. congruence.
  - intros H. inversion H; subst. exact Hm.
Qed.

Lemma fails_cleanly_app {A : Type} (m : Call A) : atomic m -> fails_cleanly (app m).
Proof.
  intros Hm w w' x. unfold app. specialize (Hm (database w)).
  destruct (m (database w)) as [t [a|e]]; [discriminate|].
  intros H. inversion H; subst. simpl. now apply (Hm t e).
Qed.

Lemma fails_cleanly_then_print {A : Type} (m : Action A) (p : A -> printed) :
  fails_cleanly m -> fails_cleanly (seq m (fun a => print (p a))).
Proof.
  intros Hm w w' x. unfold seq, print. specialize (Hm w).
  destruct (m w) as [w1 [a|y]]; [discriminate|].
  intros H. inversion H; subst. now apply (Hm w' x).
Qed.

Lemma fails_cleanly_then_ret {A B : Type} (m : Action A) (b : B) :
  fails_cleanly m -> fails_cleanly (seq m (fun _ => pure b)).
Proof.
  intros Hm w w' x. unfold seq, pure. specialize (Hm w).
  destruct (m w) as [w1 [a|y]]; [discriminate|].
  intros H. inversion H; subst. now apply (Hm w' x).
Qed.

Lemma keeps_ret {A : Type} (P : Tables -> Prop) (a : A) : keeps P (pure a).
Proof. intros w Hw. exact Hw. Qed.

Lemma keeps_of_keeps_database {A : Type} (P : Tables -> Prop) (m : Action A) :
  keeps_database m -> keeps P m.
Proof. intros Hm w Hw. now rewrite Hm. Qed.

Lemma keeps_bind {A B : Type} (P : Tables -> Prop) (m : Action A) (k : A -> Action B) :
  keeps P m -> (forall a, keeps P (k a)) -> keeps P (seq m k).
Proof.
  intros Hm Hk w Hw. unfold seq. specialize (Hm w Hw).
  destruct (m w) as [w1 [a|x]]; simpl in *; [now apply Hk | exact Hm].
Qed.

Lemma keeps_app {A : Type} (P : Tables -> Prop) (m : Call A) :
  preserves P m -> keeps P (app m).
Proof.
  intros Hm w Hw. unfold app. specialize (Hm (database w) Hw).
  now destruct (m (database w)) as [t r].
Qed.

Lemma reads_ahead_ret {A : Type} (a : A) : reads_ahead (pure a).
Proof. intros w. now exists []. Qed.

Lemma reads_ahead_raise {A : Type} (x : exception) : reads_ahead (throw x : Action A).
Proof. intros w. now exists []. Qed.

Lemma reads_ahead_print (p : printed) : reads_ahead (print p).
Proof. intros w. now exists []. Qed.

Lemma reads_ahead_input (q : question) : reads_ahead (input q).
Proof.
  intros w. unfold input. destruct (stdin w) as [|line rest]; [now exists []|].
  now exists [line].
Qed.

Lemma reads_ahead_utils {A : Type} (r : result A) : reads_ahead (utils r).
Proof. intros w. now exists []. Qed.

Lemma reads_ahead_two_decimals (v : SQL.value) : reads_ahead (two_decimals v).
Proof. intros w. exists []. now destruct v. Qed.

Lemma reads_ahead_app {A : Type} (m : Call A) : reads_ahead (app m).
Proof. intros w. exists []. unfold app. now destruct (m (database w)). Qed.

Lemma reads_ahead_bind {A B : Type} (m : Action A) (k : A -> Action B) :
  reads_ahead m -> (forall a, reads_ahead (k a)) -> reads_ahead (seq m k).
Proof.
  intros Hm Hk w. unfold seq. destruct (Hm w) as [c1 H1].
  destruct (m w) as [w1 [a|x]]; simpl in *; [|now exists c1].
  destruct (Hk a w1) as [c2 H2]. exists (c1 ++ c2)%list.
  now rewrite H1, H2 at 1; rewrite app_assoc.
Qed.

Ltac reading :=
  repeat first
    [ apply reads_ahead_ret | apply reads_ahead_raise | apply reads_ahead_print
    | apply reads_ahead_input | apply reads_ahead_utils | apply reads_ahead_two_decimals
    | apply reads_ahead_app
    | apply reads_ahead_bind; [|intros ?]
    | match goal with
      | |- reads_ahead (if ?b then _ else _) => destruct b
      | |- reads_ahead (match ?o with Some _ => _ | None => _ end) => destruct o
      end ].

Section Collaborators.

Variable to_float : string -> field -> result float.
Variable to_int : string -> field -> result Z.
Variable load_initial_json : string -> option (list Product.t).
Variable config : AppConfig.

Ltac quiet :=
  repeat first
    [ apply keeps_database_ret | apply keeps_database_raise | apply keeps_database_print
    | apply keeps_database_prompt | apply keeps_database_input
    | apply keeps_database_utils
    | apply keeps_database_two_decimals
    | apply keeps_database_bind; [|intros ?]
    | match goal with
      | |- keeps_database (if ?b then _ else _) => destruct b
      end ].

Ltac clean call :=
  repeat first
    [ apply fails_cleanly_then_print; apply fails_cleanly_app; apply call
    | apply fails_cleanly_bind; [solve [quiet] | intros ?]
    | match goal with
      | |- fails_cleanly (if ?b then _ else _) => destruct b
      end
    | apply keeps_database_fails; solve [quiet] ].

Lemma action_list_inventory_quiet : keeps_database action_list_inventory.
Proof.
  unfold action_list_inventory. apply keeps_database_bind; [|intros ?; quiet].
  apply keeps_database_app. intros t. reflexivity.
Qed.

Lemma action_dashboard_quiet : keeps_database action_dashboard.
Proof.
  unfold action_dashboard. apply keeps_database_bind; [|intros ?; quiet].
  apply keeps_database_app. unfold get_dashboard_data. apply read_only_get_sales_stats.
Qed.

Lemma action_add_product_clean now : fails_cleanly (action_add_product to_float to_int config now).
Proof. unfold action_add_product. clean add_product_atomic. Qed.

Lemma action_update_product_clean : fails_cleanly (action_update_product to_float to_int).
Proof. unfold action_update_product. clean update_product_service_atomic. Qed.

Lemma action_delete_product_clean : fails_cleanly action_delete_product.
Proof. unfold action_delete_product. clean delete_product_service_atomic. Qed.

Lemma action_sell_product_clean now : fails_cleanly (action_sell_product to_int now).
Proof. unfold action_sell_product. clean sell_product_atomic. Qed.


Lemma action_list_inventory_clean : fails_cleanly action_list_inventory.
Proof. apply keeps_database_fails, action_list_inventory_quiet. Qed.

Lemma action_dashboard_clean : fails_cleanly action_dashboard.
Proof. apply keeps_database_fails, action_dashboard_quiet. Qed.

(** The world after the menu was printed and the choice was read. *)
Lemma choose_eq (now : string) (w : World) :
  choose to_float to_int load_initial_json config now w
  = match stdin w with
    | [] =>
        ({| database := database w; stdin := [];
            stdout := (stdout w ++ [Menu]) ++ [Asked Votre_choix] |}, Raised EOFError)
    | line :: rest =>
        let w1 := {| database := database w; stdin := rest;
                     stdout := (stdout w ++ [Menu]) ++ [Asked Votre_choix] |} in
        let choice := PyStr.strip line in
        if String.eqb choice "1"
        then seq (action_initialize load_initial_json now) (fun _ => pure None) w1
        else if String.eqb choice "2" then seq action_list_inventory (fun _ => pure None) w1
        else if String.eqb choice "3"
        then seq (action_add_product to_float to_int config now) (fun _ => pure None) w1
        else if String.eqb choice "4"
        then seq (action_update_product to_float to_int) (fun _ => pure None) w1
        else if String.eqb choice "5" then seq action_delete_product (fun _ => pure None) w1
        else if String.eqb choice "6"
        then seq (action_sell_product to_int now) (fun _ => pure None) w1
        else if String.eqb choice "7" then seq action_dashboard (fun _ => pure None) w1
        else if String.eqb choice "8"
        then ({| database := database w; stdin := rest;
                 stdout := ((stdout w ++ [Menu]) ++ [Asked Votre_choix]) ++ [Au_revoir] |},
              Returned (Some 0))
        else ({| database := database w; stdin := rest;
                 stdout := ((stdout w ++ [Menu]) ++ [Asked Votre_choix]) ++ [Choix_invalide] |},
              Returned None)
    end.
Proof.
  unfold choose, print_menu, _prompt, input. unfold seq at 1 2 3. unfold print at 1. simpl.
  destruct (stdin w) as [|line rest]; [reflexivity|]. simpl.
  repeat match goal with
         | |- context [if String.eqb ?a ?b then _ else _] => destruct (String.eqb a b)
         end; reflexivity.
Qed.

Lemma then_ret_none_continues {A : Type} (m : Action A) (w w' : World) (code : Z) :
  seq m (fun _ => pure (None : option Z)) w <> (w', Returned (Some code)).
Proof. unfold seq, pure. destruct (m w) as [w1 [a|x]]; discriminate. Qed.

Lemma choose_exit (now : string) (w w' : World) (code : Z) :
  choose to_float to_int load_initial_json config now w = (w', Returned (Some code)) ->
  code = 0
  /\ exists line rest,
       stdin w = line :: rest /\ PyStr.strip line = "8"
       /\ w' = {| database := database w; stdin := rest;
                  stdout := stdout w ++ [Menu; Asked Votre_choix; Au_revoir] |}.
Proof.
  rewrite choose_eq. destruct (stdin w) as [|line rest]; [discriminate|]. cbv zeta.
  repeat match goal with
         | |- context [if String.eqb ?a ?b then _ else _] =>
             destruct (String.eqb a b) eqn:?
         end;
    try (intros H; now apply then_ret_none_continues in H); try discriminate.
  intros H. inversion H; subst. split; [reflexivity|]. exists line, rest.
  split; [reflexivity|]. split; [now apply String.eqb_eq|].
  now rewrite <- !app_assoc.
Qed.

(** The import before the tables are dropped: the path is read and the file
    is loaded. *)
Lemma action_initialize_clean (now : string) (w w' : World) (x : exception) :
  action_initialize load_initial_json now w = (w', Raised x) ->
  x = DataImportError \/ x = EOFError ->
  database w' = database w.
Proof.
  unfold action_initialize, app_initialize_from_json, _prompt, input, seq, pure. simpl.
  destruct (stdin w) as [|line rest]; [intros H _; now inversion H|]. simpl.
  destruct (load_initial_json (PyStr.strip line)) as [payload|];
    [|intros H _; now inversion H].
  unfold app, print. simpl.
  destruct (InventoryManager.initialize_from_json now payload true (database w))
    as [t [count|e]]; [discriminate|].
  intros H [Hx|Hx]; inversion H; subst; discriminate.
Qed.

Lemma choose_clean (now : string) (w w' : World) (x : exception) :
  choose to_float to_int load_initial_json config now w = (w', Raised x) ->
  (forall line rest, stdin w = line :: rest -> PyStr.strip line = "1" ->
                     x = DataImportError \/ x = EOFError) ->
  database w' = database w.
Proof.
  rewrite choose_eq. destruct (stdin w) as [|line rest] eqn:Hin.
  - intros H _. now inversion H.
  - intros H Hone. specialize (Hone line rest eq_refl). cbv zeta in H.
    set (w1 := {| database := database w; stdin := rest;
                  stdout := (stdout w ++ [Menu]) ++ [Asked Votre_choix] |}) in *.
    change (database w) with (database w1).
    destruct (String.eqb (PyStr.strip line) "1") eqn:H1.
    + apply String.eqb_eq in H1. specialize (Hone H1). revert H.
      unfold seq at 1.
      destruct (action_initialize load_initial_json now w1) as [w2 [[]|y]] eqn:Ha;
        [discriminate|].
      intros H. inversion H; subst. now apply (action_initialize_clean now w1 w' x).
    + clear Hone.
      repeat match type of H with
             | context [if String.eqb ?a ?b then _ else _] => destruct (String.eqb a b)
             end;
        try discriminate H; revert H; apply fails_cleanly_then_ret;
        first [ apply action_list_inventory_clean | apply action_add_product_clean
              | apply action_update_product_clean | apply action_delete_product_clean
              | apply action_sell_product_clean | apply action_dashboard_clean ].
Qed.

(** Every action keeps the constraints of the schema. *)
Ltac kept_by call :=
  repeat first
    [ apply keeps_app; apply call
    | apply keeps_of_keeps_database; solve [quiet]
    | apply keeps_bind; [|intros ?]
    | match goal with
      | |- keeps _ (if ?b then _ else _) => destruct b
      end ].

Lemma action_initialize_ok now : keeps schema_ok (action_initialize load_initial_json now).
Proof.
  unfold action_initialize, app_initialize_from_json.
  apply keeps_bind; [apply keeps_of_keeps_database; quiet | intros path].
  apply keeps_bind; [|intros count; apply keeps_of_keeps_database; quiet].
  destruct (load_initial_json path) as [payload|].
  - apply keeps_app, Invariant.initialize_from_json_ok.
  - apply keeps_of_keeps_database; quiet.
Qed.

Lemma action_add_product_ok now :
  keeps schema_ok (action_add_product to_float to_int config now).
Proof. unfold action_add_product. kept_by Invariant.add_product_ok. Qed.

Lemma action_update_product_ok : keeps schema_ok (action_update_product to_float to_int).
Proof. unfold action_update_product. kept_by Invariant.update_product_service_ok. Qed.

Lemma action_delete_product_ok : keeps schema_ok action_delete_product.
Proof. unfold action_delete_product. kept_by Invariant.delete_product_service_ok. Qed.

Lemma action_sell_product_ok now : keeps schema_ok (action_sell_product to_int now).
Proof. unfold action_sell_product. kept_by Invariant.sell_product_ok. Qed.

Lemma then_ret_keeps {A B : Type} (P : Tables -> Prop) (m : Action A) (b : B) :
  keeps P m -> keeps P (seq m (fun _ => pure b)).
Proof. intros Hm. apply keeps_bind; [exact Hm | intros _; apply keeps_ret]. Qed.

Lemma choose_ok now : keeps schema_ok (choose to_float to_int load_initial_json config now).
Proof.
  intros w Hw. rewrite choose_eq. destruct (stdin w) as [|line rest]; [exact Hw|].
  cbv zeta.
  set (w1 := {| database := database w; stdin := rest;
                stdout := (stdout w ++ [Menu]) ++ [Asked Votre_choix] |}).
  change (schema_ok (database w1)) in Hw.
  repeat match goal with
         | |- context [if String.eqb ?a ?b then _ else _] => destruct (String.eqb a b)
         end;
    try exact Hw; revert w1 Hw; apply then_ret_keeps;
    first [ apply action_initialize_ok
          | apply keeps_of_keeps_database, action_list_inventory_quiet
          | apply action_add_product_ok | apply action_update_product_ok
          | apply action_delete_product_ok | apply action_sell_product_ok
          | apply keeps_of_keeps_database, action_dashboard_quiet ].
Qed.

Lemma pass_ok (now : string) (w : World) :
  schema_ok (database w) ->
  schema_ok (database (fst (pass to_float to_int load_initial_json config now w))).
Proof.
  intros Hw. unfold pass. pose proof (choose_ok now w Hw) as H.
  destruct (choose _ _ _ _ now w) as [w' [code|x]]; exact H.
Qed.

Lemma choose_reads now : reads_ahead (choose to_float to_int load_initial_json config now).
Proof.
  unfold choose, print_menu, _prompt, action_initialize, app_initialize_from_json,
    action_list_inventory, action_add_product, action_update_product,
    action_delete_product, action_sell_product, action_dashboard.
  reading.
Qed.

Lemma pass_reads (now : string) (w : World) :
  exists consumed,
    stdin w
    = (consumed ++ stdin (fst (pass to_float to_int load_initial_json config now w)))%list.
Proof.
  unfold pass. destruct (choose_reads now w) as [c Hc]. exists c.
  now destruct (choose _ _ _ _ now w) as [w' [code|x]].
Qed.

End Collaborators.
End Console.

(** ** Properties of the console menu *)

Section Menu.

Variable to_float : string -> CLI.field -> result float.
Variable to_int : string -> CLI.field -> result Z.
Variable load_initial_json : string -> option (list Product.t).
Variable config : AppConfig.

Lemma pass_exit (now : string) (w w' : CLI.World) (code : Z) :
  CLI.pass to_float to_int load_initial_json config now w = (w', Some code) ->
  code = 0
  /\ exists line rest,
       CLI.stdin w = line :: rest /\ PyStr.strip line = "8"
       /\ w' = {| CLI.database := CLI.database w; CLI.stdin := rest;
                  CLI.stdout := CLI.stdout w
                                ++ [CLI.Menu; CLI.Asked CLI.Votre_choix; CLI.Au_revoir] |}.
Proof.
  unfold CLI.pass. destruct (CLI.choose to_float to_int load_initial_json config now w) as [w1 [r|x]] eqn:Hc; [|discriminate].
  intros H. inversion H; subst. now apply Console.choose_exit in Hc.
Qed.

(** X18.  The loop of [main] is left in one way only: with exit code 0, by a
    pass that printed the menu, read a line that is 8 once stripped, and
    printed the farewell without touching the database; no exception ends
    it.  The lines [main] has read by then are the first lines of the input,
    that line being the last of them.  A pass that reads such a line does
    leave the loop. *)
Theorem main_exits_on_8_only :
  (forall now w w' code,
      CLI.pass to_float to_int load_initial_json config now w = (w', Some code) ->
      code = 0
      /\ exists line rest,
           CLI.stdin w = line :: rest /\ PyStr.strip line = "8"
           /\ w' = {| CLI.database := CLI.database w; CLI.stdin := rest;
                      CLI.stdout := CLI.stdout w
                                    ++ [CLI.Menu; CLI.Asked CLI.Votre_choix; CLI.Au_revoir] |})
  /\ (forall clock w w' code,
         CLI.main to_float to_int load_initial_json config clock w = (w', Some code) ->
         code = 0
         /\ exists before line,
              CLI.stdin w = (before ++ line :: CLI.stdin w')%list
              /\ PyStr.strip line = "8")
  /\ (forall now later t line rest out,
         PyStr.strip line = "8" ->
         CLI.main to_float to_int load_initial_json config (now :: later)
           {| CLI.database := t; CLI.stdin := line :: rest; CLI.stdout := out |}
         = ({| CLI.database := t; CLI.stdin := rest;
               CLI.stdout := out ++ [CLI.Menu; CLI.Asked CLI.Votre_choix; CLI.Au_revoir] |},
            Some 0)).
Proof.
  split; [exact pass_exit|]. split.
  - intros clock. induction clock as [|now later IH]; intros w w' code; simpl;
      [discriminate|].
    destruct (Console.pass_reads to_float to_int load_initial_json config now w)
      as [c Hc].
    destruct (CLI.pass to_float to_int load_initial_json config now w) as [w1 [k|]] eqn:Hp.
    + intros H. inversion H; subst.
      apply pass_exit in Hp as (Hk & line & rest & Hin & Hl & Hw).
      split; [exact Hk|]. exists [], line. rewrite Hw. simpl. now split.
    + intros H. apply IH in H as (Hk & before & line & Hin & Hl).
      split; [exact Hk|]. exists (c ++ before)%list, line. split; [|exact Hl].
      simpl in Hc. now rewrite Hc, Hin, app_assoc.
  - intros now later t line rest out Hl. cbn [CLI.main]. unfold CLI.pass.
    rewrite Console.choose_eq. simpl. rewrite Hl. simpl.
    now rewrite <- !app_assoc.
Qed.

(** X19.  At the end of the input the loop of [main] never ends: each pass
    prints the menu, asks for the choice, gets EOFError from [input()] and
    reports it as an unexpected error; the database is not touched. *)
Theorem main_at_end_of_input (clock : list string) (t : Tables) (out : list CLI.printed) :
  CLI.main to_float to_int load_initial_json config clock {| CLI.database := t; CLI.stdin := []; CLI.stdout := out |}
  = ({| CLI.database := t; CLI.stdin := [];
        CLI.stdout :=
          out ++ flat_map (fun _ => [CLI.Menu; CLI.Asked CLI.Votre_choix;
                                     CLI.Erreur_inattendue CLI.EOFError]) clock |},
     None).
Proof.
  revert out. induction clock as [|now later IH]; intros out.
  - simpl. now rewrite app_nil_r.
  - cbn [CLI.main]. unfold CLI.pass. rewrite Console.choose_eq. simpl. rewrite IH.
    now rewrite <- !app_assoc.
Qed.

(** X20.  A menu choice that ends in an error message has not changed the
    database, unless the choice was the import and the file was loaded: a
    pass whose action raises (for choice 1: EOFError while the path is read,
    or DataImportError from [load_initial_json]) prints the message of the
    matching except clause, keeps the loop running, and leaves the database
    exactly as it was before the pass. *)
Theorem failed_choice_changes_nothing (now : string) (w w' : CLI.World) (x : CLI.exception) :
  CLI.choose to_float to_int load_initial_json config now w = (w', CLI.Raised x) ->
  (forall line rest, CLI.stdin w = line :: rest -> PyStr.strip line = "1" ->
                     x = CLI.DataImportError \/ x = CLI.EOFError) ->
  CLI.pass to_float to_int load_initial_json config now w
  = ({| CLI.database := CLI.database w; CLI.stdin := CLI.stdin w';
        CLI.stdout := CLI.stdout w' ++ [CLI.report x] |}, None).
Proof.
  intros Hc Hone. unfold CLI.pass. rewrite Hc. simpl.
  now rewrite (Console.choose_clean _ _ _ _ now w w' x Hc Hone).
Qed.

(** X21.  [action_delete_product] deletes nothing without the confirmation:
    when it leaves a database that differs from the one it found, the second
    line it read is y or Y once stripped, and [delete_product] has returned
    for the sku of the first line. *)
Theorem delete_needs_confirmation (w w' : CLI.World) (r : CLI.outcome unit) :
  CLI.action_delete_product w = (w', r) ->
  CLI.database w' <> CLI.database w ->
  exists sku confirm rest,
    CLI.stdin w = sku :: confirm :: rest
    /\ (PyStr.strip confirm = "y" \/ PyStr.strip confirm = "Y")
    /\ InventoryManager.delete_product (PyStr.strip sku) (CLI.database w)
       = (CLI.database w', Ok tt).
Proof.
  unfold CLI.action_delete_product, CLI._prompt, CLI.input, CLI.seq, CLI.pure. simpl.
  destruct (CLI.stdin w) as [|sku [|confirm rest]]; simpl.
  - intros H. inversion H; subst. now intros [].
  - intros H. inversion H; subst. now intros [].
  - unfold PyStr.lower_is_y.
    destruct (String.eqb (PyStr.strip confirm) "y" || String.eqb (PyStr.strip confirm) "Y")
      eqn:Hy.
    2: { intros H. inversion H; subst. now intros []. }
    unfold CLI.app, CLI.print. simpl.
    destruct (InventoryManager.delete_product (PyStr.strip sku) (CLI.database w))
      as [t [[]|e]] eqn:Hd; simpl; intros H; inversion H; subst; simpl; intros Hne.
    + exists sku, confirm, rest. split; [reflexivity|]. split; [|exact Hd].
      apply orb_prop in Hy as [Hy|Hy]; apply String.eqb_eq in Hy; auto.
    + exfalso. apply Hne. now apply (delete_product_service_atomic _ _ _ _ Hd).
Qed.

(** X22.  A blank answer to the VAT question of [action_add_product] means the
    configured default, and [to_float] is not asked about it: when the sixth
    line read is empty once stripped, the action does the same whatever
    [to_float] answers for the field TVA, and when it returns, one product
    row was added, with the default VAT rate of the configuration. *)
Theorem blank_vat_means_default (now : string) (w w' : CLI.World)
    (sku name cat price qty vat : string) (rest : list string) :
  CLI.stdin w = sku :: name :: cat :: price :: qty :: vat :: rest ->
  PyStr.strip vat = "" ->
  (forall to_float' : string -> CLI.field -> result float,
      (forall text, to_float' text CLI.Prix_HT = to_float text CLI.Prix_HT) ->
      CLI.action_add_product to_float' to_int config now w
      = CLI.action_add_product to_float to_int config now w)
  /\ (CLI.action_add_product to_float to_int config now w = (w', CLI.Returned tt) ->
      CLI.stdin w' = rest
      /\ exists row,
           products (CLI.database w') = (products (CLI.database w) ++ [row])%list
           /\ Validation.validate_sku (PyStr.strip sku) = Ok (ProductRow.sku row)
           /\ PyFloat.eqb (default_vat_rate config) (ProductRow.vat_rate row) = true).
Proof.
  intros Hin Hvat. split.
  - intros to_float' Hsame.
    unfold CLI.action_add_product, CLI._prompt, CLI.input, CLI.seq, CLI.pure, CLI.print,
      CLI.utils. simpl. rewrite Hin. simpl. rewrite Hsame.
    destruct (to_float (PyStr.strip price) CLI.Prix_HT) as [x|e]; [|reflexivity]. simpl.
    destruct (to_int (PyStr.strip qty) CLI.Quantite) as [n|e]; [|reflexivity]. simpl.
    rewrite Hvat. reflexivity.
  - unfold CLI.action_add_product, CLI._prompt, CLI.input, CLI.seq, CLI.pure, CLI.print,
      CLI.utils. simpl. rewrite Hin. simpl.
    destruct (to_float (PyStr.strip price) CLI.Prix_HT) as [x|e]; [|discriminate]. simpl.
    destruct (to_int (PyStr.strip qty) CLI.Quantite) as [n|e]; [|discriminate]. simpl.
    rewrite Hvat. simpl. unfold CLI.app. simpl.
    destruct (add_product config now (PyStr.strip sku) (PyStr.strip name) (PyStr.strip cat)
                x n None (CLI.database w)) as [t [p|e]] eqn:Hadd; [|discriminate].
    intros H. inversion H; subst; clear H. simpl. split; [reflexivity|].
    apply add_product_inv in Hadd as (s & name' & cat' & rowid & Hs & _ & _ & Hpe & Hi).
    apply insert_product_inv in Hi as (_ & Hc & _ & Hp & _).
    exists (row_of_product rowid now p). split; [exact Hp|]. split.
    + now rewrite Hpe.
    + unfold SQL.product_constraints in Hc. split_andb.
      replace (default_vat_rate config) with (Product.vat_rate p) by now rewrite Hpe.
      now apply stored_real_equal.
Qed.

(** X23.  On a database that satisfies the schema [action_dashboard] never
    fails on a missing total: it prints the seven lines of the dashboard,
    with the number of sales, the units sold and the three totals as numbers,
    or, when the units sold exceed 2^63 - 1, raises DatabaseError before it
    prints anything. *)
Theorem action_dashboard_prints (w : CLI.World) :
  schema_ok (CLI.database w) ->
  CLI.action_dashboard w
  = if int_sum (map SaleRow.quantity (sales (CLI.database w))) <=? SQL.INT64_MAX
    then
      ({| CLI.database := CLI.database w;
          CLI.stdin := CLI.stdin w;
          CLI.stdout :=
            CLI.stdout w ++
            [CLI.Tableau_de_bord_des_ventes;
             CLI.Nombre_de_ventes
               (SQL.Integer (Z.of_nat (List.length (sales (CLI.database w)))));
             CLI.Articles_vendus
               (SQL.Integer (int_sum (map SaleRow.quantity (sales (CLI.database w)))));
             CLI.Chiffre_d_affaires_HT
               (SQL.Real (float_sum (map SaleRow.total_ht (sales (CLI.database w)))));
             CLI.Total_TVA_collectee
               (SQL.Real (float_sum (map SaleRow.total_vat (sales (CLI.database w)))));
             CLI.Chiffre_d_affaires_TTC
               (SQL.Real (float_sum (map SaleRow.total_ttc (sales (CLI.database w)))));
             CLI.Fin_du_tableau_de_bord] |}, CLI.Returned tt)
    else (w, CLI.Raised (CLI.Raised_by_app (DatabaseError Erreur_SQLite))).
Proof.
  intros Hok. unfold CLI.action_dashboard, CLI.seq at 1, CLI.app, get_dashboard_data.
  rewrite (get_sales_stats_exact _ Hok).
  destruct (int_sum _ <=? SQL.INT64_MAX); [|now destruct w].
  unfold CLI.seq, CLI.print, CLI.two_decimals, CLI.pure. simpl.
  now rewrite <- !app_assoc.
Qed.

(** X24.  Whatever is typed at the menu and whatever the imported files hold,
    the database satisfies the schema after every pass of the loop. *)
Theorem main_keeps_schema (clock : list string) (w : CLI.World) :
  schema_ok (CLI.database w) -> schema_ok (CLI.database (fst (CLI.main to_float to_int load_initial_json config clock w))).
Proof.
  revert w. induction clock as [|now later IH]; intros w Hw; simpl; [exact Hw|].
  pose proof (Console.pass_ok to_float to_int load_initial_json config now w Hw) as Hp.
  destruct (CLI.pass to_float to_int load_initial_json config now w) as [w1 [code|]]; [exact Hp | now apply IH].
Qed.

End Menu.

(** An invalid choice, then 8 between blanks: [main] ends with the third line
    unread. *)
Lemma main_exits_on_8_only_witness :
  0 = 0
  /\ exists before line,
       ["9"; " 8 "; "2"] = (before ++ line :: ["2"])%list /\ PyStr.strip line = "8".
Proof.
  apply (proj1 (proj2 (main_exits_on_8_only example_to_float example_to_int example_load
                         config_20))
           ["2024-01-02T10:00:00"; "2024-01-02T10:01:00"; "2024-01-02T10:02:00"]
           (at_the_shop ["9"; " 8 "; "2"])
           {| CLI.database := shop; CLI.stdin := ["2"];
              CLI.stdout := [CLI.Menu; CLI.Asked CLI.Votre_choix; CLI.Choix_invalide;
                             CLI.Menu; CLI.Asked CLI.Votre_choix; CLI.Au_revoir] |}
           0).
  vm_compute. reflexivity.
Defined.

(** A file that cannot be loaded is chosen for the import at the shop: the
    tables are not dropped. *)
Lemma failed_choice_changes_nothing_witness :
  CLI.pass example_to_float example_to_int example_load config_20 "2024-01-02T10:00:00"
    (at_the_shop ["1"; "stock.json"; "8"])
  = ({| CLI.database := shop; CLI.stdin := ["8"];
        CLI.stdout := [CLI.Menu; CLI.Asked CLI.Votre_choix;
                       CLI.Asked CLI.Chemin_du_fichier_JSON;
                       CLI.Erreur CLI.DataImportError] |}, None).
Proof.
  apply (failed_choice_changes_nothing example_to_float example_to_int example_load config_20
           "2024-01-02T10:00:00" (at_the_shop ["1"; "stock.json"; "8"])
           {| CLI.database := shop; CLI.stdin := ["8"];
              CLI.stdout := [CLI.Menu; CLI.Asked CLI.Votre_choix;
                             CLI.Asked CLI.Chemin_du_fichier_JSON] |}
           CLI.DataImportError).
  - vm_compute. reflexivity.
  - intros line rest _ _. now left.
Defined.

(** SKU1 deleted from the shop after a confirmation in upper case. *)
Lemma delete_needs_confirmation_witness :
  exists sku confirm rest,
    ["SKU1"; " Y"; "8"] = sku :: confirm :: rest
    /\ (PyStr.strip confirm = "y" \/ PyStr.strip confirm = "Y")
    /\ InventoryManager.delete_product (PyStr.strip sku) shop
       = ({| products := []; sales := []; seq_products := 1; seq_sales := 0 |}, Ok tt).
Proof.
  apply (delete_needs_confirmation (at_the_shop ["SKU1"; " Y"; "8"])
           {| CLI.database := {| products := []; sales := []; seq_products := 1;
                                 seq_sales := 0 |};
              CLI.stdin := ["8"];
              CLI.stdout := [CLI.Asked CLI.SKU_du_produit_a_supprimer;
                             CLI.Asked (CLI.Confirmer_la_suppression "SKU1");
                             CLI.Produit_supprime "SKU1"] |}
           (CLI.Returned tt)).
  - vm_compute. reflexivity.
  - simpl. discriminate.
Defined.

(** A product added, three units of SKU1 sold and a file imported. *)
Lemma main_keeps_schema_witness :
  schema_ok
    (CLI.database
       (fst (CLI.main example_to_float example_to_int example_load config_20
               ["2024-01-02T10:00:00"; "2024-01-02T10:01:00"; "2024-01-02T10:02:00"]
               (at_the_shop ["3"; "A1"; "Gadget"; "Toys"; "9.99"; "10"; "";
                             "6"; "SKU1"; "3";
                             "1"; "data/initial_stock.json"])))).
Proof.
  apply (main_keeps_schema example_to_float example_to_int example_load config_20).
  exact shop_ok.
Defined.

(** A1 added at the shop with blanks for the VAT rate: a [to_float] that
    refuses every VAT rate changes nothing. *)
Lemma blank_vat_means_default_witness :
  CLI.action_add_product strict_to_float example_to_int config_20 "2024-01-03T08:00:00"
    (at_the_shop ["A1"; "Gadget"; "Toys"; "9.99"; "10"; "  "; "8"])
  = CLI.action_add_product example_to_float example_to_int config_20 "2024-01-03T08:00:00"
      (at_the_shop ["A1"; "Gadget"; "Toys"; "9.99"; "10"; "  "; "8"])
  /\ CLI.stdin
       (fst (CLI.action_add_product example_to_float example_to_int config_20
               "2024-01-03T08:00:00"
               (at_the_shop ["A1"; "Gadget"; "Toys"; "9.99"; "10"; "  "; "8"])))
     = ["8"]
  /\ exists row,
       products
         (CLI.database
            (fst (CLI.action_add_product example_to_float example_to_int config_20
                    "2024-01-03T08:00:00"
                    (at_the_shop ["A1"; "Gadget"; "Toys"; "9.99"; "10"; "  "; "8"]))))
       = (products (CLI.database
                      (at_the_shop ["A1"; "Gadget"; "Toys"; "9.99"; "10"; "  "; "8"]))
          ++ [row])%list
       /\ Validation.validate_sku (PyStr.strip "A1") = Ok (ProductRow.sku row)
       /\ PyFloat.eqb (default_vat_rate config_20) (ProductRow.vat_rate row) = true.
Proof.
  destruct (blank_vat_means_default example_to_float example_to_int config_20
              "2024-01-03T08:00:00"
              (at_the_shop ["A1"; "Gadget"; "Toys"; "9.99"; "10"; "  "; "8"])
              (fst (CLI.action_add_product example_to_float example_to_int config_20
                      "2024-01-03T08:00:00"
                      (at_the_shop ["A1"; "Gadget"; "Toys"; "9.99"; "10"; "  "; "8"])))
              "A1" "Gadget" "Toys" "9.99" "10" "  " ["8"] eq_refl eq_refl)
    as [Hsame Hadded].
  split.
  - apply Hsame. reflexivity.
  - apply Hadded. vm_compute. reflexivity.
Defined.

(** The dashboard of the shop after its first sale. *)
Lemma action_dashboard_prints_witness :
  CLI.action_dashboard
    {| CLI.database := shop_after_sale; CLI.stdin := ["8"]; CLI.stdout := [] |}
  = ({| CLI.database := shop_after_sale; CLI.stdin := ["8"];
        CLI.stdout := [CLI.Tableau_de_bord_des_ventes;
                       CLI.Nombre_de_ventes (SQL.Integer 1);
                       CLI.Articles_vendus (SQL.Integer 3);
                       CLI.Chiffre_d_affaires_HT (SQL.Real 30);
                       CLI.Total_TVA_collectee (SQL.Real 6);
                       CLI.Chiffre_d_affaires_TTC (SQL.Real 36);
                       CLI.Fin_du_tableau_de_bord] |}, CLI.Returned tt).
Proof.
  exact (action_dashboard_prints
           {| CLI.database := shop_after_sale; CLI.stdin := ["8"]; CLI.stdout := [] |}
           shop_after_sale_ok).
Defined.
